(** * SmartChatClient: the tool-use orchestration loop of smart_chat_client.py

    A shallow embedding of [SmartChatClient] (src/smart_chat_client.py):
    [_extract_tool_calls], [_call_ollama], [_format_tools_description],
    [query_ollama_with_tools] and [main], and of the tools [read_notes] and
    [search_duckduckgo] of src/mcp_server.py, together with the parts of
    the Python runtime they rest on ([str] as a sequence of code points,
    [dict], [re.finditer] for the pattern the client uses, [json.loads],
    [print]).

    Conventions.
    - A Python [str] is a list of Unicode code points ([pystr]); slicing and
      [len] count code points, as Python does.
    - A Python value that can come out of [json.loads] is a [value].
    - An exception is a class and the text [str(e)] gives.  Only subclasses
      of [Exception] are modelled.
    - The console is a UTF-8 stream with the strict error handler, Python's
      default: [print] raises [UnicodeEncodeError] on a text that holds a
      surrogate code point and on nothing else.  What is printed is not
      kept; a [print] is modelled where its text holds a [str] of the run,
      and left out where its text is fixed, a number or made by [repr],
      which can hold no surrogate.
    - Two limits of the interpreter are parameters ([interpreter]): how
      many JSON containers, one inside another, [json.loads] can enter
      before the recursion limit is reached, and the digit limit of [int].
      Memory is not modelled.
    - The HTTP backend and the MCP session are the environment: each request
      the client makes is appended to an event log, and the environment
      answers as a function of the log so far and of the request. *)

From Stdlib Require Import String Ascii List NArith ZArith Bool Lia Arith.
Import ListNotations.

Set Implicit Arguments.
Set Warnings "-register-all".

(* ================================================================== *)
(** ** Python strings *)

Module PyStr.

(** A code point. *)
Definition char := N.

(** A Python [str]. *)
Definition pystr := list char.

Definition char_eqb (a b : char) : bool := N.eqb a b.

Fixpoint eqb (a b : pystr) : bool :=
  match a, b with
  | [], [] => true
  | x :: a', y :: b' => char_eqb x y && eqb a' b'
  | _, _ => false
  end.

(** The continuation byte of a UTF-8 sequence carries its low six bits. *)
Definition cont (a : ascii) : N := N.land (N_of_ascii a) 63.

(** Reads the UTF-8 bytes of a literal of this file as code points. *)
Fixpoint utf8 (s : string) : pystr :=
  match s with
  | EmptyString => []
  | String a r =>
      let b := N_of_ascii a in
      if (b <? 128)%N then b :: utf8 r
      else if (b <? 224)%N then
        match r with
        | String a1 r1 => ((b - 192) * 64 + cont a1)%N :: utf8 r1
        | _ => []
        end
      else if (b <? 240)%N then
        match r with
        | String a1 (String a2 r2) =>
            ((b - 224) * 4096 + cont a1 * 64 + cont a2)%N :: utf8 r2
        | _ => []
        end
      else
        match r with
        | String a1 (String a2 (String a3 r3)) =>
            ((b - 240) * 262144 + cont a1 * 4096 + cont a2 * 64 + cont a3)%N
              :: utf8 r3
        | _ => []
        end
  end.

(** [s.replace(old, new)] for one-character [old] and [new]. *)
Definition replace_char (old new : char) (s : pystr) : pystr :=
  map (fun c => if char_eqb c old then new else c) s.

(** [s[:n]]. *)
Definition slice_to (n : nat) (s : pystr) : pystr := firstn n s.

(** [l[-n:]] for a list [l] and [n > 0]. *)
Definition last_n {A} (n : nat) (l : list A) : list A :=
  skipn (length l - n) l.

Definition startswith (p s : pystr) : bool := eqb p (firstn (length p) s).

(** [str(n)] for a number [n >= 0]. *)
Fixpoint of_uint (d : Decimal.uint) : pystr :=
  match d with
  | Decimal.Nil => []
  | Decimal.D0 r => 48%N :: of_uint r
  | Decimal.D1 r => 49%N :: of_uint r
  | Decimal.D2 r => 50%N :: of_uint r
  | Decimal.D3 r => 51%N :: of_uint r
  | Decimal.D4 r => 52%N :: of_uint r
  | Decimal.D5 r => 53%N :: of_uint r
  | Decimal.D6 r => 54%N :: of_uint r
  | Decimal.D7 r => 55%N :: of_uint r
  | Decimal.D8 r => 56%N :: of_uint r
  | Decimal.D9 r => 57%N :: of_uint r
  end.

Definition decimal (n : nat) : pystr := of_uint (Nat.to_uint n).

(** One hexadecimal digit, in lower case. *)
Definition hex_char (d : N) : char := if (d <? 10)%N then (48 + d)%N else (87 + d)%N.

(** The four hexadecimal digits of a code point below 65536. *)
Definition hex4_of (c : char) : pystr :=
  [hex_char (c / 4096); hex_char ((c / 256) mod 16);
   hex_char ((c / 16) mod 16); hex_char (c mod 16)]%N.

End PyStr.
Import PyStr.

Definition LBRACE : char := 123%N.
Definition RBRACE : char := 125%N.
Definition SQUOTE : char := 39%N.
Definition DQUOTE : char := 34%N.

(* ================================================================== *)
(** ** Python values, dicts and exceptions *)

(** The values [json.loads] produces.  A [float] keeps the text it was read
    from; a [dict] keeps its items in insertion order. *)
Inductive value :=
| PyNone
| PyBool (b : bool)
| PyInt (z : Z)
| PyFloat (literal : pystr)
| PyStr (s : pystr)
| PyList (l : list value)
| PyDict (d : list (pystr * value)).

Definition dict := list (pystr * value).

(** [d.get(k)] as an option, [None] when the key is absent. *)
Fixpoint dict_lookup (d : dict) (k : pystr) : option value :=
  match d with
  | [] => None
  | (k', v) :: d' => if PyStr.eqb k' k then Some v else dict_lookup d' k
  end.

(** [k in d]. *)
Definition dict_contains (d : dict) (k : pystr) : bool :=
  match dict_lookup d k with Some _ => true | None => false end.

(** [d.get(k, default)]. *)
Definition dict_get (d : dict) (k : pystr) (default : value) : value :=
  match dict_lookup d k with Some v => v | None => default end.

(** [d[k] = v]: an existing key keeps its place, a new one goes last. *)
Fixpoint dict_set (d : dict) (k : pystr) (v : value) : dict :=
  match d with
  | [] => [(k, v)]
  | (k', v') :: d' =>
      if PyStr.eqb k' k then (k', v) :: d' else (k', v') :: dict_set d' k v
  end.

(** [type(v).__name__]. *)
Definition type_name (v : value) : pystr :=
  match v with
  | PyNone => utf8 "NoneType"
  | PyBool _ => utf8 "bool"
  | PyInt _ => utf8 "int"
  | PyFloat _ => utf8 "float"
  | PyStr _ => utf8 "str"
  | PyList _ => utf8 "list"
  | PyDict _ => utf8 "dict"
  end.

(** Exception classes the client meets.  [JSONDecodeError] and
    [UnicodeEncodeError] are subclasses of [ValueError]; every class is a
    subclass of [Exception]. *)
Inductive exn_class :=
| Exception
| ValueError
| JSONDecodeError
| UnicodeEncodeError
| TypeError
| AttributeError
| IndexError
| RecursionError
| ConnectError
| OtherError (name : pystr).

Record exn := { exn_cls : exn_class; exn_str : pystr }.

(** [isinstance(e, c)] for [e] of class [sub]. *)
Definition subclass (sub c : exn_class) : bool :=
  match c, sub with
  | Exception, _ => true
  | ValueError, (ValueError | JSONDecodeError | UnicodeEncodeError) => true
  | JSONDecodeError, JSONDecodeError => true
  | UnicodeEncodeError, UnicodeEncodeError => true
  | RecursionError, RecursionError => true
  | TypeError, TypeError => true
  | AttributeError, AttributeError => true
  | IndexError, IndexError => true
  | ConnectError, ConnectError => true
  | OtherError n, OtherError m => PyStr.eqb n m
  | _, _ => false
  end.

(** The outcome of a Python call: a value, or a raised exception. *)
Inductive result (A : Type) :=
| Ok (a : A)
| Raise (e : exn).
Arguments Ok {A} a.
Arguments Raise {A} e.

Definition bind {A B} (r : result A) (k : A -> result B) : result B :=
  match r with
  | Ok a => k a
  | Raise e => Raise e
  end.

(** An [except (classes): handler] clause. *)
Definition except_clause (A : Type) : Type :=
  (list exn_class * (exn -> result A))%type.

(** The first clause that names a class of [e] handles it; with none, [e]
    goes on to the caller.  What a handler raises is not handled here. *)
Fixpoint handle {A} (e : exn) (clauses : list (except_clause A)) : result A :=
  match clauses with
  | [] => Raise e
  | (classes, handler) :: more =>
      if existsb (subclass (exn_cls e)) classes then handler e
      else handle e more
  end.

(** [try: body except ...: ... except ...: ...]. *)
Definition try_except {A} (body : result A) (clauses : list (except_clause A))
    : result A :=
  match body with
  | Ok a => Ok a
  | Raise e => handle e clauses
  end.

(* ================================================================== *)
(** ** The console and the limits of the interpreter *)

Definition is_surrogate (c : char) : bool := (55296 <=? c)%N && (c <=? 57343)%N.

(** The surrogates at the head of a text. *)
Fixpoint surrogate_run (s : pystr) : nat :=
  match s with
  | c :: r => if is_surrogate c then S (surrogate_run r) else 0
  | [] => 0
  end.

(** What the UTF-8 encoder raises for a text whose first surrogate is [c]
    at [position], followed by [more] surrogates. *)
Definition surrogates_not_allowed (c : char) (position more : nat) : exn :=
  {| exn_cls := UnicodeEncodeError;
     exn_str :=
       match more with
       | O =>
           utf8 "'utf-8' codec can't encode character '\u" ++ hex4_of c
           ++ utf8 "' in position " ++ decimal position
       | S _ =>
           utf8 "'utf-8' codec can't encode characters in position "
           ++ decimal position ++ utf8 "-" ++ decimal (position + more)
       end
       ++ utf8 ": surrogates not allowed" |}.

(** The error of encoding [s], which starts at [position] of the text. *)
Fixpoint encode_error (position : nat) (s : pystr) : option exn :=
  match s with
  | [] => None
  | c :: r =>
      if is_surrogate c
      then Some (surrogates_not_allowed c position (surrogate_run r))
      else encode_error (S position) r
  end.

(** [print(text)]. *)
Definition print (text : pystr) : result unit :=
  match encode_error 0 text with
  | Some e => Raise e
  | None => Ok tt
  end.

(** [print(f"{prefix}{v}...")], where what follows [v] holds no surrogate:
    a [str] is printed as it is, another value as its [repr], which
    escapes surrogates. *)
Definition print_value (prefix : pystr) (v : value) : result unit :=
  match v with
  | PyStr s => print (prefix ++ s)
  | _ => Ok tt
  end.

(** What the interpreter allows [json.loads] at the place the client calls
    it: how many containers (objects and arrays), one inside another, the
    scanner can enter before the recursion limit is reached, and
    [sys.get_int_max_str_digits()] (4300 unless it was set; 0 for no
    limit).  Both depend on the version and on how the program is run. *)
Record interpreter := {
  recursion_limit : nat;
  int_max_str_digits : nat
}.

(* ================================================================== *)
(** ** Regular expressions: the fragment of [re] the client's pattern uses *)

Module Re.

Inductive regex :=
| Chr (c : char)             (** an escaped literal, as [\{] *)
| NotIn (cs : list char)     (** a negated class, as [[^{}]] *)
| Seq (r1 r2 : regex)
| Star (r : regex).          (** greedy [*] *)

(** The ends of the iterations of a greedy star whose body ends are given by
    [step], longest first; an iteration has to consume something. *)
Fixpoint star_ends (step : pystr -> list pystr) (fuel : nat) (s : pystr)
    : list pystr :=
  match fuel with
  | O => [s]
  | S n =>
      flat_map
        (fun s' => if length s' <? length s then star_ends step n s' else [])
        (step s)
      ++ [s]
  end.

(** The backtracking matcher: every way [r] matches a prefix of [s], as the
    text left after the match, in the order [re] tries them. *)
Fixpoint ends (r : regex) (s : pystr) : list pystr :=
  match r with
  | Chr c =>
      match s with
      | x :: s' => if char_eqb x c then [s'] else []
      | [] => []
      end
  | NotIn cs =>
      match s with
      | x :: s' => if existsb (char_eqb x) cs then [] else [s']
      | [] => []
      end
  | Seq r1 r2 => flat_map (ends r2) (ends r1 s)
  | Star r1 => star_ends (ends r1) (length s) s
  end.

(** [pattern.match(s)]: the matched text and what follows it. *)
Definition match_prefix (r : regex) (s : pystr) : option (pystr * pystr) :=
  match ends r s with
  | rest :: _ => Some (firstn (length s - length rest) s, rest)
  | [] => None
  end.

(** [re.finditer(r, s)] as the list of [match.group(0)], for a pattern that
    matches no empty text: the scan tries each position from the left and
    resumes at the end of a match.  [skip] counts the characters of the
    last match still to pass. *)
Fixpoint finditer_from (r : regex) (skip : nat) (s : pystr) : list pystr :=
  match s with
  | [] => []
  | _ :: s' =>
      match skip with
      | S k => finditer_from r k s'
      | O =>
          match match_prefix r s with
          | Some (m, _) => m :: finditer_from r (length m - 1) s'
          | None => finditer_from r 0 s'
          end
      end
  end.

Definition finditer (r : regex) (s : pystr) : list pystr :=
  finditer_from r 0 s.

(** The texts a pattern matches from their first character to their last. *)
Inductive matches : regex -> pystr -> Prop :=
| M_Chr c : matches (Chr c) [c]
| M_NotIn cs c : existsb (char_eqb c) cs = false -> matches (NotIn cs) [c]
| M_Seq r1 r2 w1 w2 :
    matches r1 w1 -> matches r2 w2 -> matches (Seq r1 r2) (w1 ++ w2)
| M_Star_nil r : matches (Star r) []
| M_Star_cons r w1 w2 :
    matches r w1 -> matches (Star r) w2 -> matches (Star r) (w1 ++ w2).

End Re.

(** A run of characters other than braces, [[^{}]*]. *)
Definition no_braces : Re.regex := Re.Star (Re.NotIn [LBRACE; RBRACE]).

(** An inner pair of braces and the run after it,
    [\{  [^{}]*  \}  [^{}]*]. *)
Definition inner_group : Re.regex :=
  Re.Seq (Re.Chr LBRACE) (Re.Seq no_braces (Re.Seq (Re.Chr RBRACE) no_braces)).

(** [json_pattern] (line 188); with blanks between its parts it reads
    [\{  [^{}]*  (?: \{  [^{}]*  \}  [^{}]* )*  \}]. *)
Definition json_pattern : Re.regex :=
  Re.Seq (Re.Chr LBRACE)
    (Re.Seq no_braces (Re.Seq (Re.Star inner_group) (Re.Chr RBRACE))).

Definition is_brace (c : char) : bool := char_eqb c LBRACE || char_eqb c RBRACE.

(** [json_pattern] read as an automaton, after the brace that opens a
    match: [inner = false] between the outer braces, [inner = true] inside
    an inner pair.  The text left after the closing brace, if the match
    succeeds. *)
Fixpoint brace_scan (inner : bool) (s : pystr) : option pystr :=
  match s with
  | [] => None
  | c :: r =>
      if char_eqb c LBRACE then
        if inner then None else brace_scan true r
      else if char_eqb c RBRACE then
        if inner then brace_scan false r else Some r
      else brace_scan inner r
  end.

(* ================================================================== *)
(** ** [json.loads]: the decoder of the standard library (its C scanner) *)

Module Json.

(** The outcome of scanning one JSON value at the head of a text: the
    value and the text after it, a text that is no JSON ([DecodeError]),
    or an exception of the interpreter ([Raised]). *)
Inductive scan (A : Type) :=
| Parsed (v : A) (rest : pystr)
| DecodeError
| Raised (e : exn)
| OutOfFuel.
Arguments Parsed {A} v rest.
Arguments DecodeError {A}.
Arguments Raised {A} e.
Arguments OutOfFuel {A}.

(** [RecursionError], raised on entering a container ([what] is [object]
    or [array]) when the recursion limit is reached. *)
Definition too_deep (what : pystr) : exn :=
  {| exn_cls := RecursionError;
     exn_str := utf8 "maximum recursion depth exceeded while decoding a JSON "
                ++ what ++ utf8 " from a unicode string" |}.

(** [ValueError], raised by [int] for more digits than the limit. *)
Definition too_many_digits (limit digits : nat) : exn :=
  {| exn_cls := ValueError;
     exn_str := utf8 "Exceeds the limit (" ++ decimal limit
                ++ utf8 " digits) for integer string conversion: value has "
                ++ decimal digits
                ++ utf8 " digits; use sys.set_int_max_str_digits() to increase the limit" |}.

Section Scanner.

Variable py : interpreter.

(** Whether [int] refuses a numeral of so many digits: the limit applies
    above 640 digits, and a limit of 0 is none. *)
Definition int_refuses (digits : nat) : bool :=
  (640 <? digits) && (0 <? int_max_str_digits py)
  && (int_max_str_digits py <? digits).

Definition is_ws (c : char) : bool :=
  (c =? 32)%N || (c =? 9)%N || (c =? 10)%N || (c =? 13)%N.

Fixpoint skip_ws (s : pystr) : pystr :=
  match s with
  | c :: r => if is_ws c then skip_ws r else s
  | [] => []
  end.

Definition is_digit (c : char) : bool := (48 <=? c)%N && (c <=? 57)%N.

Definition hex_digit (c : char) : option N :=
  if is_digit c then Some (c - 48)%N
  else if (97 <=? c)%N && (c <=? 102)%N then Some (c - 87)%N
  else if (65 <=? c)%N && (c <=? 70)%N then Some (c - 55)%N
  else None.

Definition hex4 (a b c d : char) : option N :=
  match hex_digit a, hex_digit b, hex_digit c, hex_digit d with
  | Some x, Some y, Some z, Some w => Some (((x * 16 + y) * 16 + z) * 16 + w)%N
  | _, _, _, _ => None
  end.

Definition is_high_surrogate (c : N) : bool := (55296 <=? c)%N && (c <=? 56319)%N.
Definition is_low_surrogate (c : N) : bool := (56320 <=? c)%N && (c <=? 57343)%N.
Definition join_surrogates (hi lo : N) : N :=
  (65536 + (hi - 55296) * 1024 + (lo - 56320))%N.

(** The character a backslash escape other than [\u] stands for. *)
Definition escape (c : char) : option char :=
  if (c =? 34)%N then Some 34%N
  else if (c =? 92)%N then Some 92%N
  else if (c =? 47)%N then Some 47%N
  else if (c =? 98)%N then Some 8%N
  else if (c =? 102)%N then Some 12%N
  else if (c =? 110)%N then Some 10%N
  else if (c =? 114)%N then Some 13%N
  else if (c =? 116)%N then Some 9%N
  else None.

(** [scanstring] in strict mode, from the character after the opening
    quote; [acc] holds the decoded characters, last first.  A [\uXXXX]
    escape of a high surrogate joins with a [\uXXXX] escape of a low one
    right after it when the text goes on after the pair. *)
Fixpoint scanstring (s : pystr) (acc : pystr) : option (pystr * pystr) :=
  match s with
  | [] => None
  | c :: r =>
      if (c =? 34)%N then Some (rev acc, r)
      else if (c =? 92)%N then
        match r with
        | [] => None
        | e :: r1 =>
            if (e =? 117)%N then
              match r1 with
              | h1 :: h2 :: h3 :: h4 :: r2 =>
                  match hex4 h1 h2 h3 h4 with
                  | None => None
                  | Some cp =>
                      match r2 with
                      | b :: u :: k1 :: k2 :: k3 :: k4 :: ((_ :: _) as more) =>
                          if is_high_surrogate cp && (b =? 92)%N && (u =? 117)%N
                          then
                            match hex4 k1 k2 k3 k4 with
                            | None => None
                            | Some lo =>
                                if is_low_surrogate lo
                                then scanstring more (join_surrogates cp lo :: acc)
                                else scanstring r2 (cp :: acc)
                            end
                          else scanstring r2 (cp :: acc)
                      | _ => scanstring r2 (cp :: acc)
                      end
                  end
              | _ => None
              end
            else
              match escape e with
              | Some x => scanstring r1 (x :: acc)
              | None => None
              end
        end
      else if (c <=? 31)%N then None
      else scanstring r (c :: acc)
  end.

(** The longest run of digits at the head of a text, and what follows. *)
Fixpoint span_digits (s : pystr) : pystr * pystr :=
  match s with
  | c :: r =>
      if is_digit c then let (d, r') := span_digits r in (c :: d, r')
      else ([], s)
  | [] => ([], [])
  end.

(** [int(digits)] for a run of decimal digits, most significant first. *)
Definition int_of_digits (d : pystr) : Z :=
  fold_left (fun acc c => acc * 10 + Z.of_N (c - 48))%Z d 0%Z.

(** The integer part of a number: one [0], or a digit from 1 to 9 and the
    digits after it. *)
Definition scan_int_part (s : pystr) : option (pystr * pystr) :=
  match s with
  | c :: r =>
      if (c =? 48)%N then Some ([c], r)
      else if is_digit c then let (d, r') := span_digits r in Some (c :: d, r')
      else None
  | [] => None
  end.

(** The fraction: a dot and at least one digit, or nothing. *)
Definition scan_frac (s : pystr) : pystr * pystr :=
  match s with
  | dot :: ((d :: _) as r) =>
      if (dot =? 46)%N && is_digit d
      then let (ds, r') := span_digits r in (dot :: ds, r')
      else ([], s)
  | _ => ([], s)
  end.

(** The exponent: [e] or [E], an optional sign and at least one digit, or
    nothing. *)
Definition scan_exp (s : pystr) : pystr * pystr :=
  match s with
  | e :: r =>
      if (e =? 101)%N || (e =? 69)%N then
        match r with
        | sg :: r1 =>
            if (sg =? 43)%N || (sg =? 45)%N then
              match span_digits r1 with
              | ([], _) => ([], s)
              | (ds, r') => (e :: sg :: ds, r')
              end
            else
              match span_digits r with
              | ([], _) => ([], s)
              | (ds, r') => (e :: ds, r')
              end
        | [] => ([], s)
        end
      else ([], s)
  | [] => ([], s)
  end.

(** [_match_number]: an [int] when the text has neither fraction nor
    exponent, unless it has more digits than [int] takes, a [float]
    otherwise. *)
Definition match_number (s : pystr) : scan value :=
  let (neg, s0) :=
    match s with
    | c :: r => if (c =? 45)%N then (true, r) else (false, s)
    | [] => (false, s)
    end in
  match scan_int_part s0 with
  | None => DecodeError
  | Some (ip, s1) =>
      let (fp, s2) := scan_frac s1 in
      let (ep, s3) := scan_exp s2 in
      match fp, ep with
      | [], [] =>
          if int_refuses (length ip)
          then Raised (too_many_digits (int_max_str_digits py) (length ip))
          else
            Parsed
              (PyInt (if neg then - int_of_digits ip else int_of_digits ip)%Z)
              s3
      | _, _ =>
          Parsed (PyFloat ((if neg then [45%N] else []) ++ ip ++ fp ++ ep)) s3
      end
  end.

(** The text after [word] when the text starts with it. *)
Definition after_word (word s : pystr) : option pystr :=
  if startswith word s then Some (skipn (length word) s) else None.

(** A value that is neither a string, an object nor an array. *)
Definition scan_atom (s : pystr) : scan value :=
  match after_word (utf8 "null") s with
  | Some r => Parsed PyNone r
  | None =>
  match after_word (utf8 "true") s with
  | Some r => Parsed (PyBool true) r
  | None =>
  match after_word (utf8 "false") s with
  | Some r => Parsed (PyBool false) r
  | None =>
  match after_word (utf8 "NaN") s with
  | Some r => Parsed (PyFloat (utf8 "NaN")) r
  | None =>
  match after_word (utf8 "Infinity") s with
  | Some r => Parsed (PyFloat (utf8 "Infinity")) r
  | None =>
  match after_word (utf8 "-Infinity") s with
  | Some r => Parsed (PyFloat (utf8 "-Infinity")) r
  | None => match_number s
  end end end end end end.

(** [scan_once], with the loops of [_parse_object] ([parse_members], at the
    quote that opens a key) and of [_parse_array] ([parse_elements], at an
    element).  Each call takes one unit of [fuel].  [depth] is the number
    of containers that can still be entered: entering one when it is zero
    raises [RecursionError], and the values inside have one less. *)
Fixpoint scan_once (fuel depth : nat) (s : pystr) : scan value :=
  match fuel with
  | O => OutOfFuel
  | S n =>
      match s with
      | [] => DecodeError
      | c :: r =>
          if (c =? 34)%N then
            match scanstring r [] with
            | Some (str, rest) => Parsed (PyStr str) rest
            | None => DecodeError
            end
          else if (c =? 123)%N then
            match depth with
            | O => Raised (too_deep (utf8 "object"))
            | S inside =>
                match skip_ws r with
                | close :: rest =>
                    if (close =? 125)%N then Parsed (PyDict []) rest
                    else parse_members n inside (skip_ws r) []
                | [] => DecodeError
                end
            end
          else if (c =? 91)%N then
            match depth with
            | O => Raised (too_deep (utf8 "array"))
            | S inside =>
                match skip_ws r with
                | close :: rest =>
                    if (close =? 93)%N then Parsed (PyList []) rest
                    else parse_elements n inside (skip_ws r) []
                | [] => DecodeError
                end
            end
          else scan_atom s
      end
  end

with parse_members (fuel depth : nat) (s : pystr) (acc : dict) : scan value :=
  match fuel with
  | O => OutOfFuel
  | S n =>
      match s with
      | q :: r =>
          if (q =? 34)%N then
            match scanstring r [] with
            | None => DecodeError
            | Some (key, r1) =>
                match skip_ws r1 with
                | colon :: r2 =>
                    if (colon =? 58)%N then
                      match scan_once n depth (skip_ws r2) with
                      | Parsed v r3 =>
                          let acc' := dict_set acc key v in
                          match skip_ws r3 with
                          | x :: r4 =>
                              if (x =? 125)%N then Parsed (PyDict acc') r4
                              else if (x =? 44)%N
                              then parse_members n depth (skip_ws r4) acc'
                              else DecodeError
                          | [] => DecodeError
                          end
                      | DecodeError => DecodeError
                      | Raised e => Raised e
                      | OutOfFuel => OutOfFuel
                      end
                    else DecodeError
                | [] => DecodeError
                end
            end
          else DecodeError
      | [] => DecodeError
      end
  end

with parse_elements (fuel depth : nat) (s : pystr) (acc : list value)
    : scan value :=
  match fuel with
  | O => OutOfFuel
  | S n =>
      match scan_once n depth s with
      | Parsed v r1 =>
          match skip_ws r1 with
          | x :: r2 =>
              if (x =? 93)%N then Parsed (PyList (acc ++ [v])) r2
              else if (x =? 44)%N
              then parse_elements n depth (skip_ws r2) (acc ++ [v])
              else DecodeError
          | [] => DecodeError
          end
      | DecodeError => DecodeError
      | Raised e => Raised e
      | OutOfFuel => OutOfFuel
      end
  end.

(** [JSONDecoder.decode]: leading blanks, one value, trailing blanks and
    nothing more.  The fuel is twice the length of the text and two more,
    which no text uses up (see [decode_has_fuel]). *)
Definition decode (s : pystr) : scan value :=
  let s0 := skip_ws s in
  match scan_once (2 * length s0 + 2) (recursion_limit py) s0 with
  | Parsed v rest =>
      match skip_ws rest with
      | [] => Parsed v []
      | _ :: _ => DecodeError
      end
  | DecodeError => DecodeError
  | Raised e => Raised e
  | OutOfFuel => OutOfFuel
  end.

Definition the_JSONDecodeError : exn :=
  {| exn_cls := JSONDecodeError; exn_str := utf8 "JSONDecodeError" |}.

(** [json.loads(s)] for a [str]: the decoded value, [JSONDecodeError]
    (whose message the client never reads) for a text that is no JSON, or
    what the interpreter raised: [RecursionError] for containers nested
    too deep, [ValueError] for an integer of too many digits. *)
Definition loads (s : pystr) : result value :=
  if startswith [65279%N] s then Raise the_JSONDecodeError
  else
    match decode s with
    | Parsed v _ => Ok v
    | Raised e => Raise e
    | DecodeError | OutOfFuel => Raise the_JSONDecodeError
    end.

End Scanner.

End Json.

(** A literal in which a backquote stands for a double quote. *)
Definition utf8q (s : string) : pystr := replace_char 96%N DQUOTE (utf8 s).

Definition nl : pystr := [10%N].

(* ================================================================== *)
(** ** The environment: the Ollama backend and the MCP session *)

(** The JSON body of the request to [/api/generate] (lines 141-146). *)
Record payload := {
  p_model : pystr;
  p_prompt : pystr;
  p_system : pystr;
  p_stream : bool
}.

(** What the client does to the outside, in order. *)
Inductive event :=
| EvPost (url : pystr) (body : payload)      (** [client.post(url, json=payload)] *)
| EvCallTool (name : value) (args : dict).   (** [session.call_tool(name, args)] *)

(** An [httpx.Response], as the two things the client asks of it:
    [raise_for_status()] returns or raises, [json()] returns a value or
    raises. *)
Record response := {
  raise_for_status : option exn;
  json : result value
}.

Inductive post_outcome :=
| PostRaises (e : exn)
| PostReturns (r : response).

(** The backend answers a request knowing everything that happened before. *)
Definition backend := list event -> pystr -> payload -> post_outcome.

(** One block of [CallToolResult.content]: a [TextContent] has a [text],
    a block of another class has none. *)
Inductive content_block :=
| TextContent (text : pystr)
| OtherContent (class_name : pystr).

Inductive tool_outcome :=
| CallRaises (e : exn)
| CallReturns (blocks : list content_block).

(** [ClientSession.call_tool], the external tool executor. *)
Definition ClientSession := list event -> value -> dict -> tool_outcome.

(** The [inputSchema] of a tool: a plain value such as the [dict] MCP
    sends, which has no attribute [properties] (true or false, nothing is
    listed for it), or an object that has one (and is true, as an object
    without [__bool__] or [__len__] is). *)
Inductive schema :=
| SchemaValue (v : value)
| SchemaObject (properties : list (value * value)).

(** A tool descriptor, as [session.list_tools()] reports it. *)
Record Tool := {
  name : pystr;
  description : value;
  inputSchema : schema
}.

(* ================================================================== *)
(** ** SmartChatClient *)

Record SmartChatClient := {
  model : pystr;
  session : option ClientSession;
  available_tools : list Tool
}.

(** [__init__] (lines 14-17). *)
Definition init (model : pystr) : SmartChatClient :=
  {| model := model; session := None; available_tools := [] |}.

(** [initialize] (lines 19-25), given what [session.list_tools()] returned. *)
Definition initialize (self : SmartChatClient) (s : ClientSession)
    (tools : list Tool) : SmartChatClient :=
  {| model := model self; session := Some s; available_tools := tools |}.

(** A tool call as the extractor builds it (lines 209-212). *)
Record tool_call := { tc_tool : value; tc_args : dict }.

(** A tool result as the loop builds it (lines 109-112). *)
Record tool_result := { tr_tool : value; tr_result : pystr }.

(** A turn of [conversation_history]. *)
Record turn := { role : pystr; content : pystr }.

Definition K_tool : pystr := utf8 "tool".
Definition K_args : pystr := utf8 "args".
Definition K_response : pystr := utf8 "response".
Definition K_type : pystr := utf8 "type".

Definition OLLAMA_URL : pystr := utf8 "http://localhost:11434/api/generate".
Definition EMPTY_REPLY : pystr := utf8 "Помилка: порожня відповідь від моделі".
Definition MSG_UNREACHABLE : pystr := utf8 "Ollama недоступна на http://localhost:11434".
Definition MSG_REQUEST_FAILED : pystr := utf8 "Помилка при запиті до Ollama: ".
Definition MSG_GATEWAY_FAILED : pystr := utf8 "❌ Помилка при звернення до Ollama: ".
Definition MSG_FINAL_FAILED : pystr :=
  utf8 "❌ Помилка при отриманні остаточної відповіді: ".
Definition MSG_TOOL_FAILED : pystr := utf8 "Помилка при виконанні інструменту: ".
Definition CONTEXT_HEADER : pystr :=
  nl ++ nl ++ utf8 "[Контекст попередніх кроків]" ++ nl.
Definition RESULTS_HEADER : pystr :=
  utf8 "Ось результати виконання інструментів:" ++ nl.
Definition RESULTS_FOOTER : pystr :=
  nl ++ utf8 "Тепер, используючи цю інформацію, дай остаточну відповідь користувачу.".
Definition FOUND_CALL : pystr := utf8 "  → Знайден виклик інструменту: ".
Definition USING_TOOL : pystr := utf8 "🔧 Використовую інструмент: ".
Definition TOOL_RESULT : pystr := utf8 "✅ Результат: ".
Definition TOOL_FAILED_MARK : pystr := utf8 "❌ ".

Arguments OLLAMA_URL : simpl never.
Arguments EMPTY_REPLY : simpl never.
Arguments MSG_UNREACHABLE : simpl never.
Arguments MSG_REQUEST_FAILED : simpl never.
Arguments MSG_GATEWAY_FAILED : simpl never.
Arguments MSG_FINAL_FAILED : simpl never.
Arguments MSG_TOOL_FAILED : simpl never.
Arguments CONTEXT_HEADER : simpl never.
Arguments RESULTS_HEADER : simpl never.
Arguments RESULTS_FOOTER : simpl never.
Arguments FOUND_CALL : simpl never.
Arguments USING_TOOL : simpl never.
Arguments TOOL_RESULT : simpl never.
Arguments TOOL_FAILED_MARK : simpl never.
Arguments K_tool : simpl never.
Arguments K_args : simpl never.
Arguments K_response : simpl never.
Arguments K_type : simpl never.

Section Client.

(** Python's [repr] of a value that is not a [str]; [str()] and an f-string
    give the same text for such a value. *)
Variable repr : value -> pystr.

(** [f"{v}"]. *)
Definition format_value (v : value) : pystr :=
  match v with
  | PyStr s => s
  | _ => repr v
  end.

(** The limits of the interpreter that runs the client. *)
Variable py : interpreter.

(** *** [_extract_tool_calls] (lines 176-218) *)

(** The body of the [try] (lines 197-213) for one candidate: the list
    [tool_calls] after it, and how the body ended.  Line 209 appends to the
    list in place, so what it added is there also when the [print] of line
    213 raises. *)
Definition try_candidate (json_str : pystr) (tool_calls : list tool_call)
    : list tool_call * result unit :=
  let corrected_json := replace_char SQUOTE DQUOTE json_str in
  match Json.loads py corrected_json with
  | Raise e => (tool_calls, Raise e)
  | Ok (PyDict d) =>
      if dict_contains d K_tool then
        let tool_name := dict_get d K_tool PyNone in
        let args := dict_get d K_args (PyDict []) in
        let args := match args with PyDict a => a | _ => [] end in
        (tool_calls ++ [{| tc_tool := tool_name; tc_args := args |}],
         print_value FOUND_CALL tool_name)
      else (tool_calls, Ok tt)
  | Ok _ => (tool_calls, Ok tt)
  end.

(** The classes line 214 catches. *)
Definition skipped_classes : list exn_class :=
  [JSONDecodeError; ValueError; TypeError].

(** The [for match in potential_jsons] loop (lines 192-216). *)
Fixpoint scan_candidates (candidates : list pystr) (tool_calls : list tool_call)
    : result (list tool_call) :=
  match candidates with
  | [] => Ok tool_calls
  | json_str :: more =>
      let (tool_calls, body) := try_candidate json_str tool_calls in
      bind (try_except body [(skipped_classes, fun _ => Ok tt)])
        (fun _ => scan_candidates more tool_calls)
  end.

(** The tool call lines 202-212 build from a decoded object [d]. *)
Definition call_of_object (d : dict) : tool_call :=
  {| tc_tool := dict_get d K_tool PyNone;
     tc_args := match dict_lookup d K_args with
                | Some (PyDict a) => a
                | _ => []
                end |}.

(** What one candidate adds to the result: a tool call when it decodes to
    an object with a ["tool"] field, nothing otherwise. *)
Definition candidate_call (json_str : pystr) : option tool_call :=
  match Json.loads py (replace_char SQUOTE DQUOTE json_str) with
  | Ok (PyDict d) =>
      if dict_contains d K_tool then Some (call_of_object d) else None
  | _ => None
  end.

(** What a candidate makes the extractor raise: the exception of
    [json.loads] when line 214 does not catch it. *)
Definition candidate_escape (json_str : pystr) : option exn :=
  match Json.loads py (replace_char SQUOTE DQUOTE json_str) with
  | Raise e =>
      if existsb (subclass (exn_cls e)) skipped_classes then None else Some e
  | Ok _ => None
  end.

Definition option_list {A} (o : option A) : list A :=
  match o with Some a => [a] | None => [] end.

Fixpoint calls_of (candidates : list pystr) : list tool_call :=
  match candidates with
  | [] => []
  | c :: more =>
      match candidate_call c with
      | Some tc => tc :: calls_of more
      | None => calls_of more
      end
  end.

(** The first exception a candidate of the list lets out, if any. *)
Fixpoint first_escape (candidates : list pystr) : option exn :=
  match candidates with
  | [] => None
  | c :: more =>
      match candidate_escape c with
      | Some e => Some e
      | None => first_escape more
      end
  end.

(** A candidate the extractor leaves out: [json.loads] raises for it an
    exception that line 214 catches, or it decodes to something that is
    not an object, or to an object without ["tool"]. *)
Definition excluded (json_str : pystr) : Prop :=
  match Json.loads py (replace_char SQUOTE DQUOTE json_str) with
  | Raise e => existsb (subclass (exn_cls e)) skipped_classes = true
  | Ok (PyDict d) => dict_contains d K_tool = false
  | Ok _ => True
  end.

(** A text made of objects that [json_pattern] matches whole, with no
    opening brace before, between or after them. *)
Inductive spaced_objects : pystr -> list pystr -> Prop :=
| spaced_end sep : ~ In LBRACE sep -> spaced_objects sep []
| spaced_object sep obj rest objs :
    ~ In LBRACE sep ->
    Re.match_prefix json_pattern obj = Some (obj, []) ->
    spaced_objects rest objs ->
    spaced_objects (sep ++ obj ++ rest) (obj :: objs).

(** A well-formed tool-call object without an apostrophe: it decodes, as it
    stands, to the object [d], which has a ["tool"] field. *)
Definition plain_tool_object (obj : pystr) (d : dict) : Prop :=
  ~ In SQUOTE obj /\ Json.loads py obj = Ok (PyDict d)
  /\ dict_contains d K_tool = true.

(** [re.finditer] refuses an argument that is not a [str]. *)
Definition finditer_TypeError (v : value) : exn :=
  {| exn_cls := TypeError;
     exn_str := utf8 "expected string or bytes-like object, got '"
                ++ type_name v ++ utf8 "'" |}.

Definition _extract_tool_calls (response : value) : result (list tool_call) :=
  match response with
  | PyStr text => scan_candidates (Re.finditer json_pattern text) []
  | _ => Raise (finditer_TypeError response)
  end.

(** *** [_format_tools_description] (lines 159-174) *)

Definition format_param (p : value * value) : pystr :=
  let (param_name, param_info) := p in
  let param_type :=
    match param_info with
    | PyDict d => dict_get d K_type (PyStr (utf8 "unknown"))
    | _ => PyStr (utf8 "unknown")
    end in
  utf8 "     - " ++ format_value param_name ++ utf8 " ("
    ++ format_value param_type ++ utf8 ")" ++ nl.

Definition format_tool (t : Tool) : pystr :=
  nl ++ utf8 "📌 " ++ name t ++ nl
  ++ utf8 "   Опис: " ++ format_value (description t) ++ nl
  ++ match inputSchema t with
     | SchemaValue _ => []
     | SchemaObject properties =>
         utf8 "   Параметри:" ++ nl ++ concat (map format_param properties)
     end.

Definition _format_tools_description (self : SmartChatClient) : pystr :=
  fold_left (fun description t => description ++ format_tool t)
    (available_tools self) [].

(** The system prompt (lines 44-61). *)
Definition system_prompt_of (tools_description : pystr) : pystr :=
  utf8 "Ти дружелюбний помічник, який може використовувати наступні інструменти:" ++ nl
  ++ nl
  ++ tools_description ++ nl
  ++ nl
  ++ concat (map (fun line => utf8q line ++ nl) [
       "ІНСТРУКЦІЇ:";
       "1. Аналізуй запит користувача";
       "2. Якщо тобі потрібна інформація, яку ти можеш отримати через інструменти, використовуй їх";
       "3. ⚠️ ВАЖЛИВО: При використанні інструменту search_duckduckgo, ЗАВЖДИ перекладай запит на АНГЛІЙСЬКУ мову перед пошуком. DuckDuckGo краще працює з англійськими запитами!";
       "   Приклад: якщо користувач запитає `яка погода в Київі?`, ти маєш шукати `weather in Kyiv today`";
       "4. Щоб викликати інструмент, напиши JSON в цьому форматі:";
       "   {";
       "     `tool`: `назва_інструменту`,";
       "     `args`: {`параметр1`: `значення1`, `параметр2`: `значення2`}";
       "   }";
       "5. Після отримання результату від інструменту, використай цю інформацію для відповіді";
       "6. Завжди відповідай українською мовою користувачу";
       "7. Будь дружелюбним та корисним"
     ]%string).

(** *** [_call_ollama] (lines 136-157) *)

Definition plain_Exception (msg : pystr) : exn :=
  {| exn_cls := Exception; exn_str := msg |}.

(** [data.get("response", ...)]: only a [dict] has [get]. *)
Definition get_response (data : value) : result value :=
  match data with
  | PyDict d => Ok (dict_get d K_response (PyStr EMPTY_REPLY))
  | _ =>
      Raise {| exn_cls := AttributeError;
               exn_str := utf8 "'" ++ type_name data
                          ++ utf8 "' object has no attribute 'get'" |}
  end.

(** The body of the [try] (lines 139-152), after the request was sent. *)
Definition read_reply (o : post_outcome) : result value :=
  match o with
  | PostRaises e => Raise e
  | PostReturns r =>
      match raise_for_status r with
      | Some e => Raise e
      | None => bind (json r) get_response
      end
  end.

(** The two [except] clauses (lines 154-157). *)
Definition gateway_result (o : post_outcome) : result value :=
  try_except (read_reply o)
    [([ConnectError], fun _ => Raise (plain_Exception MSG_UNREACHABLE));
     ([Exception],
      fun e => Raise (plain_Exception (MSG_REQUEST_FAILED ++ exn_str e)))].

(** [_call_ollama]: the request goes out, and the reply is read. *)
Definition payload_of (self : SmartChatClient) (system_prompt prompt : pystr)
    : payload :=
  {| p_model := model self; p_prompt := prompt;
     p_system := system_prompt; p_stream := false |}.

Definition _call_ollama (self : SmartChatClient) (world : backend)
    (log : list event) (system_prompt prompt : pystr)
    : result value * list event :=
  let body := payload_of self system_prompt prompt in
  (gateway_result (world log OLLAMA_URL body), log ++ [EvPost OLLAMA_URL body]).

(** *** One round of tool execution (lines 93-112) *)

(** [result.content[0].text]. *)
Definition first_text (blocks : list content_block) : result pystr :=
  match blocks with
  | [] =>
      Raise {| exn_cls := IndexError; exn_str := utf8 "list index out of range" |}
  | TextContent t :: _ => Ok t
  | OtherContent cls :: _ =>
      Raise {| exn_cls := AttributeError;
               exn_str := utf8 "'" ++ cls ++ utf8 "' object has no attribute 'text'" |}
  end.

(** The text of what [call_tool] gave (line 103). *)
Definition read_tool_result (o : tool_outcome) : result pystr :=
  match o with
  | CallRaises e => Raise e
  | CallReturns blocks => first_text blocks
  end.

Definition tool_event_of (tc : tool_call) : event :=
  EvCallTool (tc_tool tc) (tc_args tc).

(** Lines 103-104: the text of the result, shown up to its 100th
    character. *)
Definition shown_text (o : tool_outcome) : result pystr :=
  bind (read_tool_result o) (fun tool_result =>
    bind (print (TOOL_RESULT ++ slice_to 100 tool_result ++ utf8 "..."))
      (fun _ => Ok tool_result)).

(** The body of the [try] (lines 99-104).  Without a session nothing is
    invoked: [None] has no [call_tool]. *)
Definition call_tool (self : SmartChatClient) (log : list event)
    (tc : tool_call) : result pystr * list event :=
  match session self with
  | None =>
      (Raise {| exn_cls := AttributeError;
                exn_str := utf8 "'NoneType' object has no attribute 'call_tool'" |},
       log)
  | Some s =>
      (shown_text (s log (tc_tool tc) (tc_args tc)),
       log ++ [tool_event_of tc])
  end.

(** The [except] clause (lines 105-107): the failure message, which is
    printed. *)
Definition report_failure (e : exn) : result pystr :=
  let tool_result := MSG_TOOL_FAILED ++ exn_str e in
  bind (print (TOOL_FAILED_MARK ++ tool_result)) (fun _ => Ok tool_result).

(** Lines 98-107 for what [body] gave: the text the round records, or the
    exception of the [print] of line 107. *)
Definition recorded (body : result pystr) : result pystr :=
  try_except body [([Exception], report_failure)].

(** What the round records for a tool when it records something: its
    text, or the failure message. *)
Definition recorded_text (body : result pystr) : pystr :=
  match body with
  | Ok text => text
  | Raise e => MSG_TOOL_FAILED ++ exn_str e
  end.

(** The [for tool_call in tool_calls] loop (lines 95-112).  The [print] of
    line 96 stands before the [try]: what it raises ends the round, and
    the loop. *)
Fixpoint run_tool_calls (self : SmartChatClient) (tool_calls : list tool_call)
    (tool_results : list tool_result) (log : list event)
    : result (list tool_result) * list event :=
  match tool_calls with
  | [] => (Ok tool_results, log)
  | tc :: more =>
      match print_value USING_TOOL (tc_tool tc) with
      | Raise e => (Raise e, log)
      | Ok _ =>
      let (body, log1) := call_tool self log tc in
      match recorded body with
      | Ok text =>
          run_tool_calls self more
            (tool_results ++ [{| tr_tool := tc_tool tc; tr_result := text |}])
            log1
      | Raise e => (Raise e, log1)
      end
      end
  end.

(** The results of a round that runs to its end with the session [s] from
    the log [log]: each call goes to the session, which sees the calls
    made before it. *)
Fixpoint round_results (s : ClientSession) (log : list event)
    (tool_calls : list tool_call) : list tool_result :=
  match tool_calls with
  | [] => []
  | tc :: more =>
      {| tr_tool := tc_tool tc;
         tr_result :=
           recorded_text (shown_text (s log (tc_tool tc) (tc_args tc))) |}
      :: round_results s (log ++ [tool_event_of tc]) more
  end.

(** The tool-results message (lines 118-122). *)
Definition format_result (tr : tool_result) : pystr :=
  nl ++ utf8 "📌 Інструмент '" ++ format_value (tr_tool tr) ++ utf8 "':" ++ nl
  ++ tr_result tr ++ nl.

Definition results_message_of (tool_results : list tool_result) : pystr :=
  fold_left (fun m tr => m ++ format_result tr) tool_results RESULTS_HEADER
  ++ RESULTS_FOOTER.

(** *** [query_ollama_with_tools] (lines 27-134) *)

(** The variables the loop updates, and the log of what was done. *)
Record loop_state := {
  user_message : pystr;
  conversation_history : list turn;
  log : list event
}.

Definition ROLE_USER : pystr := utf8 "user".
Definition ROLE_ASSISTANT : pystr := utf8 "assistant".

(** One line of the context window (line 77). *)
Definition render_turn (msg : turn) : pystr :=
  role msg ++ utf8 ": " ++ slice_to 200 (content msg) ++ utf8 "..." ++ nl.

(** The message for the model (lines 69-77). *)
Definition build_message (iteration : Z) (st : loop_state)
    : pystr * loop_state :=
  if (iteration =? 0)%Z then
    (user_message st,
     {| user_message := user_message st;
        conversation_history :=
          conversation_history st
          ++ [{| role := ROLE_USER; content := user_message st |}];
        log := log st |})
  else
    (fold_left (fun full_message msg => full_message ++ render_turn msg)
       (last_n 4 (conversation_history st))
       (user_message st ++ CONTEXT_HEADER),
     st).

(** The text of a reply that [_extract_tool_calls] accepted (it raises on
    anything but a [str]). *)
Definition text_of (v : value) : pystr :=
  match v with
  | PyStr s => s
  | _ => []
  end.

(** The last iteration's request for a final answer (lines 128-134). *)
Definition final_answer (self : SmartChatClient) (world : backend)
    (system_prompt : pystr) (st : loop_state) : result value * list event :=
  match _call_ollama self world (log st) system_prompt (user_message st) with
  | (Ok final_response, log1) => (Ok final_response, log1)
  | (Raise e, log1) => (Ok (PyStr (MSG_FINAL_FAILED ++ exn_str e)), log1)
  end.

(** The state after a round (lines 114-125): the reply and the results
    message join the history, and the results message is the next user
    message. *)
Definition after_round (st1 : loop_state) (response : value)
    (tool_results : list tool_result) (log2 : list event) : loop_state :=
  let results_message := results_message_of tool_results in
  {| user_message := results_message;
     conversation_history :=
       conversation_history st1
       ++ [{| role := ROLE_ASSISTANT; content := text_of response |};
           {| role := ROLE_USER; content := results_message |}];
     log := log2 |}.

(** The [for iteration in range(max_iterations)] loop (lines 65-134), with
    [todo] iterations of the range left.  Every exception modelled is an
    [Exception], so [except Exception] takes each one.  A loop that runs
    out of iterations falls off the end of the function, which returns
    [None]. *)
Fixpoint iterate (self : SmartChatClient) (world : backend)
    (system_prompt : pystr) (max_iterations : Z) (todo : nat)
    (iteration : Z) (st : loop_state) : result value * list event :=
  match todo with
  | O => (Ok PyNone, log st)
  | S todo' =>
      let (full_message, st1) := build_message iteration st in
      match _call_ollama self world (log st1) system_prompt full_message with
      | (Raise e, log1) => (Ok (PyStr (MSG_GATEWAY_FAILED ++ exn_str e)), log1)
      | (Ok response, log1) =>
          match _extract_tool_calls response with
          | Raise e => (Raise e, log1)
          | Ok [] => (Ok response, log1)
          | Ok ((_ :: _) as tool_calls) =>
              match run_tool_calls self tool_calls [] log1 with
              | (Raise e, log2) => (Raise e, log2)
              | (Ok tool_results, log2) =>
                  let st2 := after_round st1 response tool_results log2 in
                  if (iteration =? max_iterations - 1)%Z
                  then final_answer self world system_prompt st2
                  else iterate self world system_prompt max_iterations todo'
                         (iteration + 1)%Z st2
              end
          end
      end
  end.

(** [range(n)] has [n] elements, none when [n <= 0]. *)
Definition range_len (n : Z) : nat := Z.to_nat n.

Definition query_ollama_with_tools (self : SmartChatClient) (world : backend)
    (user_message : pystr) (max_iterations : Z) : result value * list event :=
  let tools_description := _format_tools_description self in
  let system_prompt := system_prompt_of tools_description in
  iterate self world system_prompt max_iterations (range_len max_iterations) 0%Z
    {| user_message := user_message; conversation_history := []; log := [] |}.

End Client.

(** *** Reading a run off its log *)

Definition is_post (e : event) : bool :=
  match e with EvPost _ _ => true | EvCallTool _ _ => false end.

(** The model call that carries [prompt]. *)
Definition post_of (self : SmartChatClient) (system_prompt prompt : pystr)
    : event :=
  EvPost OLLAMA_URL (payload_of self system_prompt prompt).

(** The backend answered with a success status and a body that decodes to
    the object [d]. *)
Definition decodes_to_object (o : post_outcome) (d : dict) : Prop :=
  exists r, o = PostReturns r /\ raise_for_status r = None
            /\ json r = Ok (PyDict d).

(** The events [new], which follow the events [before], are a run that
    [answer] ends well: a model call that failed is the last event, and the
    answer is then one of the two error messages. *)
Fixpoint failure_is_last (world : backend) (answer : result value)
    (before new : list event) : Prop :=
  match new with
  | [] => True
  | EvPost url body :: rest =>
      match gateway_result (world before url body) with
      | Ok _ => failure_is_last world answer (before ++ [EvPost url body]) rest
      | Raise e =>
          rest = []
          /\ (answer = Ok (PyStr (MSG_GATEWAY_FAILED ++ exn_str e))
              \/ answer = Ok (PyStr (MSG_FINAL_FAILED ++ exn_str e)))
      end
  | ev :: rest => failure_is_last world answer (before ++ [ev]) rest
  end.

(** The [print] of line 96 goes through for the call: its tool name, when
    it is a [str], holds no surrogate. *)
Definition announced (tc : tool_call) : Prop :=
  print_value USING_TOOL (tc_tool tc) = Ok tt.

(** The text of whatever a call of the session raises holds no surrogate:
    the message of line 106 can be printed. *)
Definition reportable (s : ClientSession) : Prop :=
  forall log name args e,
    read_tool_result (s log name args) = Raise e ->
    print (exn_str e) = Ok tt.

(** The number of model calls in a log. *)
Definition count_posts (l : list event) : nat := length (filter is_post l).

(** The tool invocations in a log. *)
Definition tool_events (l : list event) : list event :=
  filter (fun e => negb (is_post e)) l.

(* ================================================================== *)
(** ** Sample inputs *)

(** An interpreter for the samples: the digit limit is Python's default,
    and [json.loads] can enter 990 containers one inside another, about
    what a recursion limit of 1000 leaves at the depth of the call. *)
Definition sample_py : interpreter :=
  {| recursion_limit := 990; int_max_str_digits := 4300 |}.

(** A [repr] for the samples, exact on [None] and the booleans; the samples
    format nothing but strings. *)
Definition sample_repr (v : value) : pystr :=
  match v with
  | PyNone => utf8 "None"
  | PyBool true => utf8 "True"
  | PyBool false => utf8 "False"
  | _ => utf8 "<" ++ type_name v ++ utf8 ">"
  end.

(** Scenario A of the specification. *)
Definition scenario_A : pystr :=
  utf8q "Please check: {`tool`: `sum`, `args`: {`a`: 2, `b`: 3}} thanks".

(** Scenario E of the specification. *)
Definition scenario_E : pystr := utf8 "{tool: 'sum', args: {a: 2, b:}}".

(** A well-formed call of a tool of mcp_server.py whose argument has an
    apostrophe in it. *)
Definition apostrophe_call : pystr :=
  utf8q "{`tool`: `search_duckduckgo`, `args`: {`query`: `today's weather`}}".


(** A successful response whose body is the object [data]. *)
Definition ok_response (data : value) : response :=
  {| raise_for_status := None; json := Ok data |}.

(** A backend whose every completion is [text]. *)
Definition always_replies (text : pystr) : backend :=
  fun _ _ _ => PostReturns (ok_response (PyDict [(K_response, PyStr text)])).

(** A session whose every tool returns the text [5]. *)
Definition five_session : ClientSession :=
  fun _ _ _ => CallReturns [TextContent (utf8 "5")].


(** A session whose connection is closed: every call raises. *)
Definition closed_session : ClientSession :=
  fun _ _ _ =>
    CallRaises {| exn_cls := OtherError (utf8 "McpError");
                  exn_str := utf8 "Connection closed" |}.

(** The tool [sum] of mcp_server.py (line 18). *)
Definition sum_tool : Tool :=
  {| name := utf8 "sum";
     description := PyStr (utf8 "Обчислює суму двох цілих чисел. Параметри: a (int), b (int)");
     inputSchema := SchemaValue (PyDict []) |}.

(** A client that loaded the tool [sum], with a session that answers. *)
Definition sample_client : SmartChatClient :=
  initialize (init (utf8 "llama2")) five_session [sum_tool].


(** A backend that answers the first request with Scenario A and times
    out on every later one. *)
Definition fails_after_first : backend :=
  fun log _ _ =>
    match log with
    | [] => PostReturns (ok_response (PyDict [(K_response, PyStr scenario_A)]))
    | _ :: _ =>
        PostRaises {| exn_cls := OtherError (utf8 "ReadTimeout");
                      exn_str := utf8 "timed out" |}
    end.

(** The run of the sample client against that backend with budget 3: the
    events before its second model call, the body of that call, and what
    [_call_ollama] raises for it. *)
Definition timeout_earlier : list event :=
  firstn 2 (snd (query_ollama_with_tools sample_repr sample_py sample_client
                   fails_after_first (utf8 "2+3?") 3)).

Definition timeout_body : payload :=
  match skipn 2 (snd (query_ollama_with_tools sample_repr sample_py sample_client
                        fails_after_first (utf8 "2+3?") 3)) with
  | EvPost _ body :: _ => body
  | _ => payload_of (init []) [] []
  end.

Definition timeout_exn : exn :=
  plain_Exception (MSG_REQUEST_FAILED ++ utf8 "timed out").

(** A backend whose completion is the number 5, not a text. *)
Definition replies_five : backend :=
  fun _ _ _ => PostReturns (ok_response (PyDict [(K_response, PyInt 5)])).

(** A zero-argument call. *)
Definition get_date_call : pystr := utf8q "{`tool`: `get_date`}".

(** The tool call of Scenario A alone. *)
Definition sum_call : pystr := utf8q "{`tool`: `sum`, `args`: {`a`: 2, `b`: 3}}".

(** Two tool calls, one after the other, in running text. *)
Definition two_calls : pystr :=
  utf8 "First " ++ get_date_call ++ (utf8 ", then " ++ sum_call ++ utf8 " and done.").

(** The tool call of Scenario A, and the call of [unknown_call]. *)
Definition sum_tool_call : tool_call :=
  {| tc_tool := PyStr (utf8 "sum");
     tc_args := [(utf8 "a", PyInt 2); (utf8 "b", PyInt 3)] |}.


(** A candidate whose ["tool"] field holds [n] arrays, one inside the
    other. *)
Definition nested_arrays (n : nat) : pystr :=
  utf8q "{`tool`: " ++ repeat 91%N n ++ repeat 93%N n ++ [RBRACE].

(** The one of 2000 arrays. *)
Definition deep_candidate : pystr := nested_arrays 2000.

(** A zero-argument call followed by that candidate. *)
Definition call_then_deep : pystr := get_date_call ++ utf8 " " ++ deep_candidate.

(** A state of the loop after two rounds: five turns, one of them longer
    than 200 characters. *)
Definition sample_state : loop_state :=
  {| user_message := utf8 "results of round 2";
     conversation_history :=
       [ {| role := ROLE_USER; content := utf8 "2+3?" |};
         {| role := ROLE_ASSISTANT; content := scenario_A |};
         {| role := ROLE_USER; content := repeat 97%N 250 |};
         {| role := ROLE_ASSISTANT; content := scenario_A |};
         {| role := ROLE_USER; content := utf8 "results of round 2" |} ];
     log := [] |}.


(* ================================================================== *)
(** ** More ways to read a run off its log *)

(** The tool calls a reply asks for: what [_extract_tool_calls] finds in
    it; none when the model call or the extraction raised. *)
Definition reply_calls (py : interpreter) (r : result value)
    : list tool_call :=
  match r with
  | Ok v =>
      match _extract_tool_calls py v with
      | Ok calls => calls
      | Raise _ => []
      end
  | Raise _ => []
  end.

(** In the events [new], which follow the events [before], every tool
    invocation is one of the calls the reply to the model call before it
    asked for; [allowed] holds the calls that may come before the first
    model call of [new]. *)
Fixpoint tools_requested (py : interpreter) (world : backend)
    (allowed : list tool_call) (before new : list event) : Prop :=
  match new with
  | [] => True
  | EvPost url body :: rest =>
      tools_requested py world
        (reply_calls py (gateway_result (world before url body)))
        (before ++ [EvPost url body]) rest
  | EvCallTool name args :: rest =>
      In {| tc_tool := name; tc_args := args |} allowed
      /\ tools_requested py world allowed
           (before ++ [EvCallTool name args]) rest
  end.

(** What every request of the client [self] carries (lines 139-146). *)
Definition request_of (self : SmartChatClient) (system_prompt : pystr)
    (ev : event) : Prop :=
  match ev with
  | EvPost url body =>
      url = OLLAMA_URL /\ p_model body = model self
      /\ p_system body = system_prompt /\ p_stream body = false
  | EvCallTool _ _ => True
  end.

(** A history whose turns have the two roles the loop writes. *)
Definition known_roles (history : list turn) : Prop :=
  Forall (fun t => role t = ROLE_USER \/ role t = ROLE_ASSISTANT) history.

(** What the round records for a call made without a session. *)
Definition NO_SESSION : pystr :=
  MSG_TOOL_FAILED ++ utf8 "'NoneType' object has no attribute 'call_tool'".

Arguments NO_SESSION : simpl never.

(** The description of a tool whose schema is a plain value (lines
    163-164). *)
Definition plain_tool_lines (repr : value -> pystr) (t : Tool) : pystr :=
  nl ++ utf8 "📌 " ++ name t ++ nl
  ++ utf8 "   Опис: " ++ format_value repr (description t) ++ nl.

(** Format 4 of the comment of [_extract_tool_calls] (line 184): keys
    without quotes. *)
Definition unquoted_call : pystr := utf8q "{ tool: `sum`, args: {`a`: 2}}".

(** The run of the sample client with budget 1 against a model that
    answers with Scenario A. *)
Definition scenario_A_run : result value * list event :=
  query_ollama_with_tools sample_repr sample_py sample_client
    (always_replies scenario_A) (utf8 "2+3?") 1.

(** A client on which [initialize] was never called. *)
Definition fresh_client : SmartChatClient := init (utf8 "llama2").

(** The tool [get_date] of mcp_server.py (line 24). *)
Definition get_date_tool : Tool :=
  {| name := utf8 "get_date";
     description := PyStr (utf8 "Повертає поточну дату у форматі YYYY-MM-DD");
     inputSchema := SchemaValue (PyDict [(utf8 "type", PyStr (utf8 "object"))]) |}.

(** A connection that is refused, and a backend that refuses every one. *)
Definition connection_refused : exn :=
  {| exn_cls := ConnectError; exn_str := utf8 "All connection attempts failed" |}.

Definition refuses_connection : backend :=
  fun _ _ _ => PostRaises connection_refused.

(** A client that loaded the tools [sum] and [get_date]. *)
Definition two_tool_client : SmartChatClient :=
  initialize (init (utf8 "llama2")) five_session [sum_tool; get_date_tool].

(* ================================================================== *)
(** ** mcp_server.py: the tools [read_notes] and [search_duckduckgo] *)

Module Server.

(** [bool(v)]. *)
Definition is_empty {A} (l : list A) : bool :=
  match l with [] => true | _ :: _ => false end.

(** Whether [float(literal)] is zero, for the literal of a JSON number:
    its digits are all zero, or it is so small that it rounds to zero,
    which is at most half the least positive float, [2^-1075]. *)
Definition float_is_zero (literal : pystr) : bool :=
  let s0 :=
    match literal with
    | c :: r => if (c =? 45)%N then r else literal
    | [] => literal
    end in
  let (ip, s1) := Json.span_digits s0 in
  match ip with
  | [] => false
  | _ :: _ =>
      let (fp, s2) :=
        match s1 with
        | dot :: r => if (dot =? 46)%N then Json.span_digits r else ([], s1)
        | [] => ([], s1)
        end in
      let mantissa := Json.int_of_digits (ip ++ fp) in
      let exponent :=
        match s2 with
        | _ :: sg :: r =>
            if (sg =? 45)%N then (- Json.int_of_digits r)%Z
            else if (sg =? 43)%N then Json.int_of_digits r
            else Json.int_of_digits (sg :: r)
        | _ => 0%Z
        end in
      let e10 := (exponent - Z.of_nat (length fp))%Z in
      (mantissa =? 0)%Z
      || ((e10 <? 0)%Z && (mantissa * 2 ^ 1075 <=? 10 ^ (- e10))%Z)
  end.

Definition truthy (v : value) : bool :=
  match v with
  | PyNone => false
  | PyBool b => b
  | PyInt z => negb (z =? 0)%Z
  | PyFloat literal => negb (float_is_zero literal)
  | PyStr s => negb (is_empty s)
  | PyList l => negb (is_empty l)
  | PyDict d => negb (is_empty d)
  end.

(** [l[:n]]: a negative [n] counts from the end. *)
Definition slice_upto {A} (n : Z) (l : list A) : list A :=
  if (0 <=? n)%Z then firstn (Z.to_nat n) l
  else firstn (length l - Z.to_nat (- n)) l.

(** [sep.join(l)]. *)
Fixpoint join (sep : pystr) (l : list pystr) : pystr :=
  match l with
  | [] => []
  | [x] => x
  | x :: more => x ++ sep ++ join sep more
  end.

(** [d[k]]. *)
Definition subscript (d : dict) (k : pystr) : result value :=
  match dict_lookup d k with
  | Some v => Ok v
  | None =>
      Raise {| exn_cls := OtherError (utf8 "KeyError");
               exn_str := utf8 "'" ++ k ++ utf8 "'" |}
  end.

Definition no_attribute (v : value) (attr : pystr) : exn :=
  {| exn_cls := AttributeError;
     exn_str := utf8 "'" ++ type_name v ++ utf8 "' object has no attribute '"
                ++ attr ++ utf8 "'" |}.

Definition not_subscriptable (v : value) : exn :=
  {| exn_cls := TypeError;
     exn_str := utf8 "'" ++ type_name v ++ utf8 "' object is not subscriptable" |}.

(** The classes an [except] clause for [FileNotFoundError],
    [httpx.TimeoutException] and [httpx.RequestError] takes: the class and
    its subclasses.  [httpx.HTTPStatusError], which [raise_for_status]
    raises, is none of them. *)
Definition FileNotFoundError : exn_class := OtherError (utf8 "FileNotFoundError").

Definition timeout_classes : list exn_class :=
  map (fun n => OtherError (utf8 n))
    ["TimeoutException"; "ConnectTimeout"; "ReadTimeout"; "WriteTimeout";
     "PoolTimeout"]%string.

Definition request_error_classes : list exn_class :=
  timeout_classes
  ++ ConnectError
  :: map (fun n => OtherError (utf8 n))
       ["RequestError"; "TransportError"; "NetworkError"; "ReadError";
        "WriteError"; "CloseError"; "ProtocolError"; "LocalProtocolError";
        "RemoteProtocolError"; "ProxyError"; "UnsupportedProtocol";
        "DecodingError"; "TooManyRedirects"]%string.

Definition NOTES_NOT_FOUND : pystr := utf8 "notes.txt not found.".
Definition NOTES_ERROR : pystr := utf8 "Error reading notes.txt: ".
Definition TRUNCATED : pystr := nl ++ nl ++ utf8 "...[truncated]".
Definition max_len : Z := 10000.

Definition DDG_URL : pystr := utf8 "https://api.duckduckgo.com/".
Definition K_AbstractText : pystr := utf8 "AbstractText".
Definition K_AbstractTitle : pystr := utf8 "AbstractTitle".
Definition K_RelatedTopics : pystr := utf8 "RelatedTopics".
Definition K_Text : pystr := utf8 "Text".
Definition K_FirstURL : pystr := utf8 "FirstURL".
Definition ABSTRACT_MARK : pystr := utf8 "📌 ".
Definition TOPIC_MARK : pystr := utf8 "🔗 ".
Definition URL_LABEL : pystr := utf8 "   URL: ".
Definition NO_RESULTS : pystr := utf8 "Жодних результатів не знайдено для запиту: ".
Definition MSG_TIMEOUT : pystr :=
  utf8 "Помилка: Час очікування запиту вийшов. Спробуйте ще раз.".
Definition MSG_NETWORK : pystr := utf8 "Помилка мережі при запиті до DuckDuckGo: ".
Definition MSG_SEARCH_FAILED : pystr := utf8 "Помилка при пошуку: ".

Arguments NOTES_NOT_FOUND : simpl never.
Arguments NOTES_ERROR : simpl never.
Arguments TRUNCATED : simpl never.
Arguments max_len : simpl never.
Arguments DDG_URL : simpl never.
Arguments K_AbstractText : simpl never.
Arguments K_AbstractTitle : simpl never.
Arguments K_RelatedTopics : simpl never.
Arguments K_Text : simpl never.
Arguments K_FirstURL : simpl never.
Arguments ABSTRACT_MARK : simpl never.
Arguments TOPIC_MARK : simpl never.
Arguments URL_LABEL : simpl never.
Arguments NO_RESULTS : simpl never.
Arguments MSG_TIMEOUT : simpl never.
Arguments MSG_NETWORK : simpl never.
Arguments MSG_SEARCH_FAILED : simpl never.
Arguments timeout_classes : simpl never.
Arguments request_error_classes : simpl never.

(** *** [read_notes] (lines 36-53), given what [path.read_text] did. *)
Definition read_notes (read_text : result pystr) : result pystr :=
  match read_text with
  | Raise e =>
      handle e
        [([FileNotFoundError], fun _ => Ok NOTES_NOT_FOUND);
         ([Exception], fun e => Ok (NOTES_ERROR ++ exn_str e))]
  | Ok content =>
      if (max_len <? Z.of_nat (length content))%Z
      then Ok (slice_to (Z.to_nat max_len) content ++ TRUNCATED)
      else Ok content
  end.

Section Search.

(** Python's [repr] of a value that is not a [str]. *)
Variable repr : value -> pystr.

(** What [d[:n]] raises for a dict [d]: a [TypeError] for the unhashable
    slice up to Python 3.11, a [KeyError] from 3.12 on. *)
Variable dict_slice_error : dict -> Z -> exn.

(** The query parameters of the request (lines 69-74). *)
Definition params_of (query : pystr) : dict :=
  [(utf8 "q", PyStr query); (utf8 "format", PyStr (utf8 "json"));
   (utf8 "no_html", PyInt 1); (utf8 "skip_disambig", PyInt 1)].

(** Lines 77-79: the request, the status check and the decoded body. *)
Definition read_json (o : post_outcome) : result value :=
  match o with
  | PostRaises e => Raise e
  | PostReturns r =>
      match raise_for_status r with
      | Some e => Raise e
      | None => json r
      end
  end.

(** [data["RelatedTopics"][:max_results]] as the items the loop visits: a
    [str] gives its characters, a dict or a number has no slice. *)
Definition related_items (topics : value) (max_results : Z)
    : result (list value) :=
  match topics with
  | PyList l => Ok (slice_upto max_results l)
  | PyStr s => Ok (map (fun c => PyStr [c]) (slice_upto max_results s))
  | PyDict d => Raise (dict_slice_error d max_results)
  | _ => Raise (not_subscriptable topics)
  end.

(** The body of the loop (lines 91-95): what one item adds. *)
Definition topic_entry (item : value) : list pystr :=
  match item with
  | PyDict d =>
      let text := dict_get d K_Text (PyStr []) in
      let url_item := dict_get d K_FirstURL (PyStr []) in
      if truthy text
      then [TOPIC_MARK ++ format_value repr text ++ nl
            ++ URL_LABEL ++ format_value repr url_item]
      else []
  | _ => []
  end.

(** Lines 81-95: the list [results]. *)
Definition search_results (data : value) (max_results : Z)
    : result (list pystr) :=
  match data with
  | PyDict d =>
      bind
        (if truthy (dict_get d K_AbstractText PyNone)
         then
           bind (subscript d K_AbstractText) (fun abstract =>
             Ok [ABSTRACT_MARK
                 ++ format_value repr
                      (dict_get d K_AbstractTitle (PyStr (utf8 "Result")))
                 ++ utf8 ": " ++ format_value repr abstract])
         else Ok [])
        (fun results =>
           if truthy (dict_get d K_RelatedTopics PyNone)
           then
             bind (subscript d K_RelatedTopics) (fun topics =>
               bind (related_items topics max_results) (fun related =>
                 Ok (results ++ flat_map topic_entry related)))
           else Ok results)
  | _ => Raise (no_attribute data (utf8 "get"))
  end.

(** Lines 97-100. *)
Definition render_results (query : pystr) (results : list pystr) : pystr :=
  match results with
  | [] => NO_RESULTS ++ query
  | _ :: _ => join (nl ++ nl) results
  end.

(** [search_duckduckgo] (lines 57-107), given how the web answers a GET. *)
Definition search_duckduckgo (web : pystr -> dict -> post_outcome)
    (query : pystr) (max_results : Z) : result pystr :=
  try_except
    (bind (read_json (web DDG_URL (params_of query))) (fun data =>
       bind (search_results data max_results) (fun results =>
         Ok (render_results query results))))
    [(timeout_classes, fun _ => Ok MSG_TIMEOUT);
     (request_error_classes, fun e => Ok (MSG_NETWORK ++ exn_str e));
     ([Exception], fun e => Ok (MSG_SEARCH_FAILED ++ exn_str e))].

End Search.

(** What [d[:n]] raises in Python 3.11. *)
Definition slice_error_311 (d : dict) (n : Z) : exn :=
  {| exn_cls := TypeError; exn_str := utf8 "unhashable type: 'slice'" |}.

(** An answer for a query with an abstract and three related topics, one
    of them a group of topics without a text of its own. *)
Definition topic (text url : string) : value :=
  PyDict [(utf8 "FirstURL", PyStr (utf8 url)); (utf8 "Text", PyStr (utf8 text))].

Definition sample_answer : value :=
  PyDict
    [(utf8 "AbstractTitle", PyStr (utf8 "Kyiv"));
     (utf8 "AbstractText", PyStr (utf8 "Kyiv is the capital of Ukraine."));
     (utf8 "RelatedTopics",
      PyList [topic "Kyiv Metro" "https://duckduckgo.com/Kyiv_Metro";
              PyDict [(utf8 "Name", PyStr (utf8 "Places"));
                      (utf8 "Topics", PyList [])];
              topic "Kyiv Oblast" "https://duckduckgo.com/Kyiv_Oblast";
              topic "Kyiv Pechersk Lavra" "https://duckduckgo.com/Lavra"])].

Definition sample_web : pystr -> dict -> post_outcome :=
  fun _ _ => PostReturns (ok_response sample_answer).

(** What the tool lists of that answer with a limit of two. *)
Definition sample_entries : list pystr :=
  match search_results sample_repr slice_error_311 sample_answer 2 with
  | Ok entries => entries
  | Raise _ => []
  end.

Definition read_timeout : exn :=
  {| exn_cls := OtherError (utf8 "ReadTimeout");
     exn_str := utf8 "The read operation timed out" |}.

Definition slow_web : pystr -> dict -> post_outcome :=
  fun _ _ => PostRaises read_timeout.

End Server.

(* ================================================================== *)
(** ** [main] (lines 221-279): the interactive chat *)

(** [c.isspace()]. *)
Definition is_space (c : char) : bool :=
  ((9 <=? c) && (c <=? 13) || (28 <=? c) && (c <=? 32)
   || (c =? 133) || (c =? 160) || (c =? 5760)
   || (8192 <=? c) && (c <=? 8202) || (c =? 8232) || (c =? 8233)
   || (c =? 8239) || (c =? 8287) || (c =? 12288))%N.

Fixpoint lstrip (s : pystr) : pystr :=
  match s with
  | c :: r => if is_space c then lstrip r else s
  | [] => []
  end.

(** [s.strip()]. *)
Definition strip (s : pystr) : pystr := rev (lstrip (rev (lstrip s))).

(** [s.lower() == 'exit']: the capitals [E], [X], [I] and [T] are the only
    other characters whose lower case is a part of [exit]. *)
Definition is_exit (s : pystr) : bool :=
  match s with
  | [e; x; i; t] =>
      ((e =? 101) || (e =? 69)) && ((x =? 120) || (x =? 88))
      && ((i =? 105) || (i =? 73)) && ((t =? 116) || (t =? 84))
  | _ => false
  end%N.

(** [not user_input]. *)
Definition is_blank (line : pystr) : bool :=
  match strip line with [] => true | _ :: _ => false end.

Definition DEFAULT_MODEL : pystr := utf8 "gemma3:4b".

(** The default of [max_iterations] (line 27), which [main] relies on. *)
Definition DEFAULT_ITERATIONS : Z := 5.

(** Lines 241-243. *)
Definition model_name_of (line : pystr) : pystr :=
  match strip line with
  | [] => DEFAULT_MODEL
  | _ :: _ => strip line
  end.

(** How the chat ended: the user left ([break], line 259), [input] found
    no line ([EOFError], which the [except] of line 275 takes as it does
    any exception), or something else raised inside the [try].  How lines
    275-278 report the exception is not modelled. *)
Inductive chat_end :=
| Exited
| EndOfInput
| Failed (e : exn).

(** What a chat did: the answers printed (line 272), the lines of the
    input it did not read, and its model calls and tool invocations. *)
Record chat := {
  answers : list value;
  unread : list pystr;
  trace : list event;
  ending : chat_end
}.

(** The backend or the session after the events [before]. *)
Definition later {A} (before : list event) (f : list event -> A)
    : list event -> A :=
  fun events => f (before ++ events).

(** The text of line 249. *)
Definition READY (model_name : pystr) : pystr :=
  nl ++ utf8 "✅ Готово! Тепер модель " ++ model_name
  ++ utf8 " може сама викликати інструменти.".

Section Main.

Variable repr : value -> pystr.
Variable py : interpreter.

(** The [while True] loop (lines 253-273) on the lines [stdin], after the
    events [done] and the answers [printed].  An answer that cannot be
    printed (line 272) ends the chat like any exception. *)
Fixpoint chat_loop (model_name : pystr) (s : ClientSession)
    (tools : list Tool) (world : backend) (stdin : list pystr)
    (done : list event) (printed : list value) : chat :=
  match stdin with
  | [] =>
      {| answers := printed; unread := []; trace := done;
         ending := EndOfInput |}
  | line :: rest =>
      let user_input := strip line in
      if is_exit user_input then
        {| answers := printed; unread := rest; trace := done;
           ending := Exited |}
      else if is_blank line then
        chat_loop model_name s tools world rest done printed
      else
        let client := initialize (init model_name) (later done s) tools in
        match query_ollama_with_tools repr py client (later done world)
                user_input DEFAULT_ITERATIONS with
        | (Ok response, events) =>
            match print_value [] response with
            | Ok _ =>
                chat_loop model_name s tools world rest (done ++ events)
                  (printed ++ [response])
            | Raise e =>
                {| answers := printed; unread := rest;
                   trace := done ++ events; ending := Failed e |}
            end
        | (Raise e, events) =>
            {| answers := printed; unread := rest; trace := done ++ events;
               ending := Failed e |}
        end
  end.

(** [main], given what entering the two contexts and
    [session.initialize()] did ([startup]), what [session.list_tools()]
    gave, the session, the backend and the lines of the input. *)
Definition main (startup : option exn) (list_tools : result (list Tool))
    (s : ClientSession) (world : backend) (stdin : list pystr) : chat :=
  match startup with
  | Some e =>
      {| answers := []; unread := stdin; trace := []; ending := Failed e |}
  | None =>
      match stdin with
      | [] =>
          {| answers := []; unread := []; trace := []; ending := EndOfInput |}
      | line :: rest =>
          match list_tools with
          | Raise e =>
              {| answers := []; unread := rest; trace := [];
                 ending := Failed e |}
          | Ok tools =>
              match print (READY (model_name_of line)) with
              | Ok _ => chat_loop (model_name_of line) s tools world rest [] []
              | Raise e =>
                  {| answers := []; unread := rest; trace := [];
                     ending := Failed e |}
              end
          end
      end
  end.

End Main.

(** A backend that asks for the tool [sum] once and then answers. *)
Definition asks_once : backend :=
  fun events _ _ =>
    match events with
    | [] => PostReturns (ok_response (PyDict [(K_response, PyStr scenario_A)]))
    | _ :: _ =>
        PostReturns (ok_response (PyDict [(K_response, PyStr (utf8 "2 + 3 = 5"))]))
    end.

(** Lines of input: the model name left empty, an empty line, a question,
    the word that ends the chat, and a line after it. *)
Definition sample_stdin : list pystr :=
  [[]; utf8 "   "; utf8 " 2+3? "; utf8 "  Exit "; utf8 "more"].

(** A blank line and a question. *)
Definition sample_questions : list pystr := [utf8 "   "; utf8 " 2+3? "].

(* ================================================================== *)
(** * Properties *)

(** ** Strings *)

Lemma char_eqb_eq (a b : char) : char_eqb a b = true <-> a = b.
Proof. unfold char_eqb. apply N.eqb_eq. Qed.

Lemma pystr_eqb_eq (a b : pystr) : PyStr.eqb a b = true <-> a = b.
Proof.
  revert b. induction a as [|x a IH]; intros [|y b]; simpl; split; intro H;
    try reflexivity; try discriminate.
  - apply andb_true_iff in H as [Hx Hr].
    apply char_eqb_eq in Hx. apply IH in Hr. now subst.
  - injection H as -> ->. apply andb_true_iff. split.
    + now apply char_eqb_eq.
    + now apply IH.
Qed.

Lemma replace_char_absent (old new : char) (s : pystr) :
  ~ In old s -> replace_char old new s = s.
Proof.
  unfold replace_char. induction s as [|c s IH]; simpl; intro H.
  - reflexivity.
  - destruct (char_eqb c old) eqn:E.
    + apply char_eqb_eq in E. subst. exfalso. apply H. now left.
    + f_equal. apply IH. intro Hin. apply H. now right.
Qed.

(** Proves that a character is not in a given text, by looking at each
    character of the text. *)
Ltac no_such_char :=
  let H := fresh in
  intro H; vm_compute in H;
  repeat (destruct H as [H|H]; [discriminate|]); exact H.

(** ** The matcher against the language of a pattern *)

Module ReFacts.
Import Re.

Lemma flat_map_nil {A B} (f : A -> list B) (l : list A) :
  (forall a, In a l -> f a = []) -> flat_map f l = [].
Proof.
  induction l as [|a l IH]; simpl; intro H.
  - reflexivity.
  - rewrite (H a (or_introl eq_refl)). simpl. apply IH.
    intros b Hb. apply H. now right.
Qed.

Lemma flat_map_agree {A B} (f g : A -> list B) (l : list A) :
  (forall a, In a l -> f a = g a) -> flat_map f l = flat_map g l.
Proof.
  induction l as [|a l IH]; simpl; intro H.
  - reflexivity.
  - rewrite (H a (or_introl eq_refl)). f_equal. apply IH.
    intros b Hb. apply H. now right.
Qed.

(** Fuel beyond the length of the text changes nothing. *)
Lemma star_ends_fuel (step : pystr -> list pystr) (n m : nat) (s : pystr) :
  length s <= n -> length s <= m -> star_ends step n s = star_ends step m s.
Proof.
  revert m s. induction n as [|n IH]; intros [|m] s Hn Hm; simpl.
  - reflexivity.
  - rewrite flat_map_nil; [reflexivity|].
    intros a _. destruct (Nat.ltb_spec (length a) (length s)); [lia|reflexivity].
  - rewrite flat_map_nil; [reflexivity|].
    intros a _. destruct (Nat.ltb_spec (length a) (length s)); [lia|reflexivity].
  - f_equal. apply flat_map_agree. intros a _.
    destruct (Nat.ltb_spec (length a) (length s)); [|reflexivity].
    apply IH; lia.
Qed.

Lemma star_ends_sound (r : regex) (step : pystr -> list pystr) :
  (forall s s', In s' (step s) -> exists w, s = w ++ s' /\ matches r w) ->
  forall fuel s s', In s' (star_ends step fuel s) ->
    exists w, s = w ++ s' /\ matches (Star r) w.
Proof.
  intros Hstep. induction fuel as [|n IH]; intros s s' H; simpl in H.
  - destruct H as [<-|[]]. exists []. split; [reflexivity|constructor].
  - apply in_app_or in H as [H|[<-|[]]].
    + apply in_flat_map in H as (m & Hm & H).
      destruct (length m <? length s); [|destruct H].
      apply Hstep in Hm as (w1 & -> & Hw1).
      apply IH in H as (w2 & -> & Hw2).
      exists (w1 ++ w2). split; [now rewrite app_assoc|now constructor].
    + exists []. split; [reflexivity|constructor].
Qed.

Lemma ends_sound (r : regex) (s s' : pystr) :
  In s' (ends r s) -> exists w, s = w ++ s' /\ matches r w.
Proof.
  revert s s'. induction r as [c|cs|r1 IH1 r2 IH2|r IH]; intros s s' H; simpl in H.
  - destruct s as [|x s]; [destruct H|].
    destruct (char_eqb x c) eqn:E; [|destruct H].
    destruct H as [<-|[]]. apply char_eqb_eq in E. subst.
    exists [c]. split; [reflexivity|constructor].
  - destruct s as [|x s]; [destruct H|].
    destruct (existsb (char_eqb x) cs) eqn:E; [destruct H|].
    destruct H as [<-|[]]. exists [x]. split; [reflexivity|now constructor].
  - apply in_flat_map in H as (m & Hm & H).
    apply IH1 in Hm as (w1 & -> & Hw1). apply IH2 in H as (w2 & -> & Hw2).
    exists (w1 ++ w2). split; [now rewrite app_assoc|now constructor].
  - eapply star_ends_sound; eauto.
Qed.

Lemma ends_complete (r : regex) (w : pystr) :
  matches r w -> forall s', In s' (ends r (w ++ s')).
Proof.
  induction 1 as [c|cs c Hc|r1 r2 w1 w2 _ IH1 _ IH2|r|r w1 w2 _ IH1 _ IH2];
    intro s'; simpl.
  - unfold char_eqb. rewrite N.eqb_refl. now left.
  - rewrite Hc. now left.
  - apply in_flat_map. exists (w2 ++ s'). split.
    + rewrite <- app_assoc. apply IH1.
    + apply IH2.
  - destruct (length s'); simpl; [now left|].
    apply in_or_app. right. now left.
  - destruct w1 as [|x w1]; [apply IH2|].
    simpl. apply in_or_app. left. apply in_flat_map.
    exists (w2 ++ s'). split.
    + specialize (IH1 (w2 ++ s')). simpl in IH1. now rewrite <- app_assoc.
    + rewrite !length_app.
      destruct (Nat.ltb_spec (length w2 + length s')
                  (S (length w1 + length w2 + length s'))); [|lia].
      specialize (IH2 s'). simpl in IH2.
      rewrite (star_ends_fuel _ (n := length w1 + length w2 + length s')
                 (m := length (w2 ++ s'))); [exact IH2| |reflexivity].
      rewrite length_app. lia.
Qed.

End ReFacts.

(** ** [json_pattern]: a match is the text up to the brace that closes it *)

Module PatternFacts.
Import Re ReFacts.

Lemma matches_no_braces (w : pystr) :
  matches no_braces w -> Forall (fun c => is_brace c = false) w.
Proof.
  unfold no_braces. remember (Star (NotIn [LBRACE; RBRACE])) as r eqn:Er.
  induction 1 as [| | | |r0 w1 w2 H1 _ _ IH2]; try discriminate.
  - constructor.
  - injection Er as ->. apply Forall_app. split; [|now apply IH2].
    inversion H1 as [|cs c Hc| | |]; subst.
    constructor; [|constructor].
    simpl in Hc. unfold is_brace.
    destruct (char_eqb c LBRACE); [discriminate|].
    destruct (char_eqb c RBRACE); [discriminate|reflexivity].
Qed.

Lemma brace_scan_skip (inner : bool) (a s : pystr) :
  Forall (fun c => is_brace c = false) a ->
  brace_scan inner (a ++ s) = brace_scan inner s.
Proof.
  induction 1 as [|c a Hc _ IH]; simpl.
  - reflexivity.
  - unfold is_brace in Hc. apply orb_false_iff in Hc as [-> ->]. exact IH.
Qed.

Lemma matches_chr (c : char) (w : pystr) : matches (Chr c) w -> w = [c].
Proof. now inversion 1. Qed.

Lemma matches_seq (r1 r2 : regex) (w : pystr) :
  matches (Seq r1 r2) w ->
  exists w1 w2, w = w1 ++ w2 /\ matches r1 w1 /\ matches r2 w2.
Proof. inversion 1; subst. eauto. Qed.

Lemma brace_scan_group (w s : pystr) :
  matches inner_group w -> brace_scan false (w ++ s) = brace_scan false s.
Proof.
  intro H. unfold inner_group in H.
  apply matches_seq in H as (o & w1 & -> & Ho & H). apply matches_chr in Ho as ->.
  apply matches_seq in H as (a & w2 & -> & Ha & H).
  apply matches_seq in H as (c & b & -> & Hc & Hb). apply matches_chr in Hc as ->.
  apply matches_no_braces in Ha, Hb.
  simpl. rewrite <- !app_assoc. rewrite (brace_scan_skip true _ Ha).
  simpl. now rewrite (brace_scan_skip false _ Hb).
Qed.

Lemma brace_scan_groups (w s : pystr) :
  matches (Star inner_group) w ->
  brace_scan false (w ++ s) = brace_scan false s.
Proof.
  remember (Star inner_group) as r eqn:Er.
  induction 1 as [| | | |r0 w1 w2 H1 _ _ IH2]; try discriminate.
  - reflexivity.
  - injection Er as ->. rewrite <- app_assoc.
    rewrite (brace_scan_group _ H1). now apply IH2.
Qed.

(** A match opens with a brace and ends at the brace that closes it. *)
Lemma matches_json_pattern (w : pystr) :
  matches json_pattern w ->
  exists w', w = LBRACE :: w' /\ forall s, brace_scan false (w' ++ s) = Some s.
Proof.
  intro H. unfold json_pattern in H.
  apply matches_seq in H as (o & w1 & -> & Ho & H). apply matches_chr in Ho as ->.
  apply matches_seq in H as (a & w2 & -> & Ha & H).
  apply matches_seq in H as (g & c & -> & Hg & Hc). apply matches_chr in Hc as ->.
  apply matches_no_braces in Ha.
  exists (a ++ g ++ [RBRACE]). split; [reflexivity|].
  intro s. rewrite <- !app_assoc. rewrite (brace_scan_skip false _ Ha).
  now rewrite (brace_scan_groups _ Hg).
Qed.

(** No match is a proper prefix of another. *)
Lemma json_pattern_prefix_free (w1 w2 s1 s2 : pystr) :
  matches json_pattern w1 -> matches json_pattern w2 ->
  w1 ++ s1 = w2 ++ s2 -> w1 = w2 /\ s1 = s2.
Proof.
  intros H1 H2 E.
  apply matches_json_pattern in H1 as (v1 & -> & S1).
  apply matches_json_pattern in H2 as (v2 & -> & S2).
  simpl in E. injection E as E.
  assert (Es : s1 = s2).
  { specialize (S1 s1). rewrite E, S2 in S1. now injection S1. }
  subst s2. apply app_inv_tail in E. now subst.
Qed.

(** At a text that starts with a match, the matcher finds that match. *)
Lemma match_prefix_json_pattern (obj rest : pystr) :
  matches json_pattern obj ->
  match_prefix json_pattern (obj ++ rest) = Some (obj, rest).
Proof.
  intro H. unfold match_prefix.
  pose proof (ends_complete H rest) as Hin.
  destruct (ends json_pattern (obj ++ rest)) as [|h t] eqn:E; [destruct Hin|].
  assert (Hh : In h (ends json_pattern (obj ++ rest))) by (rewrite E; now left).
  apply ends_sound in Hh as (w & Ew & Hw).
  destruct (json_pattern_prefix_free _ _ H Hw Ew) as [<- <-].
  rewrite length_app, Nat.add_sub.
  rewrite firstn_app, Nat.sub_diag, firstn_all. simpl. now rewrite app_nil_r.
Qed.

(** A text the pattern matches whole is in its language. *)
Lemma full_match_matches (obj : pystr) :
  match_prefix json_pattern obj = Some (obj, []) -> matches json_pattern obj.
Proof.
  unfold match_prefix. intro H.
  destruct (ends json_pattern obj) as [|h t] eqn:E; [discriminate|].
  injection H as _ ->.
  assert (Hh : In [] (ends json_pattern obj)) by (rewrite E; now left).
  apply ends_sound in Hh as (w & Ew & Hw). rewrite app_nil_r in Ew. now subst.
Qed.

(** No match starts at a character other than an opening brace. *)
Lemma match_prefix_not_open (c : char) (s : pystr) :
  c <> LBRACE -> match_prefix json_pattern (c :: s) = None.
Proof.
  intro H. unfold match_prefix. simpl.
  destruct (char_eqb c LBRACE) eqn:E; [|reflexivity].
  apply char_eqb_eq in E. contradiction.
Qed.

Lemma finditer_from_skip (r : regex) (w s : pystr) :
  finditer_from r (length w) (w ++ s) = finditer_from r 0 s.
Proof. induction w as [|c w IH]; simpl; [reflexivity|exact IH]. Qed.

(** Text without an opening brace holds no candidate. *)
Lemma finditer_separator (sep s : pystr) :
  ~ In LBRACE sep ->
  finditer json_pattern (sep ++ s) = finditer json_pattern s.
Proof.
  unfold finditer. induction sep as [|c sep IH]; intro H; [reflexivity|].
  change ((c :: sep) ++ s) with (c :: (sep ++ s)).
  cbn [finditer_from].
  rewrite match_prefix_not_open.
  - apply IH. intro Hin. apply H. now right.
  - intro Hc. apply H. now left.
Qed.

(** A match at the head of the text is the first candidate, and the scan
    goes on after it. *)
Lemma finditer_match (obj rest : pystr) :
  matches json_pattern obj ->
  finditer json_pattern (obj ++ rest) = obj :: finditer json_pattern rest.
Proof.
  intro H. unfold finditer.
  pose proof (match_prefix_json_pattern rest H) as Hm.
  destruct (matches_json_pattern H) as (w' & -> & _).
  change ((LBRACE :: w') ++ rest) with (LBRACE :: (w' ++ rest)) in *.
  cbn [finditer_from]. rewrite Hm. f_equal.
  replace (length (LBRACE :: w') - 1) with (length w') by (simpl; lia).
  apply finditer_from_skip.
Qed.

End PatternFacts.

(** ** [json.loads]: the decoder never runs out of fuel *)

Module JsonFacts.
Import Json.

Lemma skip_ws_length (s : pystr) : length (skip_ws s) <= length s.
Proof.
  induction s as [|c s IH]; simpl; [lia|].
  destruct (is_ws c); simpl; lia.
Qed.

Lemma scanstring_shorter (n : nat) :
  forall s acc str rest,
    length s <= n -> scanstring s acc = Some (str, rest) ->
    length rest < length s.
Proof.
  induction n as [|n IH]; intros s acc str rest Hn H.
  - destruct s; [discriminate|simpl in Hn; lia].
  - destruct s as [|c r]; [discriminate|].
    cbn [scanstring] in H. simpl in Hn.
    destruct (c =? 34)%N; [injection H as _ <-; simpl; lia|].
    destruct (c =? 92)%N.
    + destruct r as [|e r1]; [discriminate|].
      destruct (e =? 117)%N.
      * destruct r1 as [|h1 [|h2 [|h3 [|h4 r2]]]]; try discriminate.
        destruct (hex4 h1 h2 h3 h4) as [cp|]; [|discriminate].
        simpl in Hn.
        assert (Hr2 : forall a, scanstring r2 a = Some (str, rest) ->
                                length rest < length (c :: e :: h1 :: h2 :: h3 :: h4 :: r2)).
        { intros a Ha. apply IH in Ha; simpl; lia. }
        destruct r2 as [|b [|u [|k1 [|k2 [|k3 [|k4 [|x more]]]]]]];
          try (now apply Hr2 in H).
        destruct (is_high_surrogate cp && (b =? 92)%N && (u =? 117)%N);
          [|now apply Hr2 in H].
        destruct (hex4 k1 k2 k3 k4) as [lo|]; [|discriminate].
        destruct (is_low_surrogate lo); [|now apply Hr2 in H].
        apply IH in H; simpl in *; lia.
      * destruct (escape e); [|discriminate].
        apply IH in H; simpl in *; lia.
    + destruct (c <=? 31)%N; [discriminate|].
      apply IH in H; simpl in *; lia.
Qed.

Lemma span_digits_length (s d r : pystr) :
  span_digits s = (d, r) -> length r <= length s.
Proof.
  revert d r. induction s as [|c s IH]; intros d r H; simpl in H.
  - injection H as _ <-. simpl. lia.
  - destruct (is_digit c).
    + destruct (span_digits s) as [d' r'] eqn:E. injection H as _ <-.
      specialize (IH _ _ eq_refl). simpl. lia.
    + injection H as _ <-. simpl. lia.
Qed.

Lemma scan_int_part_shorter (s ip r : pystr) :
  scan_int_part s = Some (ip, r) -> length r < length s.
Proof.
  unfold scan_int_part. destruct s as [|c s]; [discriminate|].
  destruct (c =? 48)%N; [intros [= _ <-]; simpl; lia|].
  destruct (is_digit c); [|discriminate].
  destruct (span_digits s) as [d r'] eqn:E. intros [= _ <-].
  apply span_digits_length in E. simpl. lia.
Qed.

Lemma scan_frac_length (s fp r : pystr) :
  scan_frac s = (fp, r) -> length r <= length s.
Proof.
  unfold scan_frac. destruct s as [|dot [|d s]]; try (intros [= _ <-]; lia).
  destruct ((dot =? 46)%N && is_digit d); [|intros [= _ <-]; lia].
  destruct (span_digits (d :: s)) as [ds r'] eqn:E. intros [= _ <-].
  apply span_digits_length in E. simpl in *. lia.
Qed.

Lemma scan_exp_length (s ep r : pystr) :
  scan_exp s = (ep, r) -> length r <= length s.
Proof.
  unfold scan_exp. destruct s as [|e s]; [intros [= _ <-]; lia|].
  destruct ((e =? 101)%N || (e =? 69)%N); [|intros [= _ <-]; lia].
  destruct s as [|sg r1]; [intros [= _ <-]; lia|].
  destruct ((sg =? 43)%N || (sg =? 45)%N).
  - destruct (span_digits r1) as [[|x ds] r'] eqn:E; intros [= _ <-]; [lia|].
    apply span_digits_length in E. simpl in *. lia.
  - destruct (span_digits (sg :: r1)) as [[|x ds] r'] eqn:E;
      intros [= _ <-]; [lia|].
    apply span_digits_length in E. simpl in *. lia.
Qed.

Section Scanner.

Variable py : interpreter.

Lemma match_number_shorter (s rest : pystr) (v : value) :
  match_number py s = Parsed v rest -> length rest < length s.
Proof.
  unfold match_number.
  set (sign := match s with
               | c :: r => if (c =? 45)%N then (true, r) else (false, s)
               | [] => (false, s)
               end).
  assert (Hs : length (snd sign) <= length s).
  { subst sign. destruct s as [|c r]; simpl; [lia|].
    destruct (c =? 45)%N; simpl; lia. }
  destruct sign as [neg s0]. simpl in Hs.
  destruct (scan_int_part s0) as [[ip s1]|] eqn:E1; [|discriminate].
  destruct (scan_frac s1) as [fp s2] eqn:E2.
  destruct (scan_exp s2) as [ep s3] eqn:E3.
  apply scan_int_part_shorter in E1. apply scan_frac_length in E2.
  apply scan_exp_length in E3.
  destruct fp, ep; try (intros [= _ <-]; lia).
  destruct (int_refuses py (length ip)); [discriminate|].
  intros [= _ <-]. lia.
Qed.

End Scanner.

Lemma after_word_shorter (word s r : pystr) :
  word <> [] -> after_word word s = Some r -> length r < length s.
Proof.
  unfold after_word, startswith. intros Hw.
  destruct (PyStr.eqb word (firstn (length word) s)) eqn:E; [|discriminate].
  intros [= <-]. apply pystr_eqb_eq in E.
  assert (Hl : length word <= length s).
  { rewrite E at 1. rewrite length_firstn. lia. }
  rewrite length_skipn. destruct word; [contradiction|simpl in *; lia].
Qed.

Section Scans.

Variable py : interpreter.

Lemma scan_atom_shorter (s rest : pystr) (v : value) :
  scan_atom py s = Parsed v rest -> length rest < length s.
Proof.
  unfold scan_atom. intro H.
  repeat match type of H with
         | context [after_word ?w s] =>
             let E := fresh "E" in
             destruct (after_word w s) eqn:E;
             [injection H as _ <-;
              apply after_word_shorter in E; [exact E|discriminate]|]
         end.
  now apply match_number_shorter in H.
Qed.


Lemma scan_once_S (n depth : nat) (s : pystr) :
  scan_once py (S n) depth s =
  match s with
  | [] => DecodeError
  | c :: r =>
      if (c =? 34)%N then
        match scanstring r [] with
        | Some (str, rest) => Parsed (PyStr str) rest
        | None => DecodeError
        end
      else if (c =? 123)%N then
        match depth with
        | O => Raised (too_deep (utf8 "object"))
        | S inside =>
            match skip_ws r with
            | close :: rest =>
                if (close =? 125)%N then Parsed (PyDict []) rest
                else parse_members py n inside (skip_ws r) []
            | [] => DecodeError
            end
        end
      else if (c =? 91)%N then
        match depth with
        | O => Raised (too_deep (utf8 "array"))
        | S inside =>
            match skip_ws r with
            | close :: rest =>
                if (close =? 93)%N then Parsed (PyList []) rest
                else parse_elements py n inside (skip_ws r) []
            | [] => DecodeError
            end
        end
      else scan_atom py s
  end.
Proof. reflexivity. Qed.

Lemma parse_members_S (n depth : nat) (s : pystr) (acc : dict) :
  parse_members py (S n) depth s acc =
  match s with
  | q :: r =>
      if (q =? 34)%N then
        match scanstring r [] with
        | None => DecodeError
        | Some (key, r1) =>
            match skip_ws r1 with
            | colon :: r2 =>
                if (colon =? 58)%N then
                  match scan_once py n depth (skip_ws r2) with
                  | Parsed v r3 =>
                      let acc' := dict_set acc key v in
                      match skip_ws r3 with
                      | x :: r4 =>
                          if (x =? 125)%N then Parsed (PyDict acc') r4
                          else if (x =? 44)%N
                          then parse_members py n depth (skip_ws r4) acc'
                          else DecodeError
                      | [] => DecodeError
                      end
                  | DecodeError => DecodeError
                  | Raised e => Raised e
                  | OutOfFuel => OutOfFuel
                  end
                else DecodeError
            | [] => DecodeError
            end
        end
      else DecodeError
  | [] => DecodeError
  end.
Proof. reflexivity. Qed.

Lemma parse_elements_S (n depth : nat) (s : pystr) (acc : list value) :
  parse_elements py (S n) depth s acc =
  match scan_once py n depth s with
  | Parsed v r1 =>
      match skip_ws r1 with
      | x :: r2 =>
          if (x =? 93)%N then Parsed (PyList (acc ++ [v])) r2
          else if (x =? 44)%N
          then parse_elements py n depth (skip_ws r2) (acc ++ [v])
          else DecodeError
      | [] => DecodeError
      end
  | DecodeError => DecodeError
  | Raised e => Raised e
  | OutOfFuel => OutOfFuel
  end.
Proof. reflexivity. Qed.

Ltac note_skip_ws s :=
  lazymatch goal with
  | _ : length (skip_ws s) <= length s |- _ => fail
  | _ => pose proof (skip_ws_length s)
  end.

Ltac shorter :=
  repeat match goal with
         | _ : context [skip_ws ?s] |- _ => note_skip_ws s
         | |- context [skip_ws ?s] => note_skip_ws s
         end;
  repeat match goal with
         | H : skip_ws ?s = _ |- _ => rewrite H in *; clear H
         | H : scanstring _ _ = Some _ |- _ =>
             eapply scanstring_shorter in H; [|apply Nat.le_refl]
         | H : scan_atom _ _ = Parsed _ _ |- _ => apply scan_atom_shorter in H
         end;
  simpl in *; try lia.

(** Whatever is scanned takes at least one character. *)
Lemma scans_shorter (fuel : nat) :
  (forall depth s v rest,
     scan_once py fuel depth s = Parsed v rest -> length rest < length s)
  /\ (forall depth s acc v rest,
        parse_members py fuel depth s acc = Parsed v rest ->
        length rest < length s)
  /\ (forall depth s acc v rest,
        parse_elements py fuel depth s acc = Parsed v rest ->
        length rest < length s).
Proof.
  induction fuel as [|n (IHs & IHm & IHe)].
  - repeat split; intros; discriminate.
  - repeat split.
    + intros depth s v rest H. rewrite scan_once_S in H.
      destruct s as [|c r]; [discriminate|].
      destruct (c =? 34)%N.
      { destruct (scanstring r []) as [[str r']|] eqn:E; [|discriminate].
        injection H as _ <-. shorter. }
      destruct (c =? 123)%N.
      { destruct depth as [|inside]; [discriminate|].
        destruct (skip_ws r) as [|close r'] eqn:E; [discriminate|].
        destruct (close =? 125)%N.
        - injection H as _ <-. shorter.
        - apply IHm in H. shorter. }
      destruct (c =? 91)%N.
      { destruct depth as [|inside]; [discriminate|].
        destruct (skip_ws r) as [|close r'] eqn:E; [discriminate|].
        destruct (close =? 93)%N.
        - injection H as _ <-. shorter.
        - apply IHe in H. shorter. }
      shorter.
    + intros depth s acc v rest H. rewrite parse_members_S in H.
      destruct s as [|q r]; [discriminate|].
      destruct (q =? 34)%N; [|discriminate].
      destruct (scanstring r []) as [[key r1]|] eqn:E1; [|discriminate].
      destruct (skip_ws r1) as [|colon r2] eqn:E2; [discriminate|].
      destruct (colon =? 58)%N; [|discriminate].
      destruct (scan_once py n depth (skip_ws r2)) as [v' r3| | |] eqn:E3;
        try discriminate.
      apply IHs in E3. cbv zeta in H.
      destruct (skip_ws r3) as [|x r4] eqn:E4; [discriminate|].
      destruct (x =? 125)%N.
      { injection H as _ <-. shorter. }
      destruct (x =? 44)%N; [|discriminate].
      apply IHm in H. shorter.
    + intros depth s acc v rest H. rewrite parse_elements_S in H.
      destruct (scan_once py n depth s) as [v' r1| | |] eqn:E1;
        try discriminate.
      apply IHs in E1.
      destruct (skip_ws r1) as [|x r2] eqn:E2; [discriminate|].
      destruct (x =? 93)%N.
      { injection H as _ <-. shorter. }
      destruct (x =? 44)%N; [|discriminate].
      apply IHe in H. shorter.
Qed.

(** With twice the length of the text and one more, fuel does not run out. *)
Lemma scan_atom_has_fuel (s : pystr) : scan_atom py s <> OutOfFuel.
Proof.
  unfold scan_atom.
  repeat match goal with
         | |- context [after_word ?w s] =>
             destruct (after_word w s); [discriminate|]
         end.
  unfold match_number.
  destruct (match s with
            | c :: r => if (c =? 45)%N then (true, r) else (false, s)
            | [] => (false, s)
            end) as [neg s0].
  destruct (scan_int_part s0) as [[ip s1]|]; [|discriminate].
  destruct (scan_frac s1) as [fp s2]. destruct (scan_exp s2) as [ep s3].
  destruct fp, ep; try discriminate.
  destruct (int_refuses py (length ip)); discriminate.
Qed.

Lemma scans_have_fuel (fuel : nat) :
  (forall depth s,
     2 * length s + 1 <= fuel -> scan_once py fuel depth s <> OutOfFuel)
  /\ (forall depth s acc,
        2 * length s + 1 <= fuel ->
        parse_members py fuel depth s acc <> OutOfFuel)
  /\ (forall depth s acc,
        2 * length s + 2 <= fuel ->
        parse_elements py fuel depth s acc <> OutOfFuel).
Proof.
  induction fuel as [|n (IHs & IHm & IHe)].
  - repeat split; intros; lia.
  - destruct (scans_shorter n) as (Ls & Lm & Le).
    repeat split.
    + intros depth s Hf. rewrite scan_once_S.
      destruct s as [|c r]; [discriminate|]. simpl in Hf.
      destruct (c =? 34)%N.
      { destruct (scanstring r []) as [[str r']|]; discriminate. }
      destruct (c =? 123)%N.
      { destruct depth as [|inside]; [discriminate|].
        destruct (skip_ws r) as [|close r'] eqn:E; [discriminate|].
        destruct (close =? 125)%N; [discriminate|].
        rewrite <- E. apply IHm. pose proof (skip_ws_length r). lia. }
      destruct (c =? 91)%N.
      { destruct depth as [|inside]; [discriminate|].
        destruct (skip_ws r) as [|close r'] eqn:E; [discriminate|].
        destruct (close =? 93)%N; [discriminate|].
        rewrite <- E. apply IHe. pose proof (skip_ws_length r). lia. }
      apply scan_atom_has_fuel.
    + intros depth s acc Hf. rewrite parse_members_S.
      destruct s as [|q r]; [discriminate|]. simpl in Hf.
      destruct (q =? 34)%N; [|discriminate].
      destruct (scanstring r []) as [[key r1]|] eqn:E1; [|discriminate].
      destruct (skip_ws r1) as [|colon r2] eqn:E2; [discriminate|].
      destruct (colon =? 58)%N; [|discriminate].
      assert (H2 : length (skip_ws r2) < length r).
      { pose proof (skip_ws_length r2). shorter. }
      destruct (scan_once py n depth (skip_ws r2)) as [v' r3| | |] eqn:E3;
        [|discriminate|discriminate|].
      * apply Ls in E3. cbv zeta.
        destruct (skip_ws r3) as [|x r4] eqn:E4; [discriminate|].
        destruct (x =? 125)%N; [discriminate|].
        destruct (x =? 44)%N; [|discriminate].
        apply IHm. pose proof (skip_ws_length r4). shorter.
      * exfalso. revert E3. apply IHs. lia.
    + intros depth s acc Hf. rewrite parse_elements_S.
      destruct (scan_once py n depth s) as [v' r1| | |] eqn:E1;
        [|discriminate|discriminate|].
      * apply Ls in E1.
        destruct (skip_ws r1) as [|x r2] eqn:E2; [discriminate|].
        destruct (x =? 93)%N; [discriminate|].
        destruct (x =? 44)%N; [|discriminate].
        apply IHe. pose proof (skip_ws_length r2). shorter.
      * exfalso. revert E1. apply IHs. lia.
Qed.

(** [decode] never stops for lack of fuel: a text that does not decode is
    a text the decoder refuses. *)
Lemma decode_has_fuel (s : pystr) : decode py s <> OutOfFuel.
Proof.
  unfold decode.
  destruct (scan_once py (2 * length (skip_ws s) + 2) (recursion_limit py)
              (skip_ws s))
    as [v rest| | |] eqn:E.
  - destruct (skip_ws rest); discriminate.
  - discriminate.
  - discriminate.
  - exfalso. revert E. apply (scans_have_fuel _). lia.
Qed.



End Scans.

End JsonFacts.

(** ** [_extract_tool_calls] *)

Section ExtractFacts.
Import Re PatternFacts.

Variable py : interpreter.

Lemma encode_error_None (s : pystr) :
  forall position,
    encode_error position s = None
    <-> forallb (fun c => negb (is_surrogate c)) s = true.
Proof.
  induction s as [|c s IH]; intro position; cbn [encode_error forallb].
  - tauto.
  - destruct (is_surrogate c); cbn [negb andb]; [split; discriminate|apply IH].
Qed.

(** A text is printed when it holds no surrogate. *)
Lemma print_Ok (text : pystr) :
  print text = Ok tt <-> forallb (fun c => negb (is_surrogate c)) text = true.
Proof.
  unfold print. rewrite <- (encode_error_None text 0).
  destruct (encode_error 0 text); split; try reflexivity; discriminate.
Qed.

Lemma print_app (a b : pystr) :
  print (a ++ b) = Ok tt <-> print a = Ok tt /\ print b = Ok tt.
Proof. rewrite !print_Ok, forallb_app. apply andb_true_iff. Qed.

Lemma print_of_uint (d : Decimal.uint) : print (of_uint d) = Ok tt.
Proof.
  apply print_Ok. induction d; cbn [of_uint forallb]; try reflexivity;
    exact IHd.
Qed.

Lemma hex_char_plain (d : N) : (d < 16)%N -> is_surrogate (hex_char d) = false.
Proof.
  intro H. unfold is_surrogate, hex_char. apply andb_false_iff. left.
  apply N.leb_gt. destruct (d <? 10)%N; lia.
Qed.

Lemma print_hex4_of (c : char) : is_surrogate c = true -> print (hex4_of c) = Ok tt.
Proof.
  intro H. unfold is_surrogate in H. apply andb_true_iff in H.
  destruct H as [_ H]. apply N.leb_le in H.
  apply print_Ok. unfold hex4_of. cbn [forallb].
  rewrite !hex_char_plain; [reflexivity| | | |];
    try (apply N.mod_lt; discriminate).
  apply N.Div0.div_lt_upper_bound. lia.
Qed.

(** The message of an encoding error can itself be printed. *)
Lemma print_surrogates_not_allowed (c : char) (position more : nat) :
  is_surrogate c = true ->
  print (exn_str (surrogates_not_allowed c position more)) = Ok tt.
Proof.
  intro H. unfold surrogates_not_allowed. cbn [exn_str].
  destruct more as [|more]; repeat (apply print_app; split);
    try apply print_of_uint; try (now apply print_hex4_of);
    vm_compute; reflexivity.
Qed.

Lemma print_encode_error (s : pystr) :
  forall position e,
    encode_error position s = Some e -> print (exn_str e) = Ok tt.
Proof.
  induction s as [|c s IH]; intros position e; cbn [encode_error];
    [discriminate|].
  destruct (is_surrogate c) eqn:Ec; [|apply IH].
  intros [= <-]. now apply print_surrogates_not_allowed.
Qed.

Lemma encode_error_class (s : pystr) :
  forall position e,
    encode_error position s = Some e -> exn_cls e = UnicodeEncodeError.
Proof.
  induction s as [|c s IH]; intros position e; cbn [encode_error];
    [discriminate|].
  destruct (is_surrogate c); [now intros [= <-]|apply IH].
Qed.

(** A [print] raises nothing but [UnicodeEncodeError]. *)
Lemma print_raises (text : pystr) (e : exn) :
  print text = Raise e -> exn_cls e = UnicodeEncodeError.
Proof.
  unfold print. destruct (encode_error 0 text) as [e'|] eqn:E; [|discriminate].
  intros [= <-]. now apply encode_error_class in E.
Qed.

Lemma print_value_raises (prefix : pystr) (v : value) (e : exn) :
  print_value prefix v = Raise e -> exn_cls e = UnicodeEncodeError.
Proof. destruct v; try discriminate. apply print_raises. Qed.

Lemma calls_of_cons (c : pystr) (more : list pystr) :
  calls_of py (c :: more) = option_list (candidate_call py c) ++ calls_of py more.
Proof. simpl. now destruct (candidate_call py c). Qed.

Lemma calls_of_app (a b : list pystr) :
  calls_of py (a ++ b) = calls_of py a ++ calls_of py b.
Proof.
  induction a as [|c a IH]; [reflexivity|].
  change ((c :: a) ++ b) with (c :: (a ++ b)).
  now rewrite !calls_of_cons, IH, app_assoc.
Qed.

Lemma first_escape_app (a b : list pystr) :
  first_escape py (a ++ b)
  = match first_escape py a with
    | Some e => Some e
    | None => first_escape py b
    end.
Proof.
  induction a as [|c a IH]; [reflexivity|].
  cbn [app first_escape]. now destruct (candidate_escape py c).
Qed.

(** The loop over the candidates stops at the first exception a candidate
    lets out; without one it adds what [candidate_call] says, whether the
    [print] of line 213 raised or not. *)
Lemma scan_candidates_adds (cs : list pystr) :
  forall acc,
    scan_candidates py cs acc
    = match first_escape py cs with
      | Some e => Raise e
      | None => Ok (acc ++ calls_of py cs)
      end.
Proof.
  induction cs as [|c cs IH]; intro acc.
  - simpl. now rewrite app_nil_r.
  - cbn [scan_candidates first_escape]. rewrite calls_of_cons.
    unfold try_candidate, candidate_escape, candidate_call, call_of_object,
      dict_get.
    destruct (Json.loads py (replace_char SQUOTE DQUOTE c)) as [data|e].
    + assert (Hskip : scan_candidates py cs acc
                      = match first_escape py cs with
                        | Some e => Raise e
                        | None => Ok (acc ++ [] ++ calls_of py cs)
                        end) by apply IH.
      destruct data; try exact Hskip.
      destruct (dict_contains d K_tool); [|exact Hskip].
      match goal with
      | |- context [print_value ?p ?v] =>
          destruct (print_value p v) as [u|e] eqn:Ep
      end.
      * cbn [try_except bind]. rewrite IH.
        destruct (dict_lookup d K_args) as [[]|];
          cbn [option_list]; now rewrite <- app_assoc.
      * apply print_value_raises in Ep.
        cbn [try_except handle skipped_classes existsb]. rewrite Ep.
        cbn [subclass orb bind]. rewrite IH.
        destruct (dict_lookup d K_args) as [[]|];
          cbn [option_list]; now rewrite <- app_assoc.
    + cbn [try_except handle].
      destruct (existsb (subclass (exn_cls e)) skipped_classes);
        [|reflexivity].
      cbn [bind option_list app]. apply IH.
Qed.

(** On a text, the extractor returns the calls of the candidates the
    pattern finds, in their order, unless a candidate lets an exception
    out. *)
Lemma extract_text (text : pystr) :
  _extract_tool_calls py (PyStr text)
  = match first_escape py (finditer json_pattern text) with
    | Some e => Raise e
    | None => Ok (calls_of py (finditer json_pattern text))
    end.
Proof. unfold _extract_tool_calls. now rewrite scan_candidates_adds. Qed.



Lemma excluded_no_call (c : pystr) : excluded py c -> candidate_call py c = None.
Proof.
  unfold excluded, candidate_call.
  destruct (Json.loads _ _) as [[]|]; try reflexivity.
  now intros ->.
Qed.

Lemma excluded_no_escape (c : pystr) :
  excluded py c -> candidate_escape py c = None.
Proof.
  unfold excluded, candidate_escape.
  destruct (Json.loads _ _) as [v|e]; [reflexivity|]. now intros ->.
Qed.

(** A candidate the extractor leaves out might as well not be there. *)
Lemma scan_candidates_without (pre post : list pystr) (c : pystr) :
  excluded py c ->
  scan_candidates py (pre ++ c :: post) [] = scan_candidates py (pre ++ post) [].
Proof.
  intro Hx. rewrite !scan_candidates_adds, !first_escape_app, !calls_of_app.
  cbn [first_escape]. rewrite calls_of_cons.
  rewrite (excluded_no_call c Hx), (excluded_no_escape c Hx). reflexivity.
Qed.

Lemma finditer_spaced (text : pystr) (objs : list pystr) :
  spaced_objects text objs -> finditer json_pattern text = objs.
Proof.
  induction 1 as [sep Hsep|sep obj rest objs Hsep Hobj _ IH].
  - rewrite <- (app_nil_r sep). rewrite finditer_separator by assumption.
    reflexivity.
  - rewrite finditer_separator by assumption.
    rewrite finditer_match by now apply full_match_matches.
    now rewrite IH.
Qed.

Lemma plain_object_call (obj : pystr) (d : dict) :
  plain_tool_object py obj d ->
  candidate_call py obj = Some (call_of_object d)
  /\ candidate_escape py obj = None.
Proof.
  intros (Hq & Hl & Ht). unfold candidate_call, candidate_escape.
  rewrite replace_char_absent by assumption. rewrite Hl, Ht. now split.
Qed.

Lemma calls_of_plain (objs : list pystr) (ds : list dict) :
  Forall2 (plain_tool_object py) objs ds ->
  calls_of py objs = map call_of_object ds /\ first_escape py objs = None.
Proof.
  induction 1 as [|obj d objs ds H _ [IH1 IH2]]; [now split|].
  destruct (plain_object_call H) as [Hc He].
  cbn [calls_of first_escape map]. rewrite Hc, He, IH1, IH2. now split.
Qed.

End ExtractFacts.


(** ** The orchestration loop *)

Section LoopFacts.

Variable repr : value -> pystr.
Variable py : interpreter.
Variable self : SmartChatClient.
Variable world : backend.
Variable system_prompt : pystr.
Variable max_iterations : Z.

Lemma count_posts_app (a b : list event) :
  count_posts (a ++ b) = count_posts a + count_posts b.
Proof. unfold count_posts. now rewrite filter_app, length_app. Qed.

Lemma count_posts_tools (t : list event) :
  Forall (fun e => is_post e = false) t -> count_posts t = 0.
Proof.
  unfold count_posts. induction 1 as [|e t He _ IH]; simpl; [reflexivity|].
  now rewrite He.
Qed.

(** [except Exception] takes whatever the body of the [try] raised. *)
Lemma recorded_cases (body : result pystr) :
  recorded body
  = match body with
    | Ok text => Ok text
    | Raise e => report_failure e
    end.
Proof.
  destruct body as [t|e]; [reflexivity|].
  unfold recorded. cbn [try_except handle existsb]. now destruct (exn_cls e).
Qed.

(** What is recorded is the text of the tool or the failure message. *)
Lemma recorded_ok (body : result pystr) (text : pystr) :
  recorded body = Ok text -> text = recorded_text body.
Proof.
  rewrite recorded_cases. destruct body as [t|e]; [now intros [= <-]|].
  unfold report_failure. destruct (print _); cbn [bind]; [|discriminate].
  now intros [= <-].
Qed.

(** What a round raises comes from a [print]. *)
Lemma recorded_raises (body : result pystr) (e : exn) :
  recorded body = Raise e -> exn_cls e = UnicodeEncodeError.
Proof.
  rewrite recorded_cases. destruct body as [t|e']; [discriminate|].
  unfold report_failure. destruct (print _) as [u|e''] eqn:Ep; cbn [bind];
    [discriminate|].
  intros [= <-]. now apply print_raises in Ep.
Qed.

Lemma call_tool_log (log : list event) (tc : tool_call) :
  exists invoked,
    snd (call_tool self log tc) = log ++ invoked
    /\ Forall (fun e => is_post e = false) invoked
    /\ (forall s, session self = Some s -> invoked = [tool_event_of tc])
    /\ (session self = None -> invoked = []).
Proof.
  unfold call_tool. destruct (session self) as [s|].
  - exists [tool_event_of tc]. repeat split.
    + repeat constructor.
    + discriminate.
  - exists []. rewrite app_nil_r. repeat split.
    + constructor.
    + discriminate.
Qed.

Lemma failure_mark_print : print (TOOL_FAILED_MARK ++ MSG_TOOL_FAILED) = Ok tt.
Proof. vm_compute. reflexivity. Qed.

(** What raises can be reported when its text can be printed. *)
Lemma report_failure_ok (e : exn) :
  print (exn_str e) = Ok tt ->
  report_failure e = Ok (MSG_TOOL_FAILED ++ exn_str e).
Proof.
  intro H. unfold report_failure. cbv zeta.
  assert (P : print (TOOL_FAILED_MARK ++ MSG_TOOL_FAILED ++ exn_str e) = Ok tt).
  { rewrite app_assoc. apply print_app. split; [exact failure_mark_print|exact H]. }
  rewrite P. reflexivity.
Qed.

(** With a reportable session, lines 98-107 record a text for every call. *)
Lemma reportable_recorded (s : ClientSession) :
  reportable s ->
  forall log name args, exists text,
    recorded (shown_text (s log name args)) = Ok text.
Proof.
  intros Hr log name args. rewrite recorded_cases. unfold shown_text.
  destruct (read_tool_result (s log name args)) as [t|e] eqn:Er; cbn [bind].
  - destruct (print (TOOL_RESULT ++ slice_to 100 t ++ utf8 "...")) as [u|e] eqn:Ep;
      cbn [bind].
    + now exists t.
    + exists (MSG_TOOL_FAILED ++ exn_str e). apply report_failure_ok.
      unfold print in Ep.
      destruct (encode_error 0 _) as [e'|] eqn:Ee; [|discriminate].
      injection Ep as <-. now apply print_encode_error in Ee.
  - exists (MSG_TOOL_FAILED ++ exn_str e). apply report_failure_ok.
    now apply (Hr log name args).
Qed.

(** A round with a session whose failures can be reported, on calls whose
    names can be printed: every call is invoked, in order, and none stops
    the round. *)
Lemma run_tool_calls_session (s : ClientSession) :
  session self = Some s ->
  reportable s ->
  forall calls results0 log,
    Forall announced calls ->
    run_tool_calls self calls results0 log
    = (Ok (results0 ++ round_results s log calls),
       log ++ map tool_event_of calls).
Proof.
  intros Hs Hr. induction calls as [|tc calls IH]; intros results0 log Ha.
  - simpl. now rewrite !app_nil_r.
  - inversion Ha as [|? ? Htc Hcalls]; subst.
    cbn [run_tool_calls round_results map]. rewrite Htc.
    unfold call_tool. rewrite Hs.
    destruct (reportable_recorded Hr log (tc_tool tc) (tc_args tc)) as [text Et].
    rewrite Et. apply recorded_ok in Et. subst text.
    rewrite IH by assumption. now rewrite <- !app_assoc.
Qed.

(** A round, with or without a session, adds no model call to the log; it
    ends with one result per call, or with the exception of a [print]. *)
Lemma run_tool_calls_shape (calls : list tool_call) :
  forall results0 log, exists r tools,
    run_tool_calls self calls results0 log = (r, log ++ tools)
    /\ Forall (fun e => is_post e = false) tools
    /\ match r with
       | Ok results => length results = length results0 + length calls
       | Raise e => exn_cls e = UnicodeEncodeError
       end.
Proof.
  induction calls as [|tc calls IH]; intros results0 log.
  - exists (Ok results0), []. simpl. rewrite app_nil_r.
    repeat split; [constructor|lia].
  - cbn [run_tool_calls].
    destruct (print_value USING_TOOL (tc_tool tc)) as [u|e] eqn:Ep.
    + destruct (call_tool_log log tc) as (invoked & El & Hi & _).
      destruct (call_tool self log tc) as [body log1]. cbn [snd] in El.
      subst log1.
      destruct (recorded body) as [text|e] eqn:Er.
      * destruct (IH (results0 ++ [{| tr_tool := tc_tool tc; tr_result := text |}])
                    (log ++ invoked))
          as (r & tools & E & Ht & Hl).
        exists r, (invoked ++ tools). rewrite E, <- app_assoc.
        repeat split.
        -- apply Forall_app. now split.
        -- destruct r; [|exact Hl]. rewrite Hl, length_app. simpl. lia.
      * exists (Raise e), invoked. repeat split; [exact Hi|].
        now apply recorded_raises in Er.
    + exists (Raise e), []. rewrite app_nil_r.
      repeat split; [constructor|]. now apply print_value_raises in Ep.
Qed.

Lemma build_message_log (i : Z) (st : loop_state) :
  log (snd (build_message i st)) = log st.
Proof. unfold build_message. now destruct (i =? 0)%Z. Qed.

(** One iteration, by the reply of the model and what the extractor finds
    in it. *)
Lemma iterate_step (todo : nat) (i : Z) (st : loop_state) :
  let prompt := fst (build_message i st) in
  let st1 := snd (build_message i st) in
  let log1 := log st ++ [post_of self system_prompt prompt] in
  let out := iterate repr py self world system_prompt max_iterations (S todo) i st in
  match gateway_result
          (world (log st) OLLAMA_URL (payload_of self system_prompt prompt)) with
  | Raise e => out = (Ok (PyStr (MSG_GATEWAY_FAILED ++ exn_str e)), log1)
  | Ok response =>
      match _extract_tool_calls py response with
      | Raise e => out = (Raise e, log1)
      | Ok [] => out = (Ok response, log1)
      | Ok (tc :: more) =>
          exists r tools,
            run_tool_calls self (tc :: more) [] log1 = (r, log1 ++ tools)
            /\ Forall (fun e => is_post e = false) tools
            /\ match r with
               | Raise e =>
                   exn_cls e = UnicodeEncodeError
                   /\ out = (Raise e, log1 ++ tools)
               | Ok results =>
                   length results = S (length more)
                   /\ let st2 :=
                        after_round repr st1 response results (log1 ++ tools) in
                      out = if (i =? max_iterations - 1)%Z
                            then final_answer self world system_prompt st2
                            else iterate repr py self world system_prompt
                                   max_iterations todo (i + 1)%Z st2
               end
      end
  end.
Proof.
  cbv zeta. cbn [iterate].
  pose proof (build_message_log i st) as Hl.
  destruct (build_message i st) as [prompt st1]. cbn [fst snd] in *.
  unfold _call_ollama. rewrite Hl. fold (post_of self system_prompt prompt).
  destruct (gateway_result _) as [response|e]; [|reflexivity].
  destruct (_extract_tool_calls py response) as [[|tc more]|e]; try reflexivity.
  destruct (run_tool_calls_shape (tc :: more) []
              (log st ++ [post_of self system_prompt prompt]))
    as (r & tools & E & Ht & Hn).
  exists r, tools. rewrite E. split; [reflexivity|]. split; [exact Ht|].
  destruct r as [results|e]; split; solve [assumption | reflexivity].
Qed.

(** The cases of an iteration that found tool calls. *)
Ltac round_cases H results tools Ht Hrest :=
  let r := fresh "r" in
  let Hc := fresh "Hc" in
  destruct H as (r & tools & _ & Ht & H);
  destruct r as [results|?e];
  [destruct H as [Hc Hrest]|destruct H as [Hc Hrest]].

Lemma final_answer_log (st : loop_state) :
  snd (final_answer self world system_prompt st)
  = log st ++ [post_of self system_prompt (user_message st)].
Proof.
  unfold final_answer, _call_ollama. now destruct (gateway_result _).
Qed.

Lemma final_answer_value (st : loop_state) :
  fst (final_answer self world system_prompt st)
  = match gateway_result
            (world (log st) OLLAMA_URL
               (payload_of self system_prompt (user_message st))) with
    | Ok v => Ok v
    | Raise e => Ok (PyStr (MSG_FINAL_FAILED ++ exn_str e))
    end.
Proof.
  unfold final_answer, _call_ollama. now destruct (gateway_result _).
Qed.



(** The loop makes at most one model call per iteration and one more. *)
Lemma posts_bound (todo : nat) :
  forall i st,
    count_posts
      (snd (iterate repr py self world system_prompt max_iterations todo i st))
    <= count_posts (log st) + todo + 1.
Proof.
  induction todo as [|todo IH]; intros i st.
  - simpl. lia.
  - pose proof (iterate_step todo i st) as H. cbv zeta in H.
    assert (P1 : forall p, count_posts (log st ++ [post_of self system_prompt p])
                           = count_posts (log st) + 1).
    { intro p. now rewrite count_posts_app. }
    destruct (gateway_result _) as [response|e].
    + destruct (_extract_tool_calls py response) as [[|tc more]|e].
      * rewrite H. simpl. rewrite P1. lia.
      * round_cases H results tools Ht Hout; rewrite Hout.
        -- destruct (i =? max_iterations - 1)%Z.
           ++ rewrite final_answer_log. simpl.
              rewrite !count_posts_app, (count_posts_tools Ht). simpl.
              unfold count_posts at 2 3. simpl. lia.
           ++ match goal with
              | |- context [iterate _ _ _ _ _ _ todo ?j ?s2] =>
                  specialize (IH j s2); simpl in IH
              end.
              rewrite !count_posts_app, (count_posts_tools Ht) in IH.
              unfold count_posts at 3 in IH. simpl in IH. lia.
        -- simpl. rewrite count_posts_app, (count_posts_tools Ht), P1. lia.
      * rewrite H. simpl. rewrite P1. lia.
    + rewrite H. simpl. rewrite P1. lia.
Qed.

(** Tool invocations between model calls do not matter to
    [failure_is_last]. *)
Lemma failure_is_last_tools (answer : result value) (tools : list event) :
  Forall (fun e => is_post e = false) tools ->
  forall before new,
    failure_is_last world answer (before ++ tools) new ->
    failure_is_last world answer before (tools ++ new).
Proof.
  induction 1 as [|ev tools Hev _ IH]; intros before new H.
  - now rewrite app_nil_r in H.
  - destruct ev as [url body|name args]; [discriminate|].
    simpl. apply IH. now rewrite <- app_assoc.
Qed.

Lemma failure_is_last_post_ok (answer : result value) (before : list event)
    (prompt : pystr) (v : value) (new : list event) :
  gateway_result
    (world before OLLAMA_URL (payload_of self system_prompt prompt)) = Ok v ->
  failure_is_last world answer
    (before ++ [post_of self system_prompt prompt]) new ->
  failure_is_last world answer before
    (post_of self system_prompt prompt :: new).
Proof. intros E H. simpl. now rewrite E. Qed.

(** In every run of the loop, a model call that failed is the last thing
    done, and the answer is an error message. *)
Lemma iterate_failure_is_last (todo : nat) :
  forall i st, exists new,
    snd (iterate repr py self world system_prompt max_iterations todo i st)
    = log st ++ new
    /\ failure_is_last world
         (fst (iterate repr py self world system_prompt max_iterations todo i st))
         (log st) new.
Proof.
  induction todo as [|todo IH]; intros i st.
  - exists []. simpl. now rewrite app_nil_r.
  - pose proof (iterate_step todo i st) as H. cbv zeta in H.
    set (prompt := fst (build_message i st)) in *.
    destruct (gateway_result
                (world (log st) OLLAMA_URL (payload_of self system_prompt prompt)))
      as [response|e] eqn:Eg.
    + destruct (_extract_tool_calls py response) as [[|tc more]|e].
      * rewrite H. exists [post_of self system_prompt prompt]. split;
          [reflexivity|]. simpl. now rewrite Eg.
      * round_cases H results tools Ht Hout; rewrite Hout.
        -- destruct (i =? max_iterations - 1)%Z.
           ++ exists (post_of self system_prompt prompt
                      :: tools
                      ++ [post_of self system_prompt
                            (results_message_of repr results)]).
              split.
              { rewrite final_answer_log. simpl. now rewrite <- !app_assoc. }
              eapply failure_is_last_post_ok; [exact Eg|].
              apply failure_is_last_tools; [exact Ht|].
              rewrite final_answer_value. unfold post_of. cbn.
              destruct (gateway_result
                          (world _ _
                             (payload_of self system_prompt
                                (results_message_of repr results))))
                as [v|e]; [exact I|].
              split; [reflexivity|now right].
           ++ match goal with
              | |- context [iterate _ _ _ _ _ _ todo ?j ?s2] =>
                  destruct (IH j s2) as (new' & En & Hn)
              end.
              exists (post_of self system_prompt prompt :: tools ++ new').
              split.
              { rewrite En. simpl. now rewrite <- !app_assoc. }
              eapply failure_is_last_post_ok; [exact Eg|].
              apply failure_is_last_tools; [exact Ht|]. exact Hn.
        -- exists (post_of self system_prompt prompt :: tools ++ []).
           split.
           { simpl. now rewrite app_nil_r, <- !app_assoc. }
           eapply failure_is_last_post_ok; [exact Eg|].
           apply failure_is_last_tools; [exact Ht|]. exact I.
      * rewrite H. exists [post_of self system_prompt prompt]. split;
          [reflexivity|]. simpl. now rewrite Eg.
    + rewrite H. exists [post_of self system_prompt prompt]. split;
        [reflexivity|]. simpl. rewrite Eg. split; [reflexivity|now left].
Qed.

(** What [failure_is_last] says of one model call of the run. *)
Lemma failure_is_last_at (answer : result value) (l1 : list event) :
  forall before url body l2 e,
    failure_is_last world answer before (l1 ++ EvPost url body :: l2) ->
    gateway_result (world (before ++ l1) url body) = Raise e ->
    l2 = []
    /\ (answer = Ok (PyStr (MSG_GATEWAY_FAILED ++ exn_str e))
        \/ answer = Ok (PyStr (MSG_FINAL_FAILED ++ exn_str e))).
Proof.
  induction l1 as [|ev l1 IH]; intros before url body l2 e H Hg.
  - rewrite app_nil_r in Hg. simpl in H. now rewrite Hg in H.
  - assert (Hnext : failure_is_last world answer (before ++ [ev])
                      (l1 ++ EvPost url body :: l2) ->
                    l2 = []
                    /\ (answer = Ok (PyStr (MSG_GATEWAY_FAILED ++ exn_str e))
                        \/ answer = Ok (PyStr (MSG_FINAL_FAILED ++ exn_str e)))).
    { intro H'. eapply IH; [exact H'|]. now rewrite <- app_assoc. }
    destruct ev as [url' body'|name args]; simpl in H.
    + destruct (gateway_result (world before url' body')); [now apply Hnext|].
      destruct H as [H _]. now destruct l1.
    + now apply Hnext.
Qed.


Lemma tool_events_app (a b : list event) :
  tool_events (a ++ b) = tool_events a ++ tool_events b.
Proof. unfold tool_events. apply filter_app. Qed.

Lemma no_session_recorded :
  recorded
    (Raise {| exn_cls := AttributeError;
              exn_str := utf8 "'NoneType' object has no attribute 'call_tool'" |})
  = Ok NO_SESSION.
Proof.
  vm_compute. reflexivity.
Qed.

(** Without a session a round invokes nothing and records a failure for
    every call whose name can be printed. *)
Lemma run_tool_calls_no_session :
  session self = None ->
  forall calls results0 log,
    Forall announced calls ->
    run_tool_calls self calls results0 log
    = (Ok (results0
           ++ map (fun tc => {| tr_tool := tc_tool tc; tr_result := NO_SESSION |})
                calls),
       log).
Proof.
  intro Hs. induction calls as [|tc calls IH]; intros results0 log Ha;
    cbn [run_tool_calls map].
  - now rewrite app_nil_r.
  - inversion Ha as [|? ? Htc Hcalls]; subst. rewrite Htc.
    unfold call_tool. rewrite Hs. rewrite no_session_recorded.
    rewrite IH by assumption. rewrite <- app_assoc. reflexivity.
Qed.

Lemma run_tool_calls_no_session_log :
  session self = None ->
  forall calls results0 log,
    snd (run_tool_calls self calls results0 log) = log.
Proof.
  intro Hs. induction calls as [|tc calls IH]; intros results0 log;
    cbn [run_tool_calls]; [reflexivity|].
  destruct (print_value USING_TOOL (tc_tool tc)); [|reflexivity].
  unfold call_tool. rewrite Hs.
  destruct (recorded _); [apply IH|reflexivity].
Qed.

(** What a round adds to the log: the invocations of some of its calls, in
    their order. *)
Lemma run_tool_calls_invoked (calls : list tool_call) :
  forall results0 l, exists invoked,
    snd (run_tool_calls self calls results0 l) = l ++ map tool_event_of invoked
    /\ incl invoked calls.
Proof.
  induction calls as [|tc calls IH]; intros results0 l; cbn [run_tool_calls].
  - exists []. split; [now rewrite app_nil_r|apply incl_refl].
  - destruct (print_value USING_TOOL (tc_tool tc)).
    + unfold call_tool. destruct (session self) as [s|].
      * destruct (recorded _) as [text|e].
        -- match goal with
           | |- context [run_tool_calls self calls ?r0 ?l0] =>
               destruct (IH r0 l0) as (invoked & -> & Hi)
           end.
           exists (tc :: invoked). split.
           ++ cbn [map]. now rewrite <- app_assoc.
           ++ intros x [<-|Hx]; [now left|right; now apply Hi].
        -- exists [tc]. split; [reflexivity|].
           intros x [<-|[]]. now left.
      * destruct (recorded _) as [text|e].
        -- match goal with
           | |- context [run_tool_calls self calls ?r0 ?l0] =>
               destruct (IH r0 l0) as (invoked & -> & Hi)
           end.
           exists invoked. split; [reflexivity|].
           intros x Hx. right. now apply Hi.
        -- exists []. split; [now rewrite app_nil_r|]. intros x [].
    + exists []. split; [now rewrite app_nil_r|]. intros x [].
Qed.

Lemma iterate_without_session (todo : nat) :
  session self = None ->
  forall i st,
    tool_events (log st) = [] ->
    tool_events
      (snd (iterate repr py self world system_prompt max_iterations todo i st))
    = [].
Proof.
  intro Hs. induction todo as [|todo IH]; intros i st Hl; [exact Hl|].
  pose proof (iterate_step todo i st) as H.
  cbv zeta in H.
  assert (P1 : forall p,
             tool_events (log st ++ [post_of self system_prompt p]) = []).
  { intro p. now rewrite tool_events_app, Hl. }
  destruct (gateway_result _) as [response|e].
  - destruct (_extract_tool_calls py response) as [[|tc more]|e].
    + rewrite H. apply P1.
    + destruct H as (r & tools & E & _ & H).
      pose proof (run_tool_calls_no_session_log Hs (tc :: more) []
                    (log st ++ [post_of self system_prompt
                                  (fst (build_message i st))])) as El.
      rewrite E in El. cbn [snd] in El.
      rewrite <- (app_nil_r (log st ++ _)) in El at 2.
      apply app_inv_head in El. subst tools. rewrite app_nil_r in H.
      destruct r as [results|e]; destruct H as [_ ->].
      * destruct (i =? max_iterations - 1)%Z.
        -- rewrite final_answer_log. cbn [log after_round].
           rewrite tool_events_app, P1. reflexivity.
        -- apply IH. cbn [log after_round]. apply P1.
      * apply P1.
    + rewrite H. apply P1.
  - rewrite H. apply P1.
Qed.

(** Every request of a run is built by [_call_ollama]. *)
Lemma iterate_requests (todo : nat) :
  forall i st,
    Forall (request_of self system_prompt) (log st) ->
    Forall (request_of self system_prompt)
      (snd (iterate repr py self world system_prompt max_iterations todo i st)).
Proof.
  induction todo as [|todo IH]; intros i st Hl; [exact Hl|].
  pose proof (iterate_step todo i st) as H.
  cbv zeta in H.
  assert (P1 : forall p,
             Forall (request_of self system_prompt)
               (log st ++ [post_of self system_prompt p])).
  { intro p. apply Forall_app. split; [exact Hl|].
    constructor; [|constructor]. repeat split. }
  assert (PT : forall tools,
             Forall (fun e => is_post e = false) tools ->
             Forall (request_of self system_prompt) tools).
  { intros tools Ht. eapply Forall_impl; [|exact Ht].
    intros [url body|n a] He; [discriminate|exact I]. }
  destruct (gateway_result _) as [response|e].
  - destruct (_extract_tool_calls py response) as [[|tc more]|e].
    + rewrite H. apply P1.
    + round_cases H results tools Ht Hout; rewrite Hout.
      * destruct (i =? max_iterations - 1)%Z.
        -- rewrite final_answer_log. cbn [log user_message after_round].
           apply Forall_app. split.
           ++ apply Forall_app. split; [apply P1|now apply PT].
           ++ constructor; [|constructor]. repeat split.
        -- apply IH. cbn [log after_round].
           apply Forall_app. split; [apply P1|now apply PT].
      * cbn [snd]. apply Forall_app. split; [apply P1|now apply PT].
    + rewrite H. apply P1.
  - rewrite H. apply P1.
Qed.

Lemma tools_requested_calls (allowed : list tool_call) (calls : list tool_call) :
  forall before new,
    incl calls allowed ->
    tools_requested py world allowed (before ++ map tool_event_of calls) new ->
    tools_requested py world allowed before (map tool_event_of calls ++ new).
Proof.
  induction calls as [|tc calls IH]; intros before new Hi H.
  - simpl in *. now rewrite app_nil_r in H.
  - simpl. split.
    + destruct tc. apply Hi. now left.
    + apply IH.
      * intros x Hx. apply Hi. now right.
      * simpl in H. now rewrite <- app_assoc.
Qed.

Lemma iterate_tools_requested (todo : nat) :
  forall allowed i st, exists new,
    snd (iterate repr py self world system_prompt max_iterations todo i st)
    = log st ++ new
    /\ tools_requested py world allowed (log st) new.
Proof.
  induction todo as [|todo IH]; intros allowed i st.
  - exists []. simpl. now rewrite app_nil_r.
  - pose proof (iterate_step todo i st) as H.
    cbv zeta in H.
    set (prompt := fst (build_message i st)) in *.
    destruct (gateway_result
                (world (log st) OLLAMA_URL (payload_of self system_prompt prompt)))
      as [response|e] eqn:Eg.
    + destruct (_extract_tool_calls py response) as [[|tc more]|e] eqn:Ee.
      * rewrite H. exists [post_of self system_prompt prompt].
        split; [reflexivity|exact I].
      * destruct H as (r & tools & E & _ & H).
        assert (Ht : exists invoked,
                   tools = map tool_event_of invoked
                   /\ incl invoked (tc :: more)).
        { destruct (run_tool_calls_invoked (tc :: more) []
                      (log st ++ [post_of self system_prompt prompt]))
            as (invoked & R & Hi).
          rewrite E in R. cbn [snd] in R. apply app_inv_head in R.
          now exists invoked. }
        destruct Ht as (invoked & -> & Hi).
        assert (Hreq : forall new',
                   tools_requested py world (tc :: more)
                     ((log st ++ [post_of self system_prompt prompt])
                      ++ map tool_event_of invoked)
                     new' ->
                   tools_requested py world allowed (log st)
                     (post_of self system_prompt prompt
                      :: map tool_event_of invoked ++ new')).
        { intros new' Hn. cbn [tools_requested post_of].
          fold (post_of self system_prompt prompt).
          unfold reply_calls. rewrite Eg, Ee.
          apply tools_requested_calls; [exact Hi|exact Hn]. }
        destruct r as [results|e]; destruct H as [_ H]; rewrite H; clear H.
        -- destruct (i =? max_iterations - 1)%Z.
           ++ exists (post_of self system_prompt prompt
                      :: map tool_event_of invoked
                      ++ [post_of self system_prompt
                            (results_message_of repr results)]).
              split.
              { rewrite final_answer_log. cbn [log user_message after_round].
                now rewrite <- !app_assoc. }
              apply Hreq. exact I.
           ++ match goal with
              | |- context [iterate _ _ _ _ _ _ todo ?j ?s2] =>
                  destruct (IH (tc :: more) j s2) as (new' & En & Hn)
              end.
              exists (post_of self system_prompt prompt
                      :: map tool_event_of invoked ++ new').
              split.
              { rewrite En. cbn [log after_round]. now rewrite <- !app_assoc. }
              apply Hreq. exact Hn.
        -- exists (post_of self system_prompt prompt
                   :: map tool_event_of invoked ++ []).
           split.
           { cbn [snd]. now rewrite app_nil_r, <- !app_assoc. }
           apply Hreq. exact I.
      * rewrite H. exists [post_of self system_prompt prompt].
        split; [reflexivity|exact I].
    + rewrite H. exists [post_of self system_prompt prompt].
      split; [reflexivity|exact I].
Qed.

(** What [tools_requested] says of one tool invocation of the run. *)
Lemma tools_requested_at (l1 : list event) :
  forall allowed before name args l2,
    tools_requested py world allowed before (l1 ++ EvCallTool name args :: l2) ->
    (Forall (fun e => is_post e = false) l1
     /\ In {| tc_tool := name; tc_args := args |} allowed)
    \/ exists earlier url body between,
         l1 = earlier ++ EvPost url body :: between
         /\ Forall (fun e => is_post e = false) between
         /\ In {| tc_tool := name; tc_args := args |}
              (reply_calls py (gateway_result (world (before ++ earlier) url body))).
Proof.
  induction l1 as [|ev l1 IH]; intros allowed before name args l2 H.
  - left. simpl in H. split; [constructor|apply H].
  - destruct ev as [url body|n a]; simpl in H.
    + right. destruct (IH _ _ _ _ _ H) as [[Hf Hin]|(e' & u & b & m & -> & Hf & Hin)].
      * exists [], url, body, l1. rewrite app_nil_r. repeat split; assumption.
      * exists (EvPost url body :: e'), u, b, m.
        repeat split; [assumption|]. now rewrite <- app_assoc in Hin.
    + destruct H as [_ H].
      destruct (IH _ _ _ _ _ H) as [[Hf Hin]|(e' & u & b & m & -> & Hf & Hin)].
      * left. split; [constructor; [reflexivity|exact Hf]|exact Hin].
      * right. exists (EvCallTool n a :: e'), u, b, m.
        repeat split; [assumption|]. now rewrite <- app_assoc in Hin.
Qed.

End LoopFacts.

(* ================================================================== *)
(** * The claims of the specification *)

Lemma fold_left_concat {A} (f : A -> pystr) (l : list A) (init : pystr) :
  fold_left (fun acc x => acc ++ f x) l init = init ++ concat (map f l).
Proof.
  revert init. induction l as [|x l IH]; intro init; simpl.
  - now rewrite app_nil_r.
  - now rewrite IH, <- app_assoc.
Qed.

Lemma last_n_suffix {A} (n : nat) (l : list A) :
  length (last_n n l) <= n /\ exists older, l = older ++ last_n n l.
Proof.
  unfold last_n. split.
  - rewrite length_skipn. lia.
  - exists (firstn (length l - n) l). now rewrite firstn_skipn.
Qed.

(** C10.  With an iteration budget that is not positive the loop body never
    runs: the log of the call is empty (no model call, no tool execution)
    and the function falls off its end, returning [None] and no answer
    text. *)
Theorem nonpositive_budget_returns_None
    (repr : value -> pystr) (py : interpreter) (self : SmartChatClient) (world : backend)
    (user_message : pystr) (max_iterations : Z) :
  (max_iterations <= 0)%Z ->
  query_ollama_with_tools repr py self world user_message max_iterations
  = (Ok PyNone, []).
Proof.
  intro H. unfold query_ollama_with_tools, range_len.
  replace (Z.to_nat max_iterations) with 0 by lia. reflexivity.
Qed.

Lemma nonpositive_budget_witness :
  query_ollama_with_tools sample_repr sample_py sample_client (always_replies scenario_A)
    (utf8 "2+3?") (-2)
  = (Ok PyNone, []).
Proof.
  apply (@nonpositive_budget_returns_None sample_repr sample_py sample_client
           (always_replies scenario_A) (utf8 "2+3?") (-2)%Z).
  lia.
Defined.






(** C4.  [gateway_result] is what [_call_ollama] returns or raises for the
    answer of the backend.  If a model call of a run raised, whichever
    iteration made it, that call is the last event of the run (nothing is
    asked again and no tool is run after it), and the run answers with an
    error message that carries the text of the exception. *)
Theorem gateway_failure_ends_the_loop
    (repr : value -> pystr) (py : interpreter) (self : SmartChatClient) (world : backend)
    (user_message : pystr) (max_iterations : Z)
    (earlier : list event) (url : pystr) (body : payload)
    (later : list event) (e : exn) :
  snd (query_ollama_with_tools repr py self world user_message max_iterations)
  = earlier ++ EvPost url body :: later ->
  gateway_result (world earlier url body) = Raise e ->
  later = []
  /\ (fst (query_ollama_with_tools repr py self world user_message max_iterations)
      = Ok (PyStr (MSG_GATEWAY_FAILED ++ exn_str e))
      \/ fst (query_ollama_with_tools repr py self world user_message max_iterations)
         = Ok (PyStr (MSG_FINAL_FAILED ++ exn_str e))).
Proof.
  unfold query_ollama_with_tools. intros El Hg.
  match type of El with
  | snd (iterate _ _ _ _ ?sp _ ?n ?i ?st0) = _ =>
      destruct (iterate_failure_is_last repr py self world sp max_iterations
                  n i st0)
        as (new & En & Hn)
  end.
  simpl in En. rewrite En in El. subst new.
  eapply failure_is_last_at; [exact Hn|exact Hg].
Qed.

Lemma gateway_failure_witness :
  @nil event = []
  /\ (fst (query_ollama_with_tools sample_repr sample_py sample_client
              fails_after_first (utf8 "2+3?") 3)
      = Ok (PyStr (MSG_GATEWAY_FAILED ++ exn_str timeout_exn))
      \/ fst (query_ollama_with_tools sample_repr sample_py sample_client
                 fails_after_first (utf8 "2+3?") 3)
         = Ok (PyStr (MSG_FINAL_FAILED ++ exn_str timeout_exn))).
Proof.
  apply (@gateway_failure_ends_the_loop sample_repr sample_py sample_client
           fails_after_first (utf8 "2+3?") 3%Z
           timeout_earlier OLLAMA_URL timeout_body [] timeout_exn).
  - vm_compute. reflexivity.
  - vm_compute. reflexivity.
Defined.

(** C2, as the code has it.  With budget 1 the first reply decides.  When
    it holds no tool call, the run is that one model call and the reply is
    the answer as it came.  When it holds tool calls whose names the
    console takes, with a session whose failures the console takes, every
    one of them is run (with a session; without one, each is recorded as
    failed), then one more model call is made with the tool-results message
    as its prompt, and the reply to that second call is the answer as it
    came (nothing is extracted from it). *)
Theorem budget_one_forces_a_second_call
    (repr : value -> pystr) (py : interpreter) (self : SmartChatClient)
    (world : backend) (question : pystr) (response : value)
    (calls : list tool_call) :
  let system_prompt := system_prompt_of (_format_tools_description repr self) in
  let first := post_of self system_prompt question in
  let out := query_ollama_with_tools repr py self world question 1 in
  let tools :=
    match session self with
    | Some _ => map tool_event_of calls
    | None => []
    end in
  let results :=
    match session self with
    | Some s => round_results s [first] calls
    | None =>
        map (fun tc => {| tr_tool := tc_tool tc; tr_result := NO_SESSION |}) calls
    end in
  gateway_result
    (world [] OLLAMA_URL (payload_of self system_prompt question))
  = Ok response ->
  _extract_tool_calls py response = Ok calls ->
  Forall announced calls ->
  (forall s, session self = Some s -> reportable s) ->
  (calls = [] -> out = (Ok response, [first]))
  /\ (calls <> [] ->
      run_tool_calls self calls [] [first] = (Ok results, [first] ++ tools)
      /\ snd out
         = [first] ++ tools
           ++ [post_of self system_prompt (results_message_of repr results)]
      /\ fst out
         = match gateway_result
                   (world ([first] ++ tools) OLLAMA_URL
                      (payload_of self system_prompt
                         (results_message_of repr results))) with
           | Ok final_response => Ok final_response
           | Raise e => Ok (PyStr (MSG_FINAL_FAILED ++ exn_str e))
           end).
Proof.
  intros system_prompt first out tools results Hg He Ha Hrep.
  assert (Er : run_tool_calls self calls [] [first]
               = (Ok results, [first] ++ tools)).
  { subst results tools. destruct (session self) as [s|] eqn:Hs.
    - now rewrite (@run_tool_calls_session self s Hs (Hrep s eq_refl)
                     calls [] [first] Ha).
    - rewrite (@run_tool_calls_no_session self Hs calls [] [first] Ha).
      now rewrite app_nil_r. }
  clearbody results tools. subst out.
  unfold query_ollama_with_tools. fold system_prompt.
  change (range_len 1) with 1.
  match goal with
  | |- context [iterate _ _ _ _ _ _ _ _ ?st0] =>
      pose proof (iterate_step repr py self world system_prompt 1 0 0 st0) as H
  end.
  cbv zeta in H. unfold build_message in H.
  change (0 =? 0)%Z with true in H. change (0 =? 1 - 1)%Z with true in H.
  cbn [fst snd log user_message] in H.
  change ([] ++ [post_of self system_prompt question]) with [first] in H.
  rewrite Hg, He in H.
  destruct calls as [|tc more].
  - split; [intros _; exact H|intro Hc; now contradiction Hc].
  - split; [discriminate|intros _].
    destruct H as (r & tools' & E & _ & H).
    rewrite Er in E. injection E as <- E.
    subst tools'. destruct H as [_ H]. rewrite H.
    rewrite final_answer_log, final_answer_value.
    cbn [log user_message after_round].
    split; [exact Er|]. split; [now rewrite <- app_assoc|reflexivity].
Qed.

Lemma budget_one_witness :
  snd (query_ollama_with_tools sample_repr sample_py sample_client
         (always_replies scenario_A) (utf8 "2+3?") 1)
  = [post_of sample_client
       (system_prompt_of (_format_tools_description sample_repr sample_client))
       (utf8 "2+3?")]
    ++ map tool_event_of [sum_tool_call]
    ++ [post_of sample_client
          (system_prompt_of
             (_format_tools_description sample_repr sample_client))
          (results_message_of sample_repr
             (round_results five_session
                [post_of sample_client
                   (system_prompt_of
                      (_format_tools_description sample_repr sample_client))
                   (utf8 "2+3?")]
                [sum_tool_call]))].
Proof.
  destruct (@budget_one_forces_a_second_call sample_repr sample_py
              sample_client (always_replies scenario_A) (utf8 "2+3?")
              (PyStr scenario_A) [sum_tool_call])
    as [_ H].
  - reflexivity.
  - vm_compute. reflexivity.
  - constructor; [vm_compute; reflexivity|constructor].
  - intros s [= <-] log name args e H. discriminate H.
  - destruct H as (_ & E & _); [discriminate|]. exact E.
Defined.

(** C2 as stated fails: with budget 1 and a first reply that holds a tool
    call (Scenario A), the tool is run and a second model call is made. *)
Lemma budget_one_runs_the_tool :
  let out := query_ollama_with_tools sample_repr sample_py sample_client
               (always_replies scenario_A) (utf8 "2+3?") 1 in
  count_posts (snd out) = 2
  /\ tool_events (snd out)
     = [EvCallTool (PyStr (utf8 "sum"))
          [(utf8 "a", PyInt 2); (utf8 "b", PyInt 3)]].
Proof. vm_compute. split; reflexivity. Qed.






(** C5, as the code has it.  When the backend answers with a success status
    and a body that decodes to an object, [_call_ollama] returns: the value
    of the ["response"] field as it is when the field is there (an empty
    string stays an empty string), the placeholder only when the field is
    missing.  In every other case (the request raised, the status is an
    error, the body does not decode, or decodes to something that is not an
    object) it raises an [Exception]. *)
Theorem call_ollama_returns_the_reply_field
    (self : SmartChatClient) (world : backend) (log : list event)
    (system_prompt prompt : pystr) :
  let answer :=
    world log OLLAMA_URL (payload_of self system_prompt prompt) in
  (forall d,
     decodes_to_object answer d ->
     fst (_call_ollama self world log system_prompt prompt)
     = Ok (match dict_lookup d K_response with
           | Some v => v
           | None => PyStr EMPTY_REPLY
           end))
  /\ ((forall d, ~ decodes_to_object answer d) ->
      exists e,
        fst (_call_ollama self world log system_prompt prompt) = Raise e
        /\ exn_cls e = Exception).
Proof.
  intro answer. unfold _call_ollama. cbn [fst]. fold answer. split.
  - intros d (r & -> & Hs & Hj). unfold gateway_result, read_reply.
    rewrite Hs, Hj. reflexivity.
  - intro Hn. unfold gateway_result, read_reply.
    assert (Hc : forall e : exn,
               exists e',
                 try_except (Raise e)
                   [([ConnectError],
                     fun _ => Raise (plain_Exception MSG_UNREACHABLE));
                    ([Exception],
                     fun e0 => Raise (plain_Exception
                                        (MSG_REQUEST_FAILED ++ exn_str e0)))]
                 = @Raise value e'
                 /\ exn_cls e' = Exception).
    { intro e. cbn [try_except handle]. destruct (exn_cls e); cbn;
        eexists; split; reflexivity. }
    destruct answer as [e|r] eqn:Ea; [apply Hc|].
    destruct (raise_for_status r) as [e|] eqn:Es; [apply Hc|].
    destruct (json r) as [data|e] eqn:Ej; [|apply Hc].
    destruct data; try apply Hc.
    exfalso. apply (Hn d). exists r. repeat split; assumption.
Qed.

Lemma call_ollama_witness :
  fst (_call_ollama sample_client (always_replies scenario_A) []
         [] (utf8 "2+3?"))
  = Ok (match dict_lookup [(K_response, PyStr scenario_A)] K_response with
        | Some v => v
        | None => PyStr EMPTY_REPLY
        end).
Proof.
  refine (proj1 (@call_ollama_returns_the_reply_field sample_client
                   (always_replies scenario_A) [] [] (utf8 "2+3?"))
            [(K_response, PyStr scenario_A)] _).
  exists (ok_response (PyDict [(K_response, PyStr scenario_A)])).
  repeat split.
Defined.

(** C5 as stated fails: a reply field that is there and empty comes back as
    the empty string, not as the placeholder. *)
Lemma empty_reply_is_returned_empty :
  fst (_call_ollama sample_client (always_replies []) [] [] (utf8 "2+3?"))
  = Ok (PyStr [])
  /\ PyStr [] <> PyStr EMPTY_REPLY.
Proof. split; [reflexivity|discriminate]. Qed.

(** C3.  Scenario A gives the one call of [sum] with the arguments [a = 2]
    and [b = 3], as the claim says.  A call of [search_duckduckgo] (a tool
    of mcp_server.py) whose query has an apostrophe is a well-formed
    object of format 1 of the comment of lines 180-184: the pattern finds
    it whole and [json.loads] decodes it as it stands.  Line 197 turns the
    apostrophe into a double quote first; what is left does not decode,
    and the extractor yields nothing for the call. *)
Theorem apostrophe_call_is_not_extracted :
  _extract_tool_calls sample_py (PyStr scenario_A) = Ok [sum_tool_call]
  /\ Re.finditer json_pattern apostrophe_call = [apostrophe_call]
  /\ Json.loads sample_py apostrophe_call
     = Ok (PyDict [(K_tool, PyStr (utf8 "search_duckduckgo"));
                   (K_args,
                    PyDict [(utf8 "query", PyStr (utf8 "today's weather"))])])
  /\ Json.decode sample_py (replace_char SQUOTE DQUOTE apostrophe_call)
     = Json.DecodeError
  /\ _extract_tool_calls sample_py (PyStr apostrophe_call) = Ok [].
Proof. repeat apply conj; vm_compute; reflexivity. Qed.



(** C7.  Line 214 catches [JSONDecodeError], [ValueError] and [TypeError];
    [json.loads] also raises [RecursionError], for containers nested
    deeper than the interpreter allows, and that one is not caught.  The
    candidate [deep_candidate] is found whole by the pattern, [json.loads]
    raises [RecursionError] for it, the extractor raises it in turn, and
    it ends the whole run after the first model call.  The candidate of
    Scenario E, which does not decode, is left out as the claim says. *)
Theorem deep_candidate_leaves_the_extractor :
  Re.finditer json_pattern deep_candidate = [deep_candidate]
  /\ Json.loads sample_py (replace_char SQUOTE DQUOTE deep_candidate)
     = Raise (Json.too_deep (utf8 "array"))
  /\ existsb (subclass RecursionError) skipped_classes = false
  /\ _extract_tool_calls sample_py (PyStr deep_candidate)
     = Raise (Json.too_deep (utf8 "array"))
  /\ query_ollama_with_tools sample_repr sample_py sample_client
       (always_replies deep_candidate) (utf8 "2+3?") 5
     = (Raise (Json.too_deep (utf8 "array")),
        [post_of sample_client
           (system_prompt_of
              (_format_tools_description sample_repr sample_client))
           (utf8 "2+3?")])
  /\ _extract_tool_calls sample_py (PyStr scenario_E) = Ok [].
Proof. repeat apply conj; vm_compute; reflexivity. Qed.

(* ================================================================== *)
(** * Further properties of the loop *)

(** A reply without an opening brace holds no candidate, so the first such
    reply is the answer, as it came, after one model call (lines 88-91). *)
Theorem reply_without_brace_is_the_answer
    (repr : value -> pystr) (py : interpreter) (self : SmartChatClient) (world : backend)
    (question : pystr) (max_iterations : Z) (text : pystr) :
  let system_prompt := system_prompt_of (_format_tools_description repr self) in
  (1 <= max_iterations)%Z ->
  ~ In LBRACE text ->
  gateway_result
    (world [] OLLAMA_URL (payload_of self system_prompt question))
  = Ok (PyStr text) ->
  _extract_tool_calls py (PyStr text) = Ok []
  /\ query_ollama_with_tools repr py self world question max_iterations
     = (Ok (PyStr text), [post_of self system_prompt question]).
Proof.
  intros system_prompt HB Hn Hg.
  assert (He : _extract_tool_calls py (PyStr text) = Ok []).
  { rewrite extract_text. rewrite <- (app_nil_r text).
    now rewrite PatternFacts.finditer_separator. }
  split; [exact He|].
  unfold query_ollama_with_tools, range_len. fold system_prompt.
  destruct (Z.to_nat max_iterations) as [|todo] eqn:En; [lia|].
  match goal with
  | |- iterate _ _ _ _ _ _ _ _ ?st0 = _ =>
      pose proof (iterate_step repr py self world system_prompt max_iterations
                    todo 0 st0) as H
  end.
  cbv zeta in H. unfold build_message in H.
  change (0 =? 0)%Z with true in H. cbn [fst snd log user_message app] in H.
  now rewrite Hg, He in H.
Qed.

Lemma reply_without_brace_witness :
  _extract_tool_calls sample_py (PyStr (utf8 "Five.")) = Ok []
  /\ query_ollama_with_tools sample_repr sample_py sample_client
       (always_replies (utf8 "Five.")) (utf8 "2+3?") 5
     = (Ok (PyStr (utf8 "Five.")),
        [post_of sample_client
           (system_prompt_of
              (_format_tools_description sample_repr sample_client))
           (utf8 "2+3?")]).
Proof.
  apply (@reply_without_brace_is_the_answer sample_repr sample_py sample_client
           (always_replies (utf8 "Five.")) (utf8 "2+3?") 5%Z (utf8 "Five.")).
  - lia.
  - no_such_char.
  - reflexivity.
Defined.

(** A completion that is not a text (the ["response"] field of the body
    holds a number, a list, [null], ...) makes [re.finditer] raise a
    [TypeError] outside any [try]: the first model call is the only thing
    done, and the exception leaves [query_ollama_with_tools] (lines 86,
    152, 190). *)
Theorem reply_that_is_no_text_raises
    (repr : value -> pystr) (py : interpreter) (self : SmartChatClient) (world : backend)
    (question : pystr) (max_iterations : Z) (reply : value) :
  let system_prompt := system_prompt_of (_format_tools_description repr self) in
  (1 <= max_iterations)%Z ->
  (forall text, reply <> PyStr text) ->
  gateway_result
    (world [] OLLAMA_URL (payload_of self system_prompt question))
  = Ok reply ->
  exists e,
    query_ollama_with_tools repr py self world question max_iterations
    = (Raise e, [post_of self system_prompt question])
    /\ exn_cls e = TypeError.
Proof.
  intros system_prompt HB Hn Hg.
  unfold query_ollama_with_tools, range_len. fold system_prompt.
  destruct (Z.to_nat max_iterations) as [|todo] eqn:En; [lia|].
  match goal with
  | |- context [iterate _ _ _ _ _ _ _ _ ?st0] =>
      pose proof (iterate_step repr py self world system_prompt max_iterations
                    todo 0 st0) as H
  end.
  cbv zeta in H. unfold build_message in H.
  change (0 =? 0)%Z with true in H. cbn [fst snd log user_message app] in H.
  rewrite Hg in H.
  destruct reply; try (rewrite H; eexists; split; reflexivity).
  now contradiction (Hn s).
Qed.

Lemma reply_that_is_no_text_witness :
  exists e,
    query_ollama_with_tools sample_repr sample_py sample_client replies_five
      (utf8 "2+3?") 5
    = (Raise e,
       [post_of sample_client
          (system_prompt_of
             (_format_tools_description sample_repr sample_client))
          (utf8 "2+3?")])
    /\ exn_cls e = TypeError.
Proof.
  apply (@reply_that_is_no_text_raises sample_repr sample_py sample_client replies_five
           (utf8 "2+3?") 5%Z (PyInt 5)).
  - lia.
  - discriminate.
  - reflexivity.
Defined.

(* ================================================================== *)
(** * Further properties: the client *)


(** A client that was never initialized has no session (line 16): a round
    on calls whose names the console takes (line 96) invokes nothing and
    records, for every call, the failure message with the text of the
    [AttributeError]; a whole run of such a client, whatever the calls,
    holds no tool invocation. *)
Theorem client_without_session_runs_no_tool
    (repr : value -> pystr) (py : interpreter) (self : SmartChatClient) (world : backend)
    (question : pystr) (max_iterations : Z) :
  session self = None ->
  (forall calls results0 log,
     Forall announced calls ->
     run_tool_calls self calls results0 log
     = (Ok (results0
            ++ map (fun tc => {| tr_tool := tc_tool tc; tr_result := NO_SESSION |})
                 calls),
        log))
  /\ tool_events
       (snd (query_ollama_with_tools repr py self world question max_iterations))
     = [].
Proof.
  intro Hs. split.
  - intros calls results0 log Ha. now apply run_tool_calls_no_session.
  - unfold query_ollama_with_tools. now apply iterate_without_session.
Qed.

Lemma client_without_session_witness :
  tool_events
    (snd (query_ollama_with_tools sample_repr sample_py fresh_client
            (always_replies scenario_A) (utf8 "2+3?") 3))
  = [].
Proof.
  refine (proj2 (@client_without_session_runs_no_tool sample_repr sample_py
                   fresh_client
                   (always_replies scenario_A) (utf8 "2+3?") 3%Z _)).
  reflexivity.
Defined.

Lemma gateway_result_raise (o : post_outcome) (e : exn) :
  read_reply o = Raise e ->
  gateway_result o
  = Raise (plain_Exception
             (if subclass (exn_cls e) ConnectError then MSG_UNREACHABLE
              else MSG_REQUEST_FAILED ++ exn_str e)).
Proof.
  intro H. unfold gateway_result. rewrite H. cbn [try_except handle existsb].
  destruct (subclass (exn_cls e) ConnectError); reflexivity.
Qed.

(** When the first request fails, at whatever step of the [try] of
    [_call_ollama] (the request itself, the status, the decoding of the
    body, the reading of the reply), the run is that one request and the
    answer is the error message: for a connection error the fixed text that
    Ollama is unreachable, for any other error the text of the exception
    after the request-failed prefix. *)
Theorem failed_first_request_is_reported
    (repr : value -> pystr) (py : interpreter) (self : SmartChatClient) (world : backend)
    (question : pystr) (max_iterations : Z) (e : exn) :
  let system_prompt := system_prompt_of (_format_tools_description repr self) in
  (1 <= max_iterations)%Z ->
  read_reply (world [] OLLAMA_URL (payload_of self system_prompt question))
  = Raise e ->
  query_ollama_with_tools repr py self world question max_iterations
  = (Ok (PyStr (MSG_GATEWAY_FAILED
                ++ (if subclass (exn_cls e) ConnectError then MSG_UNREACHABLE
                    else MSG_REQUEST_FAILED ++ exn_str e))),
     [post_of self system_prompt question]).
Proof.
  intros system_prompt HB Hr.
  unfold query_ollama_with_tools, range_len. fold system_prompt.
  destruct (Z.to_nat max_iterations) as [|todo] eqn:En; [lia|].
  match goal with
  | |- iterate _ _ _ _ _ _ _ _ ?st0 = _ =>
      pose proof (iterate_step repr py self world system_prompt max_iterations
                    todo 0 st0) as H
  end.
  cbv zeta in H. unfold build_message in H.
  change (0 =? 0)%Z with true in H. cbn [fst snd log user_message app] in H.
  rewrite (gateway_result_raise _ Hr) in H. exact H.
Qed.

Lemma failed_first_request_witness :
  query_ollama_with_tools sample_repr sample_py sample_client refuses_connection
    (utf8 "2+3?") 5
  = (Ok (PyStr (MSG_GATEWAY_FAILED
                ++ (if subclass (exn_cls connection_refused) ConnectError
                    then MSG_UNREACHABLE
                    else MSG_REQUEST_FAILED ++ exn_str connection_refused))),
     [post_of sample_client
        (system_prompt_of (_format_tools_description sample_repr sample_client))
        (utf8 "2+3?")]).
Proof.
  apply (@failed_first_request_is_reported sample_repr sample_py sample_client
           refuses_connection (utf8 "2+3?") 5%Z connection_refused).
  - lia.
  - reflexivity.
Defined.

(** Every request of a run goes to the same URL with the model of the
    client, the same system prompt (and so the same tool catalogue) and
    [stream] off; the last, forced request is no exception. *)
Theorem every_request_carries_the_system_prompt
    (repr : value -> pystr) (py : interpreter) (self : SmartChatClient) (world : backend)
    (question : pystr) (max_iterations : Z) :
  Forall
    (request_of self (system_prompt_of (_format_tools_description repr self)))
    (snd (query_ollama_with_tools repr py self world question max_iterations)).
Proof.
  unfold query_ollama_with_tools. apply iterate_requests. constructor.
Qed.

(** The loop never invokes a tool the model did not ask for: every tool
    invocation of a run follows a model call, with nothing but tool
    invocations in between, whose reply holds a tool call with that name
    and those arguments. *)
Theorem every_tool_invocation_was_requested
    (repr : value -> pystr) (py : interpreter) (self : SmartChatClient) (world : backend)
    (question : pystr) (max_iterations : Z)
    (l1 : list event) (name : value) (args : dict) (l2 : list event) :
  snd (query_ollama_with_tools repr py self world question max_iterations)
  = l1 ++ EvCallTool name args :: l2 ->
  exists earlier url body between,
    l1 = earlier ++ EvPost url body :: between
    /\ Forall (fun e => is_post e = false) between
    /\ In {| tc_tool := name; tc_args := args |}
         (reply_calls py (gateway_result (world earlier url body))).
Proof.
  unfold query_ollama_with_tools. intro El.
  match type of El with
  | snd (iterate _ _ _ _ ?sp _ ?n ?i ?st0) = _ =>
      destruct (iterate_tools_requested repr py self world sp max_iterations n
                  [] i st0) as (new & En & Hn)
  end.
  cbn [log app] in En, Hn. rewrite En in El. subst new.
  apply tools_requested_at in Hn. destruct Hn as [[_ []]|H].
  exact H.
Qed.

Lemma every_tool_invocation_witness :
  exists earlier url body between,
    firstn 1 (snd scenario_A_run) = earlier ++ EvPost url body :: between
    /\ Forall (fun e => is_post e = false) between
    /\ In {| tc_tool := PyStr (utf8 "sum");
             tc_args := [(utf8 "a", PyInt 2); (utf8 "b", PyInt 3)] |}
         (reply_calls sample_py
            (gateway_result (always_replies scenario_A earlier url body))).
Proof.
  apply (@every_tool_invocation_was_requested sample_repr sample_py sample_client
           (always_replies scenario_A) (utf8 "2+3?") 1%Z
           (firstn 1 (snd scenario_A_run)) (PyStr (utf8 "sum"))
           [(utf8 "a", PyInt 2); (utf8 "b", PyInt 3)]
           (skipn 2 (snd scenario_A_run))).
  vm_compute. reflexivity.
Defined.

Lemma skip_ws_blanks (ws s : pystr) :
  Forall (fun b => Json.is_ws b = true) ws ->
  Json.skip_ws (ws ++ s) = Json.skip_ws s.
Proof.
  induction 1 as [|b ws Hb _ IH]; [reflexivity|].
  cbn [app Json.skip_ws]. now rewrite Hb.
Qed.

Lemma replace_char_blanks (ws : pystr) :
  Forall (fun b => Json.is_ws b = true) ws ->
  replace_char SQUOTE DQUOTE ws = ws.
Proof.
  intro H. apply replace_char_absent. intro Hin.
  rewrite Forall_forall in H. specialize (H _ Hin). discriminate H.
Qed.

(** Format 4 of the comment of [_extract_tool_calls], keys without quotes,
    is never extracted: a candidate whose opening brace is followed, after
    blanks or at once, by anything but a quote, an apostrophe or the
    closing brace does not decode (with an interpreter that lets
    [json.loads] enter one container at least), so the extractor does on
    the text what it does on the other candidates alone. *)
Theorem unquoted_key_is_not_a_tool_call
    (py : interpreter) (c ws : pystr) (ch : char) (rest : pystr) :
  c = LBRACE :: ws ++ ch :: rest ->
  Forall (fun b => Json.is_ws b = true) ws ->
  Json.is_ws ch = false ->
  ch <> DQUOTE -> ch <> SQUOTE -> ch <> RBRACE ->
  recursion_limit py <> 0 ->
  Json.loads py (replace_char SQUOTE DQUOTE c) = Raise Json.the_JSONDecodeError
  /\ excluded py c
  /\ forall text before after,
       Re.finditer json_pattern text = before ++ c :: after ->
       _extract_tool_calls py (PyStr text)
       = scan_candidates py (before ++ after) [].
Proof.
  intros -> Hws Hch Hd Hs Hr Hlim.
  assert (Hl : Json.loads py
                 (replace_char SQUOTE DQUOTE (LBRACE :: ws ++ ch :: rest))
               = Raise Json.the_JSONDecodeError).
  { unfold replace_char. cbn [map]. rewrite map_app. cbn [map].
    fold (replace_char SQUOTE DQUOTE ws). fold (replace_char SQUOTE DQUOTE rest).
    rewrite (replace_char_blanks Hws).
    change (char_eqb LBRACE SQUOTE) with false. cbv iota.
    replace (char_eqb ch SQUOTE) with false
      by (symmetry; now apply N.eqb_neq).
    set (rest' := replace_char SQUOTE DQUOTE rest).
    unfold Json.loads. change (startswith _ _) with false. cbv iota.
    unfold Json.decode. cbn [Json.skip_ws].
    change (Json.is_ws LBRACE) with false. cbv iota zeta.
    destruct (recursion_limit py) as [|inside]; [contradiction|].
    set (s0 := LBRACE :: ws ++ ch :: rest').
    replace (2 * length s0 + 2) with (S (S (2 * length s0))) by lia.
    unfold s0. cbn [Json.scan_once].
    change (LBRACE =? 34)%N with false. change (LBRACE =? 123)%N with true.
    cbv iota. rewrite (skip_ws_blanks _ Hws). cbn [Json.skip_ws].
    rewrite Hch.
    replace (ch =? 125)%N with false by (symmetry; now apply N.eqb_neq).
    cbn [Json.parse_members].
    replace (ch =? 34)%N with false by (symmetry; now apply N.eqb_neq).
    reflexivity. }
  assert (Hex : excluded py (LBRACE :: ws ++ ch :: rest)).
  { unfold excluded. rewrite Hl. reflexivity. }
  split; [exact Hl|]. split; [exact Hex|].
  intros text before after Hf.
  unfold _extract_tool_calls. rewrite Hf.
  now apply scan_candidates_without.
Qed.

Lemma unquoted_key_witness :
  Json.loads sample_py (replace_char SQUOTE DQUOTE unquoted_call)
  = Raise Json.the_JSONDecodeError
  /\ excluded sample_py unquoted_call
  /\ forall text before after,
       Re.finditer json_pattern text = before ++ unquoted_call :: after ->
       _extract_tool_calls sample_py (PyStr text)
       = scan_candidates sample_py (before ++ after) [].
Proof.
  apply (@unquoted_key_is_not_a_tool_call sample_py unquoted_call [32%N] 116%N
           (utf8q "ool: `sum`, args: {`a`: 2}}")).
  - vm_compute. reflexivity.
  - repeat constructor.
  - vm_compute. reflexivity.
  - unfold DQUOTE. lia.
  - unfold SQUOTE. lia.
  - unfold RBRACE. lia.
  - discriminate.
Defined.

Lemma concat_length_bound {A} (f : A -> pystr) (k : nat) (l : list A) :
  Forall (fun x => length (f x) <= k) l ->
  length (concat (map f l)) <= k * length l.
Proof.
  induction 1 as [|x l Hx _ IH]; simpl; [lia|].
  rewrite length_app. lia.
Qed.

Lemma render_turn_length (t : turn) :
  role t = ROLE_USER \/ role t = ROLE_ASSISTANT ->
  length (render_turn t) <= 215.
Proof.
  intro H. unfold render_turn, slice_to. rewrite !length_app.
  pose proof (length_firstn 200 (content t)) as Hc.
  assert (length (role t) <= 9) by (destruct H as [-> | ->]; vm_compute; lia).
  change (length (utf8 ": ")) with 2. change (length (utf8 "...")) with 3.
  change (length nl) with 1. lia.
Qed.

(** From the second iteration on, the prompt is the current user message
    and at most 891 characters more, however long the history and its
    turns are: the header and at most four lines of at most 215 characters.
    This holds for a history of [user] and [assistant] turns, and the loop
    builds no other: what it does to the history keeps it so. *)
Theorem context_window_is_bounded
    (repr : value -> pystr) (iteration : Z) (st : loop_state) :
  iteration <> 0%Z ->
  known_roles (conversation_history st) ->
  length (fst (build_message iteration st)) <= length (user_message st) + 891
  /\ (forall j, known_roles (conversation_history (snd (build_message j st))))
  /\ (forall response results log2,
        known_roles
          (conversation_history (after_round repr st response results log2))).
Proof.
  intros Hi Hk. split; [|split].
  - unfold build_message.
    destruct (Z.eqb_spec iteration 0) as [E|_]; [contradiction|].
    cbn [fst]. rewrite fold_left_concat, !length_app.
    destruct (last_n_suffix 4 (conversation_history st)) as [Hlen [older Eq]].
    assert (Hw : Forall (fun t => length (render_turn t) <= 215)
                   (last_n 4 (conversation_history st))).
    { unfold known_roles in Hk. rewrite Eq in Hk.
      apply Forall_app in Hk. destruct Hk as [_ Hk].
      revert Hk. apply Forall_impl. intros t. apply render_turn_length. }
    pose proof (concat_length_bound render_turn Hw) as Hb.
    assert (length CONTEXT_HEADER = 31) as -> by (vm_compute; reflexivity).
    lia.
  - intro j. unfold build_message. destruct (j =? 0)%Z; cbn [snd]; [|exact Hk].
    cbn [conversation_history]. apply Forall_app. split; [exact Hk|].
    constructor; [now left|constructor].
  - intros response results log2. unfold after_round, known_roles.
    cbn [conversation_history]. apply Forall_app. split; [exact Hk|].
    constructor; [now right|]. constructor; [now left|constructor].
Qed.

Lemma context_window_witness :
  length (fst (build_message 2 sample_state))
  <= length (user_message sample_state) + 891
  /\ (forall j,
        known_roles (conversation_history (snd (build_message j sample_state))))
  /\ (forall response results log2,
        known_roles
          (conversation_history
             (after_round sample_repr sample_state response results log2))).
Proof.
  apply (@context_window_is_bounded sample_repr 2%Z sample_state).
  - lia.
  - unfold known_roles, sample_state. cbn [conversation_history].
    repeat (apply Forall_cons;
            [cbn [role]; first [now left | now right]|]).
    apply Forall_nil.
Defined.

(** With the input schemas MCP sends, which are plain dicts, the catalogue
    in the system prompt has, for each tool in the order of the registry,
    the name line and the description line and nothing else: no parameter
    is listed, since a dict has no attribute [properties]. *)
Theorem dict_schemas_list_no_parameters
    (repr : value -> pystr) (self : SmartChatClient) :
  Forall (fun t => exists v, inputSchema t = SchemaValue v)
    (available_tools self) ->
  _format_tools_description repr self
  = concat (map (plain_tool_lines repr) (available_tools self)).
Proof.
  intro H. unfold _format_tools_description. rewrite fold_left_concat.
  cbn [app]. f_equal.
  induction H as [|t ts [v Hv] _ IH]; [reflexivity|].
  cbn [map]. rewrite IH. f_equal.
  unfold format_tool, plain_tool_lines. rewrite Hv.
  now rewrite !app_nil_r.
Qed.

Lemma dict_schemas_witness :
  _format_tools_description sample_repr two_tool_client
  = concat (map (plain_tool_lines sample_repr) (available_tools two_tool_client)).
Proof.
  apply (@dict_schemas_list_no_parameters sample_repr two_tool_client).
  unfold two_tool_client. cbn [available_tools initialize].
  repeat constructor; eexists; reflexivity.
Defined.

(** * Further properties: the extractor *)

(** In a text made of tool-call objects with no opening brace before,
    between or after them, where each object is matched whole by
    [json_pattern] (its only braces are its own and those of inner pairs
    that hold no brace), has no apostrophe in it and decodes to an object
    with a ["tool"] field, the extractor yields one tool call per object,
    in the order of the text. *)
Theorem spaced_tool_objects_are_extracted_in_order
    (py : interpreter) (text : pystr) (objs : list pystr) (ds : list dict) :
  spaced_objects text objs ->
  Forall2 (plain_tool_object py) objs ds ->
  _extract_tool_calls py (PyStr text) = Ok (map call_of_object ds).
Proof.
  intros Hs Hd. rewrite extract_text. rewrite (finditer_spaced Hs).
  destruct (calls_of_plain Hd) as [-> ->]. reflexivity.
Qed.

Lemma spaced_tool_objects_witness :
  _extract_tool_calls sample_py (PyStr two_calls)
  = Ok (map call_of_object
          [ [(K_tool, PyStr (utf8 "get_date"))];
            [(K_tool, PyStr (utf8 "sum"));
             (K_args, PyDict [(utf8 "a", PyInt 2); (utf8 "b", PyInt 3)])] ]).
Proof.
  apply (@spaced_tool_objects_are_extracted_in_order sample_py two_calls
           [get_date_call; sum_call]).
  - unfold two_calls. apply spaced_object.
    + no_such_char.
    + vm_compute. reflexivity.
    + apply spaced_object.
      * no_such_char.
      * vm_compute. reflexivity.
      * apply spaced_end. no_such_char.
  - constructor; [|constructor; [|constructor]].
    + split; [no_such_char|]. split; [vm_compute; reflexivity|reflexivity].
    + split; [no_such_char|]. split; [vm_compute; reflexivity|reflexivity].
Defined.

(** A candidate for which [json.loads] raises what line 214 catches, or
    which decodes to something that is not an object, or to an object
    without ["tool"], is skipped: the extractor does on the text what it
    does on the other candidates alone. *)
Theorem excluded_candidates_are_skipped
    (py : interpreter) (text : pystr) (pre : list pystr) (c : pystr)
    (post : list pystr) :
  Re.finditer json_pattern text = pre ++ c :: post ->
  excluded py c ->
  _extract_tool_calls py (PyStr text) = scan_candidates py (pre ++ post) [].
Proof.
  intros Hf Hx. unfold _extract_tool_calls. rewrite Hf.
  now apply scan_candidates_without.
Qed.

Lemma excluded_candidates_witness :
  _extract_tool_calls sample_py (PyStr scenario_E)
  = scan_candidates sample_py ([] ++ []) [].
Proof.
  apply (@excluded_candidates_are_skipped sample_py scenario_E [] scenario_E []).
  - vm_compute. reflexivity.
  - vm_compute. reflexivity.
Defined.

Lemma nested_head :
  utf8q "{`tool`: " = [123; 34; 116; 111; 111; 108; 34; 58; 32]%N.
Proof. vm_compute. reflexivity. Qed.

Lemma In_repeat {A} (x y : A) (n : nat) : In x (repeat y n) -> x = y.
Proof. intro H. exact (repeat_spec n y x H). Qed.

(** The arrays are one more than [depth] allows: the scanner raises. *)
Lemma scan_nested_arrays (py : interpreter) (depth : nat) :
  forall k fuel tail,
    depth < k -> 2 * depth + 1 <= fuel ->
    Json.scan_once py fuel depth (repeat 91%N k ++ tail)
    = Json.Raised (Json.too_deep (utf8 "array")).
Proof.
  induction depth as [|depth IH]; intros k fuel tail Hk Hf.
  - destruct k as [|k]; [lia|]. destruct fuel as [|fuel]; [lia|].
    cbn [repeat app Json.scan_once].
    change (91 =? 34)%N with false. change (91 =? 123)%N with false.
    change (91 =? 91)%N with true. reflexivity.
  - destruct k as [|[|k]]; try lia.
    destruct fuel as [|[|fuel]]; try lia.
    cbn [repeat app Json.scan_once].
    change (91 =? 34)%N with false. change (91 =? 123)%N with false.
    change (91 =? 91)%N with true. cbv iota.
    cbn [Json.skip_ws]. change (Json.is_ws 91%N) with false. cbv iota.
    change (91 =? 93)%N with false. cbv iota.
    cbn [Json.parse_elements].
    change (91%N :: repeat 91%N k ++ tail) with (repeat 91%N (S k) ++ tail).
    rewrite IH by lia. reflexivity.
Qed.

Lemma replace_char_nested (n : nat) :
  replace_char SQUOTE DQUOTE (nested_arrays n) = nested_arrays n.
Proof.
  apply replace_char_absent. unfold nested_arrays. rewrite nested_head.
  intro H. repeat (apply in_app_or in H; destruct H as [H|H]).
  - repeat (destruct H as [H|H]; [discriminate H|]). destruct H.
  - apply In_repeat in H. discriminate H.
  - apply In_repeat in H. discriminate H.
  - destruct H as [H|[]]. discriminate H.
Qed.

(** [json.loads] on arrays nested as deep as the limit or deeper. *)
Lemma loads_nested_arrays (py : interpreter) (n : nat) :
  recursion_limit py <= n ->
  Json.loads py (nested_arrays n)
  = Raise (Json.too_deep
             match recursion_limit py with
             | O => utf8 "object"
             | S _ => utf8 "array"
             end).
Proof.
  intro Hn. unfold nested_arrays. rewrite nested_head.
  unfold Json.loads. cbn [app].
  change (startswith [65279%N] (123%N :: _)) with false. cbv iota.
  unfold Json.decode. cbn [Json.skip_ws].
  change (Json.is_ws 123%N) with false. cbv iota zeta.
  set (body := repeat 91%N n ++ repeat 93%N n ++ [RBRACE]).
  match goal with
  | |- context [Json.scan_once py (2 * ?l + 2) _ _] => set (len := l)
  end.
  assert (Hlen : 2 * n < len).
  { unfold len, body. cbn [length]. rewrite !length_app, !repeat_length. lia. }
  clearbody len.
  replace (2 * len + 2) with (S (S (S (2 * len - 1)))) by lia.
  cbn [Json.scan_once].
  change (123 =? 34)%N with false. change (123 =? 123)%N with true. cbv iota.
  destruct (recursion_limit py) as [|inside]; [reflexivity|].
  cbn [Json.skip_ws]. change (Json.is_ws 34%N) with false. cbv iota.
  change (34 =? 125)%N with false. cbv iota.
  cbn [Json.parse_members].
  change (34 =? 34)%N with true. cbv iota.
  match goal with
  | |- context [Json.scanstring ?s ?acc] =>
      replace (Json.scanstring s acc)
        with (Some ([116; 111; 111; 108]%N, 58%N :: 32%N :: body))
        by reflexivity
  end.
  cbn [Json.skip_ws]. change (Json.is_ws 58%N) with false. cbv iota.
  change (58 =? 58)%N with true. cbv iota.
  change (Json.skip_ws (32%N :: body)) with (Json.skip_ws body).
  assert (Hb : Json.skip_ws body = body).
  { unfold body. destruct n as [|n]; [lia|]. reflexivity. }
  rewrite Hb. unfold body.
  rewrite scan_nested_arrays; [reflexivity|lia|lia].
Qed.

Lemma matches_no_braces_of (w : pystr) :
  Forall (fun c => is_brace c = false) w -> Re.matches no_braces w.
Proof.
  unfold no_braces. induction 1 as [|c w Hc _ IH]; [constructor|].
  change (c :: w) with ([c] ++ w). constructor; [|exact IH].
  constructor. unfold is_brace in Hc. apply orb_false_iff in Hc as [H1 H2].
  cbn [existsb]. now rewrite H1, H2.
Qed.

Lemma matches_nested_arrays (n : nat) :
  Re.matches json_pattern (nested_arrays n).
Proof.
  assert (E : nested_arrays n
              = [LBRACE]
                ++ (([34; 116; 111; 111; 108; 34; 58; 32]%N
                     ++ repeat 91%N n ++ repeat 93%N n)
                    ++ ([] ++ [RBRACE]))).
  { unfold nested_arrays. rewrite nested_head. cbn [app].
    now rewrite <- app_assoc. }
  rewrite E. unfold json_pattern.
  constructor; [constructor|]. constructor.
  - apply matches_no_braces_of. apply Forall_app. split.
    + repeat constructor.
    + apply Forall_app. split; apply Forall_forall; intros x Hx;
        apply In_repeat in Hx; now subst x.
  - constructor; constructor.
Qed.

(** Line 214 leaves [RecursionError] out: for every interpreter there are
    candidates that make the extractor raise, and the run with it.  When
    the first reply is a candidate whose ["tool"] field holds arrays
    nested as deep as [json.loads] can go, or deeper, [json.loads] raises
    [RecursionError], the extractor raises it in turn, and it leaves
    [query_ollama_with_tools] after the first model call. *)
Theorem nesting_beyond_the_limit_is_not_caught
    (repr : value -> pystr) (py : interpreter) (self : SmartChatClient)
    (world : backend) (question : pystr) (max_iterations : Z) (n : nat) :
  let system_prompt := system_prompt_of (_format_tools_description repr self) in
  let e :=
    Json.too_deep
      match recursion_limit py with
      | O => utf8 "object"
      | S _ => utf8 "array"
      end in
  recursion_limit py <= n ->
  (1 <= max_iterations)%Z ->
  gateway_result
    (world [] OLLAMA_URL (payload_of self system_prompt question))
  = Ok (PyStr (nested_arrays n)) ->
  exn_cls e = RecursionError
  /\ existsb (subclass (exn_cls e)) skipped_classes = false
  /\ _extract_tool_calls py (PyStr (nested_arrays n)) = Raise e
  /\ query_ollama_with_tools repr py self world question max_iterations
     = (Raise e, [post_of self system_prompt question]).
Proof.
  intros system_prompt e Hn HB Hg.
  split; [reflexivity|]. split; [reflexivity|].
  assert (He : _extract_tool_calls py (PyStr (nested_arrays n)) = Raise e).
  { assert (Ef : Re.finditer json_pattern (nested_arrays n)
                 = [nested_arrays n]).
    { rewrite <- (app_nil_r (nested_arrays n)) at 1.
      now rewrite (PatternFacts.finditer_match [] (matches_nested_arrays n)). }
    rewrite extract_text, Ef.
    cbn [first_escape]. unfold candidate_escape.
    rewrite replace_char_nested, (loads_nested_arrays py Hn).
    reflexivity. }
  split; [exact He|].
  unfold query_ollama_with_tools, range_len. fold system_prompt.
  destruct (Z.to_nat max_iterations) as [|todo] eqn:En; [lia|].
  match goal with
  | |- iterate _ _ _ _ _ _ _ _ ?st0 = _ =>
      pose proof (iterate_step repr py self world system_prompt max_iterations
                    todo 0 st0) as H
  end.
  cbv zeta in H. unfold build_message in H.
  change (0 =? 0)%Z with true in H. cbn [fst snd log user_message app] in H.
  rewrite Hg, He in H. exact H.
Qed.

Lemma nesting_beyond_the_limit_witness :
  _extract_tool_calls sample_py (PyStr (nested_arrays 2000))
  = Raise (Json.too_deep
             match recursion_limit sample_py with
             | O => utf8 "object"
             | S _ => utf8 "array"
             end).
Proof.
  refine (proj1 (proj2 (proj2
            (@nesting_beyond_the_limit_is_not_caught sample_repr sample_py
               sample_client (always_replies (nested_arrays 2000))
               (utf8 "2+3?") 5%Z 2000 _ _ _)))).
  - apply Nat.leb_le. vm_compute. reflexivity.
  - lia.
  - reflexivity.
Defined.

(** * Further properties: the tools of mcp_server.py *)

Section ServerFacts.
Import Server.

Lemma app_nonempty (a b : pystr) : a <> [] -> a ++ b <> [].
Proof. destruct a; [congruence|discriminate]. Qed.

Lemma TRUNCATED_length : length TRUNCATED = 16.
Proof. reflexivity. Qed.

Lemma handle_cons {A} (e : exn) (classes : list exn_class)
    (h : exn -> result A) (more : list (except_clause A)) :
  handle e ((classes, h) :: more)
  = if existsb (subclass (exn_cls e)) classes then h e else handle e more.
Proof. reflexivity. Qed.

Lemma caught_as_Exception {A} (e : exn) (h : exn -> result A) :
  handle e [([Exception], h)] = h e.
Proof. cbn [handle existsb]. now destruct (exn_cls e). Qed.

(** [read_notes] on a file it could read: the text it returns starts with
    the first 10000 characters of the file and is never longer than 10016
    characters; a file of at most 10000 characters comes back as it is, a
    longer one cut after 10000 characters and followed by the marker. *)
Theorem read_notes_cuts_long_files (content : pystr) :
  exists text,
    read_notes (Ok content) = Ok text
    /\ (Z.of_nat (length text) <= max_len + 16)%Z
    /\ firstn (Z.to_nat max_len) text = firstn (Z.to_nat max_len) content
    /\ ((Z.of_nat (length content) <= max_len)%Z -> text = content)
    /\ ((max_len < Z.of_nat (length content))%Z ->
        text = firstn (Z.to_nat max_len) content ++ TRUNCATED
        /\ (Z.of_nat (length text) = max_len + 16)%Z).
Proof.
  unfold read_notes, slice_to.
  destruct (Z.ltb_spec max_len (Z.of_nat (length content))) as [Hlong|Hshort].
  - eexists. split; [reflexivity|].
    assert (Hl : length (firstn (Z.to_nat max_len) content) = Z.to_nat max_len).
    { rewrite length_firstn. lia. }
    assert (Hlen : Z.of_nat (length (firstn (Z.to_nat max_len) content ++ TRUNCATED))
                   = (max_len + 16)%Z).
    { rewrite length_app, Hl, TRUNCATED_length. unfold max_len. lia. }
    split; [lia|]. split; [|split].
    + rewrite firstn_app, Hl, Nat.sub_diag. cbn [firstn].
      rewrite app_nil_r, firstn_firstn, Nat.min_id. reflexivity.
    + lia.
    + intros _. split; [reflexivity|exact Hlen].
  - exists content. split; [reflexivity|].
    split; [lia|]. split; [reflexivity|]. split; [reflexivity|lia].
Qed.

(** [read_notes] never raises: whatever reading the file raises is turned
    into a text, the fixed one for a missing file and the text of the
    exception after a fixed prefix for anything else. *)
Theorem read_notes_never_raises (read_text : result pystr) :
  exists text,
    read_notes read_text = Ok text
    /\ forall e, read_text = Raise e ->
         text = if subclass (exn_cls e) FileNotFoundError
                then NOTES_NOT_FOUND
                else NOTES_ERROR ++ exn_str e.
Proof.
  destruct read_text as [content|e].
  - unfold read_notes.
    destruct (_ <? _)%Z; eexists; (split; [reflexivity|intros e [=]]).
  - unfold read_notes. rewrite handle_cons. cbn [existsb].
    destruct (subclass (exn_cls e) FileNotFoundError) eqn:E; cbn [orb].
    + eexists. split; [reflexivity|]. intros e' [= <-]. now rewrite E.
    + rewrite caught_as_Exception.
      eexists. split; [reflexivity|]. intros e' [= <-]. now rewrite E.
Qed.

Variable repr : value -> pystr.
Variable dict_slice_error : dict -> Z -> exn.

Lemma slice_upto_length {A} (n : Z) (l : list A) :
  (0 <= n)%Z -> length (slice_upto n l) <= Z.to_nat n.
Proof.
  intro H. unfold slice_upto.
  destruct (Z.leb_spec 0 n); [|lia]. rewrite length_firstn. lia.
Qed.

Lemma topic_entry_shape (item : value) :
  length (topic_entry repr item) <= 1
  /\ Forall (fun entry => exists more, entry = TOPIC_MARK ++ more)
       (topic_entry repr item).
Proof.
  unfold topic_entry. destruct item; try (split; [simpl; lia|constructor]).
  destruct (truthy _); split; try (simpl; lia); repeat constructor.
  eexists. reflexivity.
Qed.

Lemma topic_entries_shape (items : list value) :
  length (flat_map (topic_entry repr) items) <= length items
  /\ Forall (fun entry => exists more, entry = TOPIC_MARK ++ more)
       (flat_map (topic_entry repr) items).
Proof.
  induction items as [|item items [IHl IHf]]; [split; [simpl; lia|constructor]|].
  destruct (topic_entry_shape item) as [Hl Hf].
  cbn [flat_map]. split.
  - rewrite length_app. simpl. lia.
  - apply Forall_app. now split.
Qed.

Lemma related_items_length (topics : value) (n : Z) (items : list value) :
  (0 <= n)%Z -> related_items dict_slice_error topics n = Ok items ->
  length items <= Z.to_nat n.
Proof.
  intros Hn. unfold related_items.
  destruct topics; try discriminate; intros [= <-].
  - rewrite length_map. now apply slice_upto_length.
  - now apply slice_upto_length.
Qed.

(** The list [results]: at most one entry for the abstract, then the
    entries of the topics. *)
Lemma search_results_shape (data : value) (n : Z) (entries : list pystr) :
  search_results repr dict_slice_error data n = Ok entries ->
  exists abstract topics,
    entries = abstract ++ topics
    /\ length abstract <= 1
    /\ Forall (fun entry => exists more, entry = ABSTRACT_MARK ++ more) abstract
    /\ Forall (fun entry => exists more, entry = TOPIC_MARK ++ more) topics
    /\ ((0 <= n)%Z -> length topics <= Z.to_nat n).
Proof.
  unfold search_results. destruct data; try discriminate.
  set (first :=
         if truthy (dict_get d K_AbstractText PyNone)
         then bind (subscript d K_AbstractText) _ else Ok []).
  assert (Hfirst : forall abstract, first = Ok abstract ->
            length abstract <= 1
            /\ Forall (fun entry => exists more, entry = ABSTRACT_MARK ++ more)
                 abstract).
  { unfold first. destruct (truthy _).
    - destruct (subscript d K_AbstractText); cbn [bind]; [|discriminate].
      intros abstract [= <-]. split; [simpl; lia|].
      repeat constructor. eexists. reflexivity.
    - intros abstract [= <-]. split; [simpl; lia|constructor]. }
  destruct first as [abstract|e]; cbn [bind]; [|discriminate].
  destruct (Hfirst abstract eq_refl) as [Hl Hf].
  destruct (truthy (dict_get d K_RelatedTopics PyNone)).
  - destruct (subscript d K_RelatedTopics) as [topics|e]; cbn [bind];
      [|discriminate].
    destruct (related_items dict_slice_error topics n) as [items|e] eqn:Ei;
      cbn [bind]; [|discriminate].
    intros [= <-].
    destruct (topic_entries_shape items) as [Tl Tf].
    exists abstract, (flat_map (topic_entry repr) items).
    repeat split; try assumption.
    intro Hn. pose proof (related_items_length _ Hn Ei). lia.
  - intros [= <-]. exists abstract, [].
    rewrite app_nil_r. repeat split; try assumption; [constructor|simpl; lia].
Qed.

Lemma join_nonempty (sep first : pystr) (more : list pystr) :
  first <> [] -> join sep (first :: more) <> [].
Proof.
  intro H. destruct more; cbn [join]; [exact H|now apply app_nonempty].
Qed.

Lemma search_handlers_total (e : exn) :
  exists text,
    handle e
      [(timeout_classes, fun _ => Ok MSG_TIMEOUT);
       (request_error_classes, fun e => Ok (MSG_NETWORK ++ exn_str e));
       ([Exception], fun e => Ok (MSG_SEARCH_FAILED ++ exn_str e))]
    = Ok text
    /\ text <> [].
Proof.
  rewrite handle_cons.
  destruct (existsb _ timeout_classes).
  { eexists. split; [reflexivity|discriminate]. }
  rewrite handle_cons.
  destruct (existsb _ request_error_classes).
  { eexists. split; [reflexivity|]. apply app_nonempty. discriminate. }
  rewrite caught_as_Exception.
  eexists. split; [reflexivity|]. apply app_nonempty. discriminate.
Qed.

(** [search_duckduckgo] never raises and never returns the empty text:
    whatever the request, the status check, the decoding of the body or
    the reading of the decoded value does, the tool answers with a text
    that has something in it. *)
Theorem search_always_answers
    (web : pystr -> dict -> post_outcome) (query : pystr) (max_results : Z) :
  exists text,
    search_duckduckgo repr dict_slice_error web query max_results = Ok text
    /\ text <> [].
Proof.
  unfold search_duckduckgo.
  destruct (read_json _) as [data|e]; cbn [bind try_except];
    [|apply search_handlers_total].
  destruct (search_results repr dict_slice_error data max_results)
    as [entries|e] eqn:Es; cbn [bind try_except];
    [|apply search_handlers_total].
  eexists. split; [reflexivity|].
  destruct (search_results_shape _ _ Es) as (abstract & topics & -> & _ & Ha & Ht & _).
  unfold render_results.
  destruct abstract as [|a abstract]; cbn [app].
  - destruct topics as [|t topics]; [apply app_nonempty; discriminate|].
    apply join_nonempty. inversion Ht as [|? ? [more ->] _]; subst.
    first [discriminate | apply app_nonempty; discriminate].
  - apply join_nonempty. inversion Ha as [|? ? [more ->] _]; subst.
    first [discriminate | apply app_nonempty; discriminate].
Qed.

(** With a limit that is not negative, a decoded answer gives at most one
    entry for the abstract, which comes first, and at most [max_results]
    entries for related topics; the text is these entries with an empty
    line between them, or the message that names the query when there is
    none. *)
Theorem search_lists_at_most_max_results_topics
    (web : pystr -> dict -> post_outcome) (query : pystr) (max_results : Z)
    (data : value) (entries : list pystr) :
  (0 <= max_results)%Z ->
  read_json (web DDG_URL (params_of query)) = Ok data ->
  search_results repr dict_slice_error data max_results = Ok entries ->
  search_duckduckgo repr dict_slice_error web query max_results
  = Ok (match entries with
        | [] => NO_RESULTS ++ query
        | _ :: _ => join (nl ++ nl) entries
        end)
  /\ exists abstract topics,
       entries = abstract ++ topics
       /\ length abstract <= 1
       /\ Forall (fun entry => exists more, entry = ABSTRACT_MARK ++ more) abstract
       /\ Forall (fun entry => exists more, entry = TOPIC_MARK ++ more) topics
       /\ length topics <= Z.to_nat max_results.
Proof.
  intros Hn Hr Hs. split.
  - unfold search_duckduckgo. rewrite Hr. cbn [bind]. rewrite Hs. reflexivity.
  - destruct (search_results_shape _ _ Hs)
      as (abstract & topics & E & Hl & Ha & Ht & Hb).
    exists abstract, topics. repeat split; auto.
Qed.

(** A request that times out, in any of the four ways httpx tells apart,
    gives the fixed message and nothing of the exception. *)
Theorem search_timeout_gives_the_fixed_message
    (web : pystr -> dict -> post_outcome) (query : pystr) (max_results : Z)
    (e : exn) :
  web DDG_URL (params_of query) = PostRaises e ->
  In (exn_cls e) timeout_classes ->
  search_duckduckgo repr dict_slice_error web query max_results
  = Ok MSG_TIMEOUT.
Proof.
  intros Hw Hin. unfold search_duckduckgo, read_json. rewrite Hw.
  cbn [bind try_except]. rewrite handle_cons.
  replace (existsb (subclass (exn_cls e)) timeout_classes) with true;
    [reflexivity|].
  symmetry. apply existsb_exists. exists (exn_cls e). split; [exact Hin|].
  unfold timeout_classes in Hin. cbn [map In] in Hin.
  destruct Hin as [<-|[<-|[<-|[<-|[<-|[]]]]]]; vm_compute; reflexivity.
Qed.

End ServerFacts.

Lemma search_lists_witness :
  Server.search_duckduckgo sample_repr Server.slice_error_311 Server.sample_web
    (utf8 "Kyiv") 2
  = Ok (match Server.sample_entries with
        | [] => Server.NO_RESULTS ++ utf8 "Kyiv"
        | _ :: _ => Server.join (nl ++ nl) Server.sample_entries
        end)
  /\ exists abstract topics,
       Server.sample_entries = abstract ++ topics
       /\ length abstract <= 1
       /\ Forall (fun entry => exists more, entry = Server.ABSTRACT_MARK ++ more)
            abstract
       /\ Forall (fun entry => exists more, entry = Server.TOPIC_MARK ++ more)
            topics
       /\ length topics <= Z.to_nat 2.
Proof.
  apply (@search_lists_at_most_max_results_topics sample_repr
           Server.slice_error_311 Server.sample_web (utf8 "Kyiv") 2%Z
           Server.sample_answer Server.sample_entries).
  - lia.
  - reflexivity.
  - vm_compute. reflexivity.
Defined.

Lemma search_timeout_witness :
  Server.search_duckduckgo sample_repr Server.slice_error_311 Server.slow_web
    (utf8 "Kyiv") 5
  = Ok Server.MSG_TIMEOUT.
Proof.
  apply (@search_timeout_gives_the_fixed_message sample_repr
           Server.slice_error_311 Server.slow_web (utf8 "Kyiv") 5%Z
           Server.read_timeout).
  - reflexivity.
  - vm_compute. right. right. left. reflexivity.
Defined.

(** * Further properties: the chat of [main] *)

Section MainFacts.

Variable repr : value -> pystr.
Variable py : interpreter.
Variable model_name : pystr.
Variable s : ClientSession.
Variable tools : list Tool.
Variable world : backend.

Let loop := chat_loop repr py model_name s tools world.

Lemma exit_is_not_blank (line : pystr) :
  is_exit (strip line) = true -> is_blank line = false.
Proof. unfold is_blank. now destruct (strip line). Qed.

(** One turn of the loop on a line that holds a question. *)
Lemma chat_loop_question (line : pystr) (rest : list pystr)
    (done : list event) (printed : list value) :
  is_exit (strip line) = false -> is_blank line = false ->
  loop (line :: rest) done printed
  = match query_ollama_with_tools repr py
            (initialize (init model_name) (later done s) tools)
            (later done world) (strip line) DEFAULT_ITERATIONS with
    | (Ok response, events) =>
        match print_value [] response with
        | Ok _ => loop rest (done ++ events) (printed ++ [response])
        | Raise e =>
            {| answers := printed; unread := rest; trace := done ++ events;
               ending := Failed e |}
        end
    | (Raise e, events) =>
        {| answers := printed; unread := rest; trace := done ++ events;
           ending := Failed e |}
    end.
Proof. intros Ex Eb. unfold loop. cbn [chat_loop]. now rewrite Ex, Eb. Qed.

Lemma chat_loop_exit (line : pystr) (rest : list pystr)
    (done : list event) (printed : list value) :
  is_exit (strip line) = true ->
  loop (line :: rest) done printed
  = {| answers := printed; unread := rest; trace := done; ending := Exited |}.
Proof. intros Ex. unfold loop. cbn [chat_loop]. now rewrite Ex. Qed.

Lemma chat_loop_blank (line : pystr) (rest : list pystr)
    (done : list event) (printed : list value) :
  is_blank line = true ->
  loop (line :: rest) done printed = loop rest done printed.
Proof.
  intros Eb. unfold loop. cbn [chat_loop].
  destruct (is_exit (strip line)) eqn:Ex.
  - apply exit_is_not_blank in Ex. congruence.
  - now rewrite Eb.
Qed.

(** The three cases of a turn. *)
Ltac turn line Ex Eb :=
  destruct (is_exit (strip line)) eqn:Ex;
  [rewrite !chat_loop_exit by exact Ex
  |destruct (is_blank line) eqn:Eb;
   [rewrite !chat_loop_blank by exact Eb
   |rewrite !chat_loop_question by assumption]].

Lemma chat_loop_goes_on (before more : list pystr) :
  forall done printed,
    ending (loop before done printed) = EndOfInput ->
    loop (before ++ more) done printed
    = loop more (trace (loop before done printed))
        (answers (loop before done printed)).
Proof.
  induction before as [|line before IH]; intros done printed H;
    [reflexivity|].
  change ((line :: before) ++ more) with (line :: (before ++ more)).
  revert H. turn line Ex Eb.
  - discriminate.
  - apply IH.
  - destruct (query_ollama_with_tools _ _ _ _ _ _) as [[response|e] events].
    + destruct (print_value [] response); [apply IH|discriminate].
    + discriminate.
Qed.

Lemma chat_loop_stops (before more : list pystr) :
  forall done printed,
    ending (loop before done printed) <> EndOfInput ->
    loop (before ++ more) done printed
    = {| answers := answers (loop before done printed);
         unread := unread (loop before done printed) ++ more;
         trace := trace (loop before done printed);
         ending := ending (loop before done printed) |}.
Proof.
  induction before as [|line before IH]; intros done printed H.
  - now contradiction H.
  - change ((line :: before) ++ more) with (line :: (before ++ more)).
    revert H. turn line Ex Eb.
    + reflexivity.
    + apply IH.
    + destruct (query_ollama_with_tools _ _ _ _ _ _) as [[response|e] events].
      * destruct (print_value [] response); [apply IH|reflexivity].
      * reflexivity.
Qed.

Lemma chat_loop_without_blanks (stdin : list pystr) :
  forall done printed,
    let r := loop stdin done printed in
    let r' := loop (filter (fun line => negb (is_blank line)) stdin)
                done printed in
    answers r' = answers r /\ trace r' = trace r /\ ending r' = ending r
    /\ unread r' = filter (fun line => negb (is_blank line)) (unread r).
Proof.
  induction stdin as [|line stdin IH]; intros done printed; cbv zeta.
  - repeat split.
  - cbn [filter].
    destruct (is_exit (strip line)) eqn:Ex.
    + rewrite (exit_is_not_blank _ Ex). cbn [negb].
      rewrite !chat_loop_exit by exact Ex. repeat split.
    + destruct (is_blank line) eqn:Eb; cbn [negb].
      * rewrite chat_loop_blank by exact Eb. apply IH.
      * rewrite !chat_loop_question by assumption.
        destruct (query_ollama_with_tools _ _ _ _ _ _) as [[response|e] events].
        -- destruct (print_value [] response); [apply IH|repeat split].
        -- repeat split.
Qed.

Lemma query_posts_bound (self : SmartChatClient) (w : backend)
    (question : pystr) :
  count_posts
    (snd (query_ollama_with_tools repr py self w question DEFAULT_ITERATIONS))
  <= 6.
Proof.
  unfold query_ollama_with_tools.
  match goal with
  | |- count_posts (snd (iterate _ _ _ _ ?sp ?m ?n ?i ?st0)) <= _ =>
      pose proof (posts_bound repr py self w sp m n i st0) as H
  end.
  change (range_len DEFAULT_ITERATIONS) with 5 in *.
  cbn [log count_posts filter length] in H. lia.
Qed.

Lemma chat_loop_posts (stdin : list pystr) :
  forall done printed,
    count_posts (trace (loop stdin done printed))
    <= count_posts done
       + 6 * length (filter (fun line => negb (is_blank line)) stdin).
Proof.
  induction stdin as [|line stdin IH]; intros done printed.
  - simpl. lia.
  - cbn [filter]. turn line Ex Eb; cbn [negb length trace].
    + lia.
    + apply IH.
    + pose proof (query_posts_bound
                    (initialize (init model_name) (later done s) tools)
                    (later done world) (strip line)) as Hq.
      destruct (query_ollama_with_tools _ _ _ _ _ _) as [[response|e] events];
        cbn [snd] in Hq.
      * destruct (print_value [] response).
        -- specialize (IH (done ++ events) (printed ++ [response])).
           rewrite count_posts_app in IH. lia.
        -- cbn [trace]. rewrite count_posts_app. lia.
      * cbn [trace]. rewrite count_posts_app. lia.
Qed.

Lemma chat_loop_requests (stdin : list pystr) :
  let self := initialize (init model_name) s tools in
  let system_prompt := system_prompt_of (_format_tools_description repr self) in
  forall done printed,
    Forall (request_of self system_prompt) done ->
    Forall (request_of self system_prompt) (trace (loop stdin done printed)).
Proof.
  intros self system_prompt.
  induction stdin as [|line stdin IH]; intros done printed Hd; [exact Hd|].
  turn line Ex Eb.
  - exact Hd.
  - now apply IH.
  - assert (Hq : Forall (request_of self system_prompt)
                   (snd (query_ollama_with_tools repr py
                           (initialize (init model_name) (later done s) tools)
                           (later done world) (strip line) DEFAULT_ITERATIONS))).
    { unfold query_ollama_with_tools.
      match goal with
      | |- Forall _ (snd (iterate _ _ ?c ?w ?sp ?m ?n ?i ?st0)) =>
          pose proof (@iterate_requests repr py c w sp m n i st0) as H
      end.
      cbn [log] in H. specialize (H (Forall_nil _)).
      revert H. apply Forall_impl. intros [u body|n a] Hr; exact Hr. }
    destruct (query_ollama_with_tools _ _ _ _ _ _) as [[response|e] events];
      cbn [snd] in Hq.
    + destruct (print_value [] response).
      * apply IH. apply Forall_app. now split.
      * cbn [trace]. apply Forall_app. now split.
    + cbn [trace]. apply Forall_app. now split.
Qed.

End MainFacts.

(** Lines that are empty or hold blanks only ask nothing: without them the
    chat gives the same answers, makes the same model calls and tool
    invocations, ends the same way and leaves the same lines unread. *)
Theorem blank_lines_ask_nothing
    (repr : value -> pystr) (py : interpreter) (model_name : pystr) (s : ClientSession)
    (tools : list Tool) (world : backend) (stdin : list pystr)
    (done : list event) (printed : list value) :
  let r := chat_loop repr py model_name s tools world stdin done printed in
  let r' := chat_loop repr py model_name s tools world
              (filter (fun line => negb (is_blank line)) stdin) done printed in
  answers r' = answers r /\ trace r' = trace r /\ ending r' = ending r
  /\ unread r' = filter (fun line => negb (is_blank line)) (unread r).
Proof. apply chat_loop_without_blanks. Qed.

(** The word [exit], in any mix of capitals and small letters and with
    blanks around it, ends a chat that got that far: the answers and the
    calls are those of the lines before it, and no line after it is
    read. *)
Theorem exit_ends_the_chat
    (repr : value -> pystr) (py : interpreter) (model_name : pystr) (s : ClientSession)
    (tools : list Tool) (world : backend)
    (before : list pystr) (line : pystr) (rest : list pystr) :
  let r0 := chat_loop repr py model_name s tools world before [] [] in
  ending r0 = EndOfInput ->
  is_exit (strip line) = true ->
  chat_loop repr py model_name s tools world (before ++ line :: rest) [] []
  = {| answers := answers r0; unread := rest; trace := trace r0;
       ending := Exited |}.
Proof.
  intros r0 H0 Ex. unfold r0.
  rewrite chat_loop_goes_on by exact H0.
  now apply chat_loop_exit.
Qed.

Lemma exit_ends_the_chat_witness :
  chat_loop sample_repr sample_py DEFAULT_MODEL five_session [sum_tool] asks_once
    (sample_questions ++ utf8 "  Exit " :: [utf8 "more"]) [] []
  = {| answers :=
         answers (chat_loop sample_repr sample_py DEFAULT_MODEL five_session [sum_tool]
                    asks_once sample_questions [] []);
       unread := [utf8 "more"];
       trace :=
         trace (chat_loop sample_repr sample_py DEFAULT_MODEL five_session [sum_tool]
                  asks_once sample_questions [] []);
       ending := Exited |}.
Proof.
  apply (@exit_ends_the_chat sample_repr sample_py DEFAULT_MODEL five_session [sum_tool]
           asks_once sample_questions (utf8 "  Exit ") [utf8 "more"]).
  - vm_compute. reflexivity.
  - vm_compute. reflexivity.
Defined.

(** A chat that ended, by [exit] or because a question raised (as a reply
    that is no text does), is over: whatever lines follow, they stay
    unread, and the answers, the calls and the ending are the same. *)
Theorem nothing_is_read_after_the_end
    (repr : value -> pystr) (py : interpreter) (model_name : pystr) (s : ClientSession)
    (tools : list Tool) (world : backend) (before more : list pystr) :
  let r0 := chat_loop repr py model_name s tools world before [] [] in
  ending r0 <> EndOfInput ->
  chat_loop repr py model_name s tools world (before ++ more) [] []
  = {| answers := answers r0; unread := unread r0 ++ more;
       trace := trace r0; ending := ending r0 |}.
Proof. intros r0 H0. unfold r0. now apply chat_loop_stops. Qed.

Lemma nothing_is_read_witness :
  chat_loop sample_repr sample_py DEFAULT_MODEL five_session [sum_tool] replies_five
    (sample_questions ++ [utf8 "again"]) [] []
  = {| answers :=
         answers (chat_loop sample_repr sample_py DEFAULT_MODEL five_session [sum_tool]
                    replies_five sample_questions [] []);
       unread :=
         unread (chat_loop sample_repr sample_py DEFAULT_MODEL five_session [sum_tool]
                   replies_five sample_questions [] [])
         ++ [utf8 "again"];
       trace :=
         trace (chat_loop sample_repr sample_py DEFAULT_MODEL five_session [sum_tool]
                  replies_five sample_questions [] []);
       ending :=
         ending (chat_loop sample_repr sample_py DEFAULT_MODEL five_session [sum_tool]
                   replies_five sample_questions [] []) |}.
Proof.
  apply (@nothing_is_read_after_the_end sample_repr sample_py DEFAULT_MODEL five_session
           [sum_tool] replies_five sample_questions [utf8 "again"]).
  vm_compute. discriminate.
Defined.

(** A chat makes at most six model calls for each line that asks
    something: five iterations and the forced last call. *)
Theorem chat_makes_six_calls_a_question_at_most
    (repr : value -> pystr) (py : interpreter) (startup : option exn)
    (list_tools : result (list Tool)) (s : ClientSession) (world : backend)
    (stdin : list pystr) :
  count_posts (trace (main repr py startup list_tools s world stdin))
  <= 6 * length (filter (fun line => negb (is_blank line)) (tl stdin)).
Proof.
  unfold main. destruct startup as [e|]; [apply Nat.le_0_l|].
  destruct stdin as [|line rest]; [apply Nat.le_0_l|].
  destruct list_tools as [tools|e]; [|apply Nat.le_0_l].
  cbn [tl].
  destruct (print (READY (model_name_of line))); [|apply Nat.le_0_l].
  pose proof (chat_loop_posts repr py (model_name_of line) s tools world rest
                [] []) as H.
  exact H.
Qed.

(** Every request of a chat names the model chosen on the first line,
    stripped of the blanks around it, or [gemma3:4b] when that line is
    blank, and carries the system prompt of the tools loaded at the
    start. *)
Theorem every_request_of_the_chat_names_the_model
    (repr : value -> pystr) (py : interpreter) (s : ClientSession)
    (tools : list Tool) (world : backend) (line : pystr) (rest : list pystr) :
  let chosen := if is_blank line then DEFAULT_MODEL else strip line in
  let self := initialize (init chosen) s tools in
  Forall
    (request_of self (system_prompt_of (_format_tools_description repr self)))
    (trace (main repr py None (Ok tools) s world (line :: rest))).
Proof.
  intros chosen self.
  assert (E : model_name_of line = chosen).
  { unfold chosen, model_name_of, is_blank. now destruct (strip line). }
  unfold main. rewrite E.
  destruct (print (READY chosen)); [|constructor].
  apply chat_loop_requests. constructor.
Qed.
